(** * NCrystal: configuration store (NCMatCfg.cc) and NCMAT parser
      (NCParseNCMAT.cc), shallow embedding and verified properties.

    Strings are [string], doubles are IEEE-754 binary64 primitive floats,
    C++ [int] is [Z], exceptions are a [result] with the NCrystal error
    kind, and code which mutates an object before throwing is written in a
    state-and-exception monad so that the mutation survives the throw. *)

From Stdlib Require Import String Ascii List ZArith Bool Lia Floats DecimalString.
From stdpp Require Import base option list gmap strings.

Set Warnings "-inexact-float".
Set Default Proof Using "Type".

Local Open Scope string_scope.
Local Open Scope list_scope.

(* ===================================================================== *)
(** ** Exceptions *)
(* ===================================================================== *)

(** The NCrystal error classes thrown by NCRYSTAL_THROW / NCRYSTAL_THROW2
    in the two translation units. *)
Inductive ErrorKind : Type :=
| BadInput | MissingInfo | LogicError | FileNotFound.

(** Outcome of a call: a value, or a thrown error with its message. The
    messages of the model keep the fixed text of the source message; the
    parts streamed into it (line numbers, file names) are left out. *)
Inductive result (A : Type) : Type :=
| Ok (a : A)
| Throw (k : ErrorKind) (what : string).
Arguments Ok {A} a.
Arguments Throw {A} k what.

#[global] Instance result_ret : MRet result := fun A a => Ok a.
#[global] Instance result_bind : MBind result := fun A B f m =>
  match m with
  | Ok a => f a
  | Throw k w => Throw k w
  end.

#[global] Instance result_fmap : FMap result := fun A B f m =>
  match m with
  | Ok a => Ok (f a)
  | Throw k w => Throw k w
  end.

Definition is_Ok {A} (r : result A) : bool :=
  match r with Ok _ => true | Throw _ _ => false end.

Definition throws {A} (k : ErrorKind) (r : result A) : Prop :=
  exists w, r = Throw k w.

(** [try { body } catch (Error::BadInput& e) { NCRYSTAL_THROW2(BadInput, ...) }]:
    a BadInput of the body is rethrown as a BadInput with a new message,
    every other exception passes through. *)
Definition rethrow_BadInput {A} (what : string) (r : result A) : result A :=
  match r with
  | Throw BadInput _ => Throw BadInput what
  | _ => r
  end.

(** State and exception: a C++ member function mutating [*this] (of type
    [S]) which may throw after part of the mutation was done. *)
Definition M (S A : Type) : Type := S -> result A * S.

#[global] Instance M_ret {S} : MRet (M S) := fun A a s => (Ok a, s).
#[global] Instance M_bind {S} : MBind (M S) := fun A B f m s =>
  match m s with
  | (Ok a, s') => f a s'
  | (Throw k w, s') => (Throw k w, s')
  end.

Definition get {S} : M S S := fun s => (Ok s, s).
Definition put {S} (s : S) : M S unit := fun _ => (Ok tt, s).
Definition modify {S} (f : S -> S) : M S unit := fun s => (Ok tt, f s).
Definition raise {S A} (k : ErrorKind) (what : string) : M S A :=
  fun s => (Throw k what, s).
Definition lift {S A} (r : result A) : M S A := fun s => (r, s).

(** Run a computation on a component [T] of the state [S]. *)
Definition zoom {S T A} (rd : S -> T) (wr : T -> S -> S) (m : M T A) : M S A :=
  fun s => let '(r, t) := m (rd s) in (r, wr t s).

(** [for (auto& x : l) body(x)] with early exit by exception. *)
Fixpoint forM_ {S A} (l : list A) (body : A -> M S unit) : M S unit :=
  match l with
  | [] => mret tt
  | x :: l' => body x ;; forM_ l' body
  end.

Fixpoint forR_ {A} (l : list A) (body : A -> result unit) : result unit :=
  match l with
  | [] => Ok tt
  | x :: l' => body x ;; forR_ l' body
  end.

(** A triple on a member function: from a state with [P], a normal
    return leaves [Q] and a throw leaves [E] (the object as it is when the
    exception leaves the call). *)
Definition hoare {S A} (P : S -> Prop) (m : M S A) (Q : A -> S -> Prop)
    (E : S -> Prop) : Prop :=
  forall s, P s ->
    match m s with
    | (Ok a, s') => Q a s'
    | (Throw _ _, s') => E s'
    end.

(* ===================================================================== *)
(** ** NCString.hh: string utilities *)
(* ===================================================================== *)

Module NCString.

Definition chr_tab : ascii := "009"%char.
Definition chr_lf : ascii := "010"%char.
Definition chr_cr : ascii := "013"%char.

(** The whitespace set of NCString.hh: space, tab, carriage return and
    line feed. *)
Definition is_ws (c : ascii) : bool :=
  Ascii.eqb c " " || Ascii.eqb c chr_tab || Ascii.eqb c chr_cr || Ascii.eqb c chr_lf.

Definition empty (s : string) : bool :=
  match s with EmptyString => true | String _ _ => false end.

(** [haystack.find(c) != npos] *)
Fixpoint contains (haystack : string) (needle : ascii) : bool :=
  match haystack with
  | EmptyString => false
  | String c r => Ascii.eqb c needle || contains r needle
  end.

(** Modelled from the spec: the body of [contains_any] (NCString.cc) is
    not among the sources; NCString.hh: check if any of the chars in
    needles is present in the string (haystack). *)
Fixpoint contains_any (haystack needles : string) : bool :=
  match haystack with
  | EmptyString => false
  | String c r => contains needles c || contains_any r needles
  end.

(** Modelled from the spec: the body of [contains_only] (NCString.cc) is
    not among the sources; NCString.hh: check if haystack consists
    entirely of chars from string needles. *)
Fixpoint contains_only (haystack needles : string) : bool :=
  match haystack with
  | EmptyString => true
  | String c r => contains needles c && contains_only r needles
  end.

(** Modelled from the spec: the body of [startswith] (NCString.cc) is not
    among the sources; it tests whether [substr] is a prefix of [str]. *)
Definition startswith (str substr : string) : bool := String.prefix substr str.

(** [s.substr(n)] for [n <= s.size()]. *)
Fixpoint substr_from (n : nat) (s : string) : string :=
  match n, s with
  | O, _ => s
  | S n', String _ r => substr_from n' r
  | S _, EmptyString => EmptyString
  end.

(** [s.substr(0,n)], also [s.resize(n)] for [n <= s.size()]. *)
Fixpoint substr_to (n : nat) (s : string) : string :=
  match n, s with
  | O, _ => EmptyString
  | S n', String c r => String c (substr_to n' r)
  | S _, EmptyString => EmptyString
  end.

(** [s.find(pattern)]: position of the first occurrence, [None] for
    [std::string::npos]. *)
Fixpoint find (s pattern : string) : option nat :=
  if String.prefix pattern s then Some O
  else match s with
       | EmptyString => None
       | String _ r => S <$> find r pattern
       end.

(** [s.find(c)] for a single character. *)
Fixpoint find_chr (s : string) (c : ascii) : option nat :=
  match s with
  | EmptyString => None
  | String d r => if Ascii.eqb d c then Some O else S <$> find_chr r c
  end.

Fixpoint ltrim (s : string) : string :=
  match s with
  | EmptyString => EmptyString
  | String c r => if is_ws c then ltrim r else s
  end.

Fixpoint rtrim (s : string) : string :=
  match s with
  | EmptyString => EmptyString
  | String c r =>
      match rtrim r with
      | EmptyString => if is_ws c then EmptyString else String c EmptyString
      | r' => String c r'
      end
  end.

(** Modelled from the spec: the body of [trim] (NCString.cc) is not among
    the sources; NCString.hh: strip excess whitespace (space, tab,
    carriage return, line feed) from both ends of string. *)
Definition trim (s : string) : string := rtrim (ltrim s).

(** Modelled from the spec: the body of [split] (NCString.cc) is not
    among the sources; NCString.hh: split input string on separator,
    empty parts are only kept when sep!=0 (similar to pythons
    str.split()), and maxsplit can be used to limit the number of
    splittings performed (0 for no limit). This is the call shape with a
    separator character; [fuel] is the number of splittings still
    allowed, [None] for no limit. *)
Fixpoint split_sep (sep : ascii) (fuel : option nat) (s : string) : list string :=
  match fuel with
  | Some O => [s]
  | _ =>
      match s with
      | EmptyString => [EmptyString]
      | String c r =>
          if Ascii.eqb c sep
          then EmptyString :: split_sep sep (pred <$> fuel) r
          else match split_sep sep fuel r with
               | p :: ps => String c p :: ps
               | [] => [String c EmptyString]
               end
      end
  end.

Definition split (input : string) (maxsplit : nat) (sep : ascii) : list string :=
  split_sep sep (match maxsplit with O => None | S _ => Some maxsplit end) input.

(** Modelled from the spec: [split] with the default [sep=0] and
    [maxsplit=0], which NCString.hh documents as splitting on general
    whitespace (space, tab, carriage return, line feed); empty parts are
    not kept. [cur] is the part being read. *)
Fixpoint split_ws_from (cur : string) (s : string) : list string :=
  match s with
  | EmptyString => if empty cur then [] else [cur]
  | String c r =>
      if is_ws c
      then (if empty cur then split_ws_from EmptyString r
            else cur :: split_ws_from EmptyString r)
      else split_ws_from (cur +:+ String c EmptyString) r
  end.

Definition split_ws (input : string) : list string := split_ws_from EmptyString input.

(** Modelled from the spec: the body of [strreplace] (NCString.cc) is not
    among the sources; NCString.hh: replace all occurances of oldtxt in
    str with newtxt. [skip] counts the characters of a replaced
    occurrence still to be dropped. *)
Fixpoint strreplace_from (skip : nat) (s oldtxt newtxt : string) : string :=
  match s with
  | EmptyString => EmptyString
  | String c r =>
      match skip with
      | S k => strreplace_from k r oldtxt newtxt
      | O =>
          if negb (empty oldtxt) && String.prefix oldtxt s
          then newtxt +:+ strreplace_from (String.length oldtxt - 1) r oldtxt newtxt
          else String c (strreplace_from O r oldtxt newtxt)
      end
  end.

Definition strreplace (s oldtxt newtxt : string) : string :=
  strreplace_from O s oldtxt newtxt.

(** Modelled from the spec: the body of [joinstr] (NCString.cc) is not
    among the sources; NCString.hh: the parts a, bb, 123 give a bb 123
    with the default separator (one space). *)
Definition joinstr (parts : list string) (separator : string) : string :=
  String.concat separator parts.

Definition ascii_in_range (lo hi : nat) (c : ascii) : bool :=
  Nat.leb lo (nat_of_ascii c) && Nat.leb (nat_of_ascii c) hi.

(** Modelled from the spec: the body of [isSimpleASCII] (NCString.cc) is
    not among the sources; NCString.hh: all bytes must be in range
    32..126 (plus optionally new-lines and tabs). New-lines are taken
    to be the line-feed and carriage-return characters. *)
Fixpoint isSimpleASCII (s : string) (allow_tab allow_newline : bool) : bool :=
  match s with
  | EmptyString => true
  | String c r =>
      (ascii_in_range 32 126 c
       || (allow_tab && Ascii.eqb c chr_tab)
       || (allow_newline && (Ascii.eqb c chr_lf || Ascii.eqb c chr_cr)))
      && isSimpleASCII r allow_tab allow_newline
  end.

(** [isOneOf(s, a, b, ...)] *)
Definition isOneOf (s : string) (l : list string) : bool :=
  existsb (String.eqb s) l.

(** Last character, [*(s.rbegin())]. *)
Fixpoint last_chr (s : string) : option ascii :=
  match s with
  | EmptyString => None
  | String c EmptyString => Some c
  | String _ r => last_chr r
  end.

End NCString.

(* ===================================================================== *)
(** ** Doubles and the functions declared outside the two sources *)
(* ===================================================================== *)

Definition double : Type := float.

(** [ncisnan], [ncisinf] (NCMath.hh) are the IEEE classification tests. *)
Definition ncisnan (x : double) : bool := PrimFloat.is_nan x.
Definition ncisinf (x : double) : bool := PrimFloat.is_infinity x.

(** Modelled from the spec: NCDefs.hh is not among the sources; [kPi] is
    the double nearest to pi (the bound of dirtol, (0,pi]) and [kInfinity]
    the positive infinity (the default of dcutoffup). *)
Definition kPi : double := 3.14159265358979323846%float.
Definition kInfinity : double := PrimFloat.infinity.

Definition vec3 : Type := double * double * double.

(** [Vector::mag2()] as spelled out in checkConsistency for lcaxis:
    [v[0]*v[0]+v[1]*v[1]+v[2]*v[2]]. *)
Definition mag2 (v : vec3) : double :=
  let '(x, y, z) := v in (x * x + y * y + z * z)%float.

(** [std::stringstream s; s << value] for a C++ int: the decimal digits. *)
Definition int2str (z : Z) : string := NilZero.string_of_int (Z.to_int z).

(** Functions and constants which the two translation units call and
    whose definitions are in files that are not among the sources. They
    are parameters of the development. [str2dbl], [str2int] and
    [validateAtomDBLine] are documented to throw BadInput only, so they
    return an option (no value: BadInput thrown). The last three fields
    are the indeterminate contents of the members [value] which the
    constructors ValDbl(), ValInt() and ValBool() leave uninitialised. *)
Class Externals : Type := {
  (* NCString.hh *)
  str2dbl : string -> option double;
  str2int : string -> option Z;
  getfileext : string -> string;
  (* operator<< of a std::stringstream on a double, at a given precision *)
  dbl2str : nat -> double -> string;
  (* NCDefs.hh *)
  kDeg : double;
  kArcMin : double;
  kArcSec : double;
  (* NCMath.hh *)
  valueInInterval : double -> double -> double -> bool;
  (* NCVector.hh *)
  isParallel : vec3 -> vec3 -> double -> bool;
  (* NCAtomUtils.hh *)
  validateAtomDBLine : list string -> bool;
  (* uninitialised members *)
  uninit_dbl : double;
  uninit_int : Z;
  uninit_bool : bool
}.

Definition str2dbl_or_throw `{Externals} (s : string) : result double :=
  match str2dbl s with
  | Some v => Ok v
  | None => Throw BadInput "Invalid number in string"
  end.

Definition str2int_or_throw `{Externals} (s : string) : result Z :=
  match str2int s with
  | Some v => Ok v
  | None => Throw BadInput "Invalid number in string"
  end.

(* ===================================================================== *)
(** ** NCMatCfg.cc: the parameter table *)
(* ===================================================================== *)

Module MatCfg.
Import NCString.

(** [enum PARAMETERS], PAR_FIRST = PAR_absnfactory = 0 up to PAR_NMAX. *)
Inductive PARAMETERS : Type :=
| PAR_absnfactory | PAR_atomdb | PAR_coh_elas | PAR_dcutoff | PAR_dcutoffup
| PAR_dir1 | PAR_dir2 | PAR_dirtol | PAR_incoh_elas | PAR_inelas
| PAR_infofactory | PAR_lcaxis | PAR_lcmode | PAR_mos | PAR_mosprec
| PAR_overridefileext | PAR_packfact | PAR_scatfactory | PAR_sccutoff
| PAR_temp | PAR_vdoslux.

(** The values PAR_FIRST, ..., PAR_NMAX-1 in increasing order. *)
Definition all_pars : list PARAMETERS :=
  [ PAR_absnfactory; PAR_atomdb; PAR_coh_elas; PAR_dcutoff; PAR_dcutoffup;
    PAR_dir1; PAR_dir2; PAR_dirtol; PAR_incoh_elas; PAR_inelas;
    PAR_infofactory; PAR_lcaxis; PAR_lcmode; PAR_mos; PAR_mosprec;
    PAR_overridefileext; PAR_packfact; PAR_scatfactory; PAR_sccutoff;
    PAR_temp; PAR_vdoslux ].

Definition PAR_NMAX : nat := 21.

#[global] Instance PARAMETERS_eq_dec : EqDecision PARAMETERS.
Proof. solve_decision. Defined.

(** The integer value of an enumerator. *)
Definition par_index (p : PARAMETERS) : nat :=
  match p with
  | PAR_absnfactory => 0 | PAR_atomdb => 1 | PAR_coh_elas => 2
  | PAR_dcutoff => 3 | PAR_dcutoffup => 4 | PAR_dir1 => 5 | PAR_dir2 => 6
  | PAR_dirtol => 7 | PAR_incoh_elas => 8 | PAR_inelas => 9
  | PAR_infofactory => 10 | PAR_lcaxis => 11 | PAR_lcmode => 12
  | PAR_mos => 13 | PAR_mosprec => 14 | PAR_overridefileext => 15
  | PAR_packfact => 16 | PAR_scatfactory => 17 | PAR_sccutoff => 18
  | PAR_temp => 19 | PAR_vdoslux => 20
  end%nat.

Definition par_of_index (i : nat) : option PARAMETERS := all_pars !! i.

#[global] Program Instance PARAMETERS_countable : Countable PARAMETERS :=
  inj_countable par_index par_of_index _.
Next Obligation. by intros []. Qed.

Inductive VALTYPE : Type :=
| VALTYPE_DBL | VALTYPE_BOOL | VALTYPE_INT | VALTYPE_STR
| VALTYPE_ORIENTDIR | VALTYPE_VECTOR | VALTYPE_ATOMDB.

#[global] Instance VALTYPE_eq_dec : EqDecision VALTYPE.
Proof. solve_decision. Defined.

(** [std::string MatCfg::Impl::parnames[PAR_NMAX]] *)
Definition parnames (p : PARAMETERS) : string :=
  match p with
  | PAR_absnfactory => "absnfactory" | PAR_atomdb => "atomdb"
  | PAR_coh_elas => "coh_elas" | PAR_dcutoff => "dcutoff"
  | PAR_dcutoffup => "dcutoffup" | PAR_dir1 => "dir1" | PAR_dir2 => "dir2"
  | PAR_dirtol => "dirtol" | PAR_incoh_elas => "incoh_elas"
  | PAR_inelas => "inelas" | PAR_infofactory => "infofactory"
  | PAR_lcaxis => "lcaxis" | PAR_lcmode => "lcmode" | PAR_mos => "mos"
  | PAR_mosprec => "mosprec" | PAR_overridefileext => "overridefileext"
  | PAR_packfact => "packfact" | PAR_scatfactory => "scatfactory"
  | PAR_sccutoff => "sccutoff" | PAR_temp => "temp" | PAR_vdoslux => "vdoslux"
  end.

(** [VALTYPE MatCfg::Impl::partypes[PAR_NMAX]] *)
Definition partypes (p : PARAMETERS) : VALTYPE :=
  match p with
  | PAR_absnfactory => VALTYPE_STR | PAR_atomdb => VALTYPE_ATOMDB
  | PAR_coh_elas => VALTYPE_BOOL | PAR_dcutoff => VALTYPE_DBL
  | PAR_dcutoffup => VALTYPE_DBL | PAR_dir1 => VALTYPE_ORIENTDIR
  | PAR_dir2 => VALTYPE_ORIENTDIR | PAR_dirtol => VALTYPE_DBL
  | PAR_incoh_elas => VALTYPE_BOOL | PAR_inelas => VALTYPE_STR
  | PAR_infofactory => VALTYPE_STR | PAR_lcaxis => VALTYPE_VECTOR
  | PAR_lcmode => VALTYPE_INT | PAR_mos => VALTYPE_DBL
  | PAR_mosprec => VALTYPE_DBL | PAR_overridefileext => VALTYPE_STR
  | PAR_packfact => VALTYPE_DBL | PAR_scatfactory => VALTYPE_STR
  | PAR_sccutoff => VALTYPE_DBL | PAR_temp => VALTYPE_DBL
  | PAR_vdoslux => VALTYPE_INT
  end.

(** *** The value classes derived from ValBase *)

Inductive UnitType : Type := UnitNone | UnitAngle | UnitTemp | UnitLength.

#[global] Instance UnitType_eq_dec : EqDecision UnitType.
Proof. solve_decision. Defined.

Record ValDbl : Type := mkValDbl {
  dbl_value : double;
  dbl_unittype : UnitType;
  dbl_origstrrep : string
}.

Record ValInt : Type := mkValInt { int_value : Z }.

Record ValBool : Type := mkValBool { bool_value : bool }.

Record ValStr : Type := mkValStr { str_value : string }.

Record ValAtomDB : Type := mkValAtomDB {
  atomdb_value : list (list string);
  atomdb_value_as_string : string
}.

Record ValOrientDir : Type := mkValOrientDir {
  crystal_is_hkl : bool;
  crystal : vec3;
  lab : vec3;
  od_origstrrep : string
}.

Record ValVector : Type := mkValVector {
  vec_val : vec3;
  vec_origstrrep : string
}.

(** An object behind a [std::unique_ptr<ValBase>], with its dynamic type. *)
Inductive ValBase : Type :=
| VDbl (v : ValDbl)
| VInt (v : ValInt)
| VBool (v : ValBool)
| VStr (v : ValStr)
| VAtomDB (v : ValAtomDB)
| VOrientDir (v : ValOrientDir)
| VVector (v : ValVector).

Definition dyn_type (vb : ValBase) : VALTYPE :=
  match vb with
  | VDbl _ => VALTYPE_DBL | VInt _ => VALTYPE_INT | VBool _ => VALTYPE_BOOL
  | VStr _ => VALTYPE_STR | VAtomDB _ => VALTYPE_ATOMDB
  | VOrientDir _ => VALTYPE_ORIENTDIR | VVector _ => VALTYPE_VECTOR
  end.

(** [struct MatCfg::Impl]. [m_spies] holds the addresses of the
    installed AccessSpy objects; [m_parlist] is the array of PAR_NMAX
    owning pointers, a missing key being a null pointer. *)
Record Impl : Type := mkImpl {
  m_spies : list nat;
  m_datafile_resolved : string;
  m_datafile_orig : string;
  m_datafileext : string;
  m_ignoredfilecfg : bool;
  m_parlist : gmap PARAMETERS ValBase
}.

Definition set_parlist (f : gmap PARAMETERS ValBase -> gmap PARAMETERS ValBase)
    (o : Impl) : Impl :=
  mkImpl (m_spies o) (m_datafile_resolved o) (m_datafile_orig o)
         (m_datafileext o) (m_ignoredfilecfg o) (f (m_parlist o)).

(** [Impl()]: every pointer of m_parlist is null and the strings are
    empty; [ignored] is the content of the bool m_ignoredfilecfg, which
    the constructor does not initialise. *)
Definition Impl_new (ignored : bool) : Impl :=
  mkImpl [] "" "" "" ignored ∅.


(** *** Operations of the value classes *)

Section Values.
Context `{Externals}.

Definition alpha : string := "abcdefghijklmnopqrstuvwxyzABCDEFGHIJKLMNOPQRSTUVWXYZ".

(** [while (iunit>0 && contains(alpha,tmp.at(iunit-1))) --iunit;] *)
Fixpoint unit_begin (tmp : string) (iunit : nat) : nat :=
  match iunit with
  | O => O
  | S i =>
      match String.get i tmp with
      | Some c => if contains alpha c then unit_begin tmp i else iunit
      | None => iunit
      end
  end.

(** The [switch(unittype)] of ValDbl::set_from_strrep: the pair
    [(u, unitoffset)] it leaves, [u] staying at -1.0 when the unit is not
    one of the type. *)
Definition unit_switch (ut : UnitType) (unit : string) : double * double :=
  match ut with
  | UnitAngle =>
      if String.eqb unit "rad" then (1.0, 0.0)
      else if String.eqb unit "deg" then (kDeg, 0.0)
      else if String.eqb unit "arcmin" then (kArcMin, 0.0)
      else if String.eqb unit "arcsec" then (kArcSec, 0.0)
      else (-1.0, 0.0)
  | UnitLength =>
      if String.eqb unit "Aa" then (1.0, 0.0)
      else if String.eqb unit "nm" then (10.0, 0.0)
      else if String.eqb unit "mm" then (1e7, 0.0)
      else if String.eqb unit "cm" then (1e8, 0.0)
      else if String.eqb unit "m" then (1e10, 0.0)
      else (-1.0, 0.0)
  | UnitTemp =>
      if String.eqb unit "K" then (1.0, 0.0)
      else if String.eqb unit "C" then (1.0, 273.15)
      else if String.eqb unit "F" then (1 / 1.8, 273.15 - (32 / 1.8))
      else (-1.0, 0.0)
  | UnitNone => (-1.0, 0.0)
  end%float.

(** [ValDbl()] *)
Definition ValDbl_new : ValDbl := mkValDbl uninit_dbl UnitNone "".

Definition ValDbl_setUnitType (ut : UnitType) (d : ValDbl) : ValDbl :=
  mkValDbl (dbl_value d) ut (dbl_origstrrep d).

(** [ValDbl::set(double)] *)
Definition ValDbl_set (v : double) : M ValDbl unit :=
  if ncisnan v then raise BadInput "Attempting to set number to NaN"
  else modify (fun d => mkValDbl v (dbl_unittype d) "").

(** [ValDbl::set_from_strrep] *)
Definition ValDbl_set_from_strrep (s : string) : M ValDbl unit :=
  self ← get;
  let tmporig := s in
  let tmp := trim s in
  '(tmp, tmporig, unitfact, unitoffset) ←
    (if negb (bool_decide (dbl_unittype self = UnitNone))
        && Nat.ltb 1 (String.length tmp)
        && from_option (contains alpha) false (last_chr tmp)
     then
       let iunit := unit_begin tmp (String.length tmp) in
       let unit := substr_from iunit tmp in
       let tmp := trim (substr_to iunit tmp) in
       let tmporig := tmp +:+ unit in
       let '(u, unitoffset) := unit_switch (dbl_unittype self) unit in
       if (u <=? 0)%float then raise BadInput "Invalid unit"
       else mret (tmp, tmporig, u, unitoffset)
     else mret (tmp, tmporig, 1.0%float, 0.0%float));
  v ← lift (str2dbl_or_throw tmp);
  ValDbl_set (unitoffset + unitfact * v)%float ;;
  modify (fun d => mkValDbl (dbl_value d) (dbl_unittype d) (trim tmporig)).

(** [ValDbl::to_strrep]: the stream has the default precision 6 unless
    [std::setprecision(16)] was applied. *)
Definition ValDbl_to_strrep (d : ValDbl) (forcache : bool) : string :=
  if negb forcache && negb (empty (dbl_origstrrep d)) then dbl_origstrrep d
  else dbl2str (if forcache then 16 else 6)%nat (dbl_value d).

Definition ValInt_new : ValInt := mkValInt uninit_int.
Definition ValInt_set (v : Z) : M ValInt unit := put (mkValInt v).
Definition ValInt_set_from_strrep (s : string) : M ValInt unit :=
  v ← lift (str2int_or_throw s); ValInt_set v.
Definition ValInt_to_strrep (i : ValInt) : string := int2str (int_value i).

Definition ValBool_new : ValBool := mkValBool uninit_bool.
Definition ValBool_set (v : bool) : M ValBool unit := put (mkValBool v).
Definition ValBool_set_from_strrep (s : string) : M ValBool unit :=
  if String.eqb s "true" || String.eqb s "1" then put (mkValBool true)
  else if String.eqb s "false" || String.eqb s "0" then put (mkValBool false)
  else raise BadInput "Could not convert to boolean value".
Definition ValBool_to_strrep (b : ValBool) : string :=
  if bool_value b then "true" else "false".

(** [NCMATCFG_FORBIDDEN_CHARS], the characters double quote, quote, bar,
    angle brackets, parentheses, braces and square brackets. *)
Definition NCMATCFG_FORBIDDEN_CHARS : string :=
  String "034" "'|><(){}[]".

Definition ValStr_new : ValStr := mkValStr "".
Definition ValStr_set (s : string) : M ValStr unit :=
  if negb (isSimpleASCII s false false)
  then raise BadInput "Non-ASCII characters or tab/newlines in string value!"
  else if contains_any s NCMATCFG_FORBIDDEN_CHARS || contains_any s "=;"
  then raise BadInput "Forbidden characters in string value!"
  else put (mkValStr s).
Definition ValStr_set_from_strrep (s : string) : M ValStr unit := ValStr_set s.
Definition ValStr_to_strrep (v : ValStr) : string := str_value v.

Definition ValAtomDB_new : ValAtomDB := mkValAtomDB [] "".

(** [ValAtomDB::to_strrep_impl]: the lines joined by '@', the words of a
    line joined by ':'. *)
Definition ValAtomDB_to_strrep_impl (v : ValAtomDB) : string :=
  String.concat "@" (map (fun line => joinstr line ":") (atomdb_value v)).

Definition atomdb_check_word (word : string) : result unit :=
  if negb (isSimpleASCII word false false)
  then Throw BadInput "Non-ASCII characters or tab/newlines in atomdb parameter!"
  else if contains_any word NCMATCFG_FORBIDDEN_CHARS || contains_any word "=;"
  then Throw BadInput "Forbidden characters in atomdb parameter!"
  else Ok tt.

(** The loop [for (auto& line : s)] of ValAtomDB::set, from the lines
    still to visit and the counter [iline]. *)
Fixpoint ValAtomDB_set_lines (s : list (list string)) (iline : nat) : M ValAtomDB unit :=
  match s with
  | [] => mret tt
  | line :: rest =>
      if bool_decide (line = []) then ValAtomDB_set_lines rest iline
      else
        lift (forR_ line atomdb_check_word) ;;
        (if validateAtomDBLine line then mret tt
         else raise BadInput "Invalid entry in atomdb cfg parameter") ;;
        (if bool_decide (line = ["nodefaults"]) && Nat.ltb 0 iline
         then raise BadInput "Invalid entry in atomdb cfg parameter (nodefaults must be the first line)"
         else mret tt) ;;
        modify (fun v => mkValAtomDB (atomdb_value v ++ [line]) (atomdb_value_as_string v)) ;;
        ValAtomDB_set_lines rest (S iline)
  end.

(** [ValAtomDB::set] *)
Definition ValAtomDB_set (s : list (list string)) : M ValAtomDB unit :=
  modify (fun v => mkValAtomDB [] (atomdb_value_as_string v)) ;;
  ValAtomDB_set_lines s 0 ;;
  modify (fun v => mkValAtomDB (atomdb_value v) (ValAtomDB_to_strrep_impl v)).

(** [ValAtomDB::set_from_strrep] *)
Definition ValAtomDB_set_from_strrep (s : string) : M ValAtomDB unit :=
  let lines := split s 0 "@" in
  ValAtomDB_set (map (fun line => split_ws (strreplace line ":" " ")) lines).

Definition ValAtomDB_to_strrep (v : ValAtomDB) : string := atomdb_value_as_string v.

(** [ValOrientDir()]: the bool and the two arrays are not initialised. *)
Definition ValOrientDir_new : ValOrientDir :=
  mkValOrientDir uninit_bool (uninit_dbl, uninit_dbl, uninit_dbl)
                 (uninit_dbl, uninit_dbl, uninit_dbl) "".

Definition any_nan (v : vec3) : bool :=
  let '(x, y, z) := v in ncisnan x || ncisnan y || ncisnan z.

(** [ValOrientDir::set] *)
Definition ValOrientDir_set (cishkl : bool) (c l : vec3) : M ValOrientDir unit :=
  if any_nan c || any_nan l then raise BadInput "Attempting to set number to NaN"
  else put (mkValOrientDir cishkl c l "").

(** Three numbers [str2dbl(parts.at(0)), str2dbl(parts.at(1)),
    str2dbl(parts.at(2))] of a vector of three parts. *)
Definition str2dbl3 (parts : list string) : result vec3 :=
  match parts with
  | [a; b; c] =>
      x ← str2dbl_or_throw a; y ← str2dbl_or_throw b; z ← str2dbl_or_throw c;
      Ok (x, y, z)
  | _ => Throw LogicError "std::out_of_range"
  end.

(** [ValOrientDir::set_from_strrep] *)
Definition ValOrientDir_set_from_strrep (s : string) : M ValOrientDir unit :=
  let st := trim s in
  let bad := raise BadInput "Bad syntax for orientation" in
  match split st 0 "@" with
  | [p0; c; l] =>
      if negb (empty p0) then bad
      else
        let '(c, c_is_hkl) :=
          if startswith c "crys:" then (substr_from 5 c, 0%Z)
          else if startswith c "crys_hkl:" then (substr_from 9 c, 1%Z)
          else (c, (-1)%Z) in
        if Z.eqb c_is_hkl (-1) || negb (startswith l "lab:") then bad
        else
          let l := substr_from 4 l in
          let c := trim c in
          let l := trim l in
          let partsc := split c 0 "," in
          let partsl := split l 0 "," in
          if negb (Nat.eqb (length partsc) 3) || negb (Nat.eqb (length partsl) 3) then bad
          else
            cv ← lift (str2dbl3 partsc);
            lv ← lift (str2dbl3 partsl);
            ValOrientDir_set (negb (Z.eqb c_is_hkl 0)) cv lv ;;
            modify (fun d => mkValOrientDir (crystal_is_hkl d) (crystal d) (lab d) (trim s))
  | _ => bad
  end.

(** [ValOrientDir::to_strrep], printing with [s.precision(17)]. *)
Definition ValOrientDir_to_strrep (d : ValOrientDir) : string :=
  if negb (empty (od_origstrrep d)) then od_origstrrep d
  else
    let '(c0, c1, c2) := crystal d in
    let '(l0, l1, l2) := lab d in
    (if crystal_is_hkl d then "@crys_hkl:" else "@crys:")
      +:+ dbl2str 17 c0 +:+ "," +:+ dbl2str 17 c1 +:+ "," +:+ dbl2str 17 c2
      +:+ "@lab:" +:+ dbl2str 17 l0 +:+ "," +:+ dbl2str 17 l1 +:+ "," +:+ dbl2str 17 l2.

Definition ValVector_new : ValVector :=
  mkValVector (uninit_dbl, uninit_dbl, uninit_dbl) "".

(** [ValVector::set] *)
Definition ValVector_set (v : vec3) : M ValVector unit :=
  if any_nan v then raise BadInput "Attempting to set number to NaN"
  else put (mkValVector v "").

(** [ValVector::set_from_strrep] *)
Definition ValVector_set_from_strrep (s : string) : M ValVector unit :=
  let st := trim s in
  let parts := split st 0 "," in
  if negb (Nat.eqb (length parts) 3) then raise BadInput "Bad syntax for vector value"
  else
    v ← lift (str2dbl3 (map trim parts));
    ValVector_set v ;;
    modify (fun d => mkValVector (vec_val d) (trim s)).

(** [ValVector::to_strrep], printing with [s.precision(17)]. *)
Definition ValVector_to_strrep (d : ValVector) : string :=
  if negb (empty (vec_origstrrep d)) then vec_origstrrep d
  else
    let '(x, y, z) := vec_val d in
    dbl2str 17 x +:+ "," +:+ dbl2str 17 y +:+ "," +:+ dbl2str 17 z.

(** The virtual [ValBase::to_strrep(bool forcache)]. *)
Definition to_strrep (vb : ValBase) (forcache : bool) : string :=
  match vb with
  | VDbl d => ValDbl_to_strrep d forcache
  | VInt i => ValInt_to_strrep i
  | VBool b => ValBool_to_strrep b
  | VStr s => ValStr_to_strrep s
  | VAtomDB a => ValAtomDB_to_strrep a
  | VOrientDir d => ValOrientDir_to_strrep d
  | VVector v => ValVector_to_strrep v
  end.

End Values.

(** *** Typed access to the slots of m_parlist *)

(** What the member templates of Impl need from their parameter
    [ValType]: its VALTYPE tag, its default constructor, the up-cast to
    ValBase and the [dynamic_cast] back, and its specialisation of
    [addUnitsForValType] (the primary template does nothing). *)
Class ValType (T : Type) : Type := {
  value_type_enum : VALTYPE;
  ValType_new : T;
  to_base : T -> ValBase;
  of_base : ValBase -> option T;
  addUnitsForValType : T -> PARAMETERS -> T
}.

Section Impl.
Context `{Externals}.

#[global] Instance ValType_Dbl : ValType ValDbl := {|
  value_type_enum := VALTYPE_DBL;
  ValType_new := ValDbl_new;
  to_base := VDbl;
  of_base vb := match vb with VDbl d => Some d | _ => None end;
  addUnitsForValType vt par :=
    match par with
    | PAR_mos | PAR_dirtol => ValDbl_setUnitType UnitAngle vt
    | PAR_temp => ValDbl_setUnitType UnitTemp vt
    | PAR_dcutoff | PAR_dcutoffup => ValDbl_setUnitType UnitLength vt
    | _ => vt
    end
|}.

#[global] Instance ValType_Int : ValType ValInt := {|
  value_type_enum := VALTYPE_INT;
  ValType_new := ValInt_new;
  to_base := VInt;
  of_base vb := match vb with VInt d => Some d | _ => None end;
  addUnitsForValType vt _ := vt
|}.

#[global] Instance ValType_Bool : ValType ValBool := {|
  value_type_enum := VALTYPE_BOOL;
  ValType_new := ValBool_new;
  to_base := VBool;
  of_base vb := match vb with VBool d => Some d | _ => None end;
  addUnitsForValType vt _ := vt
|}.

#[global] Instance ValType_Str : ValType ValStr := {|
  value_type_enum := VALTYPE_STR;
  ValType_new := ValStr_new;
  to_base := VStr;
  of_base vb := match vb with VStr d => Some d | _ => None end;
  addUnitsForValType vt _ := vt
|}.

#[global] Instance ValType_AtomDB : ValType ValAtomDB := {|
  value_type_enum := VALTYPE_ATOMDB;
  ValType_new := ValAtomDB_new;
  to_base := VAtomDB;
  of_base vb := match vb with VAtomDB d => Some d | _ => None end;
  addUnitsForValType vt _ := vt
|}.

#[global] Instance ValType_OrientDir : ValType ValOrientDir := {|
  value_type_enum := VALTYPE_ORIENTDIR;
  ValType_new := ValOrientDir_new;
  to_base := VOrientDir;
  of_base vb := match vb with VOrientDir d => Some d | _ => None end;
  addUnitsForValType vt _ := vt
|}.

#[global] Instance ValType_Vector : ValType ValVector := {|
  value_type_enum := VALTYPE_VECTOR;
  ValType_new := ValVector_new;
  to_base := VVector;
  of_base vb := match vb with VVector d => Some d | _ => None end;
  addUnitsForValType vt _ := vt
|}.

(** [Impl::ensureNoSpy] *)
Definition ensureNoSpy : M Impl unit :=
  o ← get;
  if bool_decide (m_spies o = []) then mret tt
  else raise LogicError
    "Modification of configuration object whose access is being monitored is forbidden!".

(** [Impl::hasPar]. The calls [triggerSpy(par)] notify the installed spy
    objects and leave the Impl as it is; they are not part of the model. *)
Definition hasPar (o : Impl) (par : PARAMETERS) : bool :=
  bool_decide (is_Some (m_parlist o !! par)).

(** [nc_assert(cond)], an exception of kind LogicError when it fails. *)
Definition nc_assert (cond : bool) (what : string) : result unit :=
  if cond then Ok tt else Throw LogicError ("Assertion failure: " +:+ what).

(** [Impl::getValType<ValType>]: the pointer of the slot (null: [None])
    after the assertion on its dynamic type. *)
Definition getValType {T} `{ValType T} (o : Impl) (par : PARAMETERS) : result (option T) :=
  match m_parlist o !! par with
  | None => Ok None
  | Some vb =>
      match of_base vb with
      | Some vt => Ok (Some vt)
      | None => Throw LogicError "Assertion failure: vb==nullptr || dynamic_cast<const ValType*>(vb)"
      end
  end.

(** [Impl::getValTypeThrowIfNotAvail<ValType>] *)
Definition getValTypeThrowIfNotAvail {T} `{ValType T} (o : Impl) (par : PARAMETERS) : result T :=
  vt ← getValType o par;
  match vt with
  | Some vt => Ok vt
  | None => Throw MissingInfo ("Value for parameter " +:+ parnames par +:+ " not available")
  end.

(** The slot [par] of the table made to hold [vt]. *)
Definition slot_assign {T} `{ValType T} (par : PARAMETERS) (vt : T) (o : Impl) : Impl :=
  set_parlist (<[par := to_base vt]>) o.

(** Run a member function of the value object through the pointer which
    getValTypeForSet returned, the object staying in its slot. *)
Definition through_slot {T} `{ValType T} {A} (par : PARAMETERS) (vt : T) (call : M T A) : M Impl A :=
  fun o => let '(r, vt') := call vt in (r, slot_assign par vt' o).

(** [Impl::getValTypeForSet<ValType>(par)->call]: the slot is created
    first when it is empty, with the units of the parameter. *)
Definition getValTypeForSet {T} `{ValType T} {A} (par : PARAMETERS) (call : M T A) : M Impl A :=
  ensureNoSpy ;;
  o ← get;
  match m_parlist o !! par with
  | Some vb =>
      match of_base vb with
      | Some vt => through_slot par vt call
      | None => raise LogicError "Assertion failure: dynamic_cast<ValType*>(vb)"
      end
  | None =>
      let vt := addUnitsForValType ValType_new par in
      modify (slot_assign par vt) ;;
      through_slot par vt call
  end.

(** [Impl::getVal<ValType>(par, code_default_val)], with the projection
    [value] of the value class. *)
Definition getVal {T V} `{ValType T} (value : T -> V) (o : Impl) (par : PARAMETERS)
    (code_default_val : V) : result V :=
  nc_assert (bool_decide (value_type_enum = partypes par))
            "ValType::value_type_enum == partypes[par]" ;;
  vt ← getValType o par;
  Ok (from_option value code_default_val vt).

(** [Impl::getValNoFallback<ValType>(par)] *)
Definition getValNoFallback {T V} `{ValType T} (value : T -> V) (o : Impl) (par : PARAMETERS)
    : result V :=
  nc_assert (bool_decide (value_type_enum = partypes par))
            "ValType::value_type_enum == partypes[par]" ;;
  value <$> getValTypeThrowIfNotAvail o par.

(** [Impl::setVal<ValType>(par, val)] for each value class. *)
Definition setVal_Dbl (par : PARAMETERS) (val : double) : M Impl unit :=
  getValTypeForSet par (ValDbl_set val).
Definition setVal_Int (par : PARAMETERS) (val : Z) : M Impl unit :=
  getValTypeForSet par (ValInt_set val).
Definition setVal_Bool (par : PARAMETERS) (val : bool) : M Impl unit :=
  getValTypeForSet par (ValBool_set val).
Definition setVal_Str (par : PARAMETERS) (val : string) : M Impl unit :=
  getValTypeForSet par (ValStr_set val).

(** [std::lower_bound(itB,itE,name) - itB] on the sorted array parnames:
    the number of names which are less than [name]. *)
Fixpoint lower_bound (pars : list PARAMETERS) (name : string) : nat :=
  match pars with
  | [] => O
  | p :: rest => if String.ltb (parnames p) name then S (lower_bound rest name) else O
  end.

(** [Impl::strNameToParIdx] *)
Definition strNameToParIdx (name : string) : result PARAMETERS :=
  match all_pars !! lower_bound all_pars name with
  | Some p =>
      if negb (String.eqb (parnames p) name)
      then Throw BadInput ("Unknown parameter: " +:+ name)
      else Ok p
  | None => Throw BadInput ("Unknown parameter: " +:+ name)
  end.

(** [Impl::setValByStr] *)
Definition setValByStr (name value : string) : M Impl unit :=
  let by_index (name : string) : M Impl unit :=
    paridx ← lift (strNameToParIdx name);
    if empty value && negb (bool_decide (partypes paridx = VALTYPE_STR))
    then raise BadInput ("Missing parameter value for parameter " +:+ name)
    else
      match partypes paridx with
      | VALTYPE_DBL => getValTypeForSet paridx (ValDbl_set_from_strrep value)
      | VALTYPE_INT => getValTypeForSet paridx (ValInt_set_from_strrep value)
      | VALTYPE_BOOL => getValTypeForSet paridx (ValBool_set_from_strrep value)
      | VALTYPE_STR => getValTypeForSet paridx (ValStr_set_from_strrep value)
      | VALTYPE_ORIENTDIR => getValTypeForSet paridx (ValOrientDir_set_from_strrep value)
      | VALTYPE_VECTOR => getValTypeForSet paridx (ValVector_set_from_strrep value)
      | VALTYPE_ATOMDB => getValTypeForSet paridx (ValAtomDB_set_from_strrep value)
      end in
  if String.eqb name "bragg" then by_index "coh_elas"
  else if String.eqb name "elas" then
    '(r, tmp) ← mret (ValBool_set_from_strrep value ValBool_new);
    lift r ;;
    setVal_Bool PAR_coh_elas (bool_value tmp) ;;
    setVal_Bool PAR_incoh_elas (bool_value tmp)
  else if String.eqb name "bkgd" then
    if String.eqb value "none" || String.eqb value "0" then
      setVal_Bool PAR_incoh_elas false ;;
      setVal_Str PAR_inelas "none"
    else raise BadInput "The bkgd parameter is obsolete"
  else by_index name.

(** *** Typed get-accessors (on the table a handle points to) *)

Definition get_temp (o : Impl) : result double := getVal dbl_value o PAR_temp (-1.0)%float.
Definition get_dcutoff (o : Impl) : result double := getVal dbl_value o PAR_dcutoff 0.0%float.
Definition get_dcutoffup (o : Impl) : result double := getVal dbl_value o PAR_dcutoffup kInfinity.
Definition get_packfact (o : Impl) : result double := getVal dbl_value o PAR_packfact 1.0%float.
Definition get_mos (o : Impl) : result double := getValNoFallback dbl_value o PAR_mos.
Definition get_mosprec (o : Impl) : result double := getVal dbl_value o PAR_mosprec 1e-3%float.
Definition get_sccutoff (o : Impl) : result double := getVal dbl_value o PAR_sccutoff 0.4%float.
Definition get_dirtol (o : Impl) : result double := getVal dbl_value o PAR_dirtol 1e-4%float.
Definition get_coh_elas (o : Impl) : result bool := getVal bool_value o PAR_coh_elas true.
Definition get_incoh_elas (o : Impl) : result bool := getVal bool_value o PAR_incoh_elas true.
Definition get_inelas (o : Impl) : result string :=
  ss ← getVal str_value o PAR_inelas "auto";
  if isOneOf ss ["none"; "0"; "sterile"; "false"] then Ok "none" else Ok ss.
Definition get_overridefileext (o : Impl) : result string :=
  getVal str_value o PAR_overridefileext "".
Definition get_infofactory (o : Impl) : result string := getVal str_value o PAR_infofactory "".
Definition get_scatfactory (o : Impl) : result string := getVal str_value o PAR_scatfactory "".
Definition get_absnfactory (o : Impl) : result string := getVal str_value o PAR_absnfactory "".
Definition get_lcmode (o : Impl) : result Z := getVal int_value o PAR_lcmode 0%Z.
Definition get_vdoslux (o : Impl) : result Z := getVal int_value o PAR_vdoslux 3%Z.
Definition get_atomdb (o : Impl) : result string :=
  from_option atomdb_value_as_string "" <$> getValType o PAR_atomdb.
Definition get_atomdb_parsed (o : Impl) : result (list (list string)) :=
  from_option atomdb_value [] <$> getValType o PAR_atomdb.
Definition get_lcaxis (o : Impl) : result vec3 :=
  vec_val <$> getValTypeThrowIfNotAvail o PAR_lcaxis.
Definition get_dir1 (o : Impl) : result (bool * vec3 * vec3) :=
  (fun d => (crystal_is_hkl d, crystal d, lab d)) <$> getValTypeThrowIfNotAvail o PAR_dir1.
Definition get_dir2 (o : Impl) : result (bool * vec3 * vec3) :=
  (fun d => (crystal_is_hkl d, crystal d, lab d)) <$> getValTypeThrowIfNotAvail o PAR_dir2.

Definition getDataFileAsSpecified (o : Impl) : string :=
  if empty (m_datafile_orig o) then m_datafile_resolved o else m_datafile_orig o.
Definition getDataFile (o : Impl) : string := m_datafile_resolved o.
Definition getDataFileExtension (o : Impl) : result string :=
  s ← get_overridefileext o;
  Ok (if empty s then m_datafileext o else s).
Definition ignoredEmbeddedConfig (o : Impl) : bool := m_ignoredfilecfg o.

(** [MatCfg::isSingleCrystal], [MatCfg::isLayeredCrystal] *)
Definition isSingleCrystal (o : Impl) : bool :=
  hasPar o PAR_mos || hasPar o PAR_dir1 || hasPar o PAR_dir2 || hasPar o PAR_dirtol.
Definition isLayeredCrystal (o : Impl) : bool := hasPar o PAR_lcaxis.

(** *** Serialisation *)

(** The body of the loop of toStrCfg on parameter [i], threading the
    text of [out] and the flag [empty]. *)
Definition toStrCfg_step (o : Impl) (only_parnames : option (list string))
    (acc : string * bool) (i : PARAMETERS) : string * bool :=
  let '(out, is_empty) := acc in
  match m_parlist o !! i with
  | Some vb =>
      if from_option (fun names => negb (existsb (String.eqb (parnames i)) names))
                     false only_parnames
      then acc
      else ((if is_empty then out else out +:+ ";")
              +:+ parnames i +:+ "=" +:+ to_strrep vb false, false)
  | None => acc
  end.

(** [MatCfg::toStrCfg(include_datafile, only_parnames)]; a null
    [only_parnames] is [None], a set is the list of its elements. *)
Definition toStrCfg (o : Impl) (include_datafile : bool)
    (only_parnames : option (list string)) : string :=
  let out :=
    if include_datafile
    then getDataFileAsSpecified o
           +:+ (if m_ignoredfilecfg o then ";ignorefilecfg" else "")
    else "" in
  fst (fold_left (toStrCfg_step o only_parnames) all_pars (out, empty out)).

(** [MatCfg::toEmbeddableCfg] *)
Definition toEmbeddableCfg (o : Impl) : string :=
  "NCRYSTALMATCFG[" +:+ toStrCfg o false None +:+ "]".

(** The loop of getCacheSignature over the names of [pns] from the
    iterator [it]; [first] tells whether [it == itB]. The test
    [hasPar(paridx)] is the test of the slot pointer against null. *)
Fixpoint getCacheSignature_from (o : Impl) (pns : list string) (first : bool)
    : result string :=
  match pns with
  | [] => Ok ""
  | name :: rest =>
      paridx ← strNameToParIdx name;
      let entry :=
        (if first then "" else ";") +:+ name +:+ "="
          +:+ (match m_parlist o !! paridx with
               | Some vb => to_strrep vb true
               | None => "<>"
               end) in
      tail ← getCacheSignature_from o rest false;
      Ok (entry +:+ tail)
  end.

(** [MatCfg::getCacheSignature(out, pns)]; [pns] lists the elements of
    the std::set in its iteration order. *)
Definition getCacheSignature (o : Impl) (pns : list string) : result string :=
  getCacheSignature_from o pns true.

(** *** Sub-options of string parameters *)

Definition alphalowercase : string := "abcdefghijklmnopqrstuvwxyz".
Definition alphalowercasenumunderscore : string :=
  "abcdefghijklmnopqrstuvwxyz0123456789_".

Definition first_chr_in (s needles : string) : bool :=
  match s with
  | EmptyString => false
  | String c _ => contains needles c
  end.

(** The loop [for (;it!=itE;++it)] of decodeopts. *)
Fixpoint decodeopts_loop (parts : list string) (opts2val : gmap string string)
    : result (gmap string string) :=
  match parts with
  | [] => Ok opts2val
  | it :: rest =>
      let it := trim it in
      if empty it then decodeopts_loop rest opts2val
      else
        '(name, value) ←
          (if contains it "@" then
             match map trim (split it 0 "@") with
             | [s0; s1] =>
                 if empty s0 || empty s1 || contains_any s1 "<>:="
                 then Throw BadInput "Syntax error in options"
                 else if negb (contains_only s0 alphalowercasenumunderscore)
                         || negb (first_chr_in s0 alphalowercase)
                 then Throw BadInput "Syntax error in options. Invalid option name"
                 else Ok (s0, s1)
             | _ => Throw BadInput "Syntax error in options"
             end
           else Ok (it, "<flag>"));
        if bool_decide (is_Some (opts2val !! name))
        then Throw BadInput "Syntax error in options. Option specified multiple times"
        else decodeopts_loop rest (<[name := value]> opts2val)
  end.

(** [Impl::decodeopts(optstr, opts2val, skipname)] *)
Definition decodeopts (optstr : string) (skipname : bool) : result (gmap string string) :=
  let parts := split optstr 0 ":" in
  nc_assert (negb (bool_decide (parts = []))) "it!=itE" ;;
  decodeopts_loop (if skipname then tail parts else parts) ∅.

(** [Impl::decodeopt_name] *)
Definition decodeopt_name (optstr : string) : string :=
  if negb (contains optstr ":") then optstr
  else trim (hd "" (split optstr 1 ":")).

(** [MatCfg::get_infofact_name] *)
Definition get_infofact_name (o : Impl) : result string :=
  decodeopt_name <$> get_infofactory o.

(** [Impl::decodeopt_flag] *)
Definition decodeopt_flag (optstr flagname : string) : result bool :=
  if negb (contains optstr ":") then Ok false
  else
    opts2val ← decodeopts optstr true;
    match opts2val !! flagname with
    | None => Ok false
    | Some v =>
        if negb (String.eqb v "<flag>")
        then Throw BadInput "Syntax error in flag (takes no value)"
        else Ok true
    end.

(** [Impl::decodeopt_dbl] *)
Definition decodeopt_dbl (optstr parname : string) (defval : double) : result double :=
  if negb (contains optstr ":") then Ok defval
  else
    opts2val ← decodeopts optstr true;
    match opts2val !! parname with
    | None => Ok defval
    | Some v => str2dbl_or_throw v
    end.

(** [Impl::decodeopt_int] *)
Definition decodeopt_int (optstr parname : string) (defval : Z) : result Z :=
  if negb (contains optstr ":") then Ok defval
  else
    opts2val ← decodeopts optstr true;
    match opts2val !! parname with
    | None => Ok defval
    | Some v => str2int_or_throw v
    end.

(** [Impl::decodedopt_validate]; [recognised_opts] lists the elements of
    the std::set. The loop throws at the first option which is not
    recognised, so it returns when all of them are. *)
Definition decodedopt_validate (optstr : string) (recognised_opts : list string)
    : result unit :=
  if negb (contains optstr ":") then Ok tt
  else
    opts2val ← decodeopts optstr true;
    if forallb (fun kv => bool_decide (fst kv ∈ recognised_opts)) (map_to_list opts2val)
    then Ok tt
    else Throw BadInput "The flag is not supported by the chosen factory".

(** [MatCfg::get_infofactopt_flag], [get_infofactopt_dbl],
    [get_infofactopt_int], [infofactopt_validate] *)
Definition get_infofactopt_flag (o : Impl) (flagname : string) : result bool :=
  s ← get_infofactory o; decodeopt_flag s flagname.
Definition get_infofactopt_dbl (o : Impl) (flagname : string) (defval : double)
    : result double :=
  s ← get_infofactory o; decodeopt_dbl s flagname defval.
Definition get_infofactopt_int (o : Impl) (flagname : string) (defval : Z) : result Z :=
  s ← get_infofactory o; decodeopt_int s flagname defval.
Definition infofactopt_validate (o : Impl) (recognised_opts : list string) : result unit :=
  s ← get_infofactory o; decodedopt_validate s recognised_opts.

(** [MatCfg::isPolyCrystal] *)
Definition isPolyCrystal (o : Impl) : bool := negb (isSingleCrystal o).

(** *** Access spies *)

Definition set_spies (f : list nat -> list nat) (o : Impl) : Impl :=
  mkImpl (f (m_spies o)) (m_datafile_resolved o) (m_datafile_orig o)
         (m_datafileext o) (m_ignoredfilecfg o) (m_parlist o).

(** [MatCfg::hasAccessSpy]; a spy is the address of an AccessSpy object,
    0 for the null pointer. *)
Definition hasAccessSpy (o : Impl) (spy : nat) : bool :=
  bool_decide (spy ∈ m_spies o).

(** [MatCfg::addAccessSpy] *)
Definition addAccessSpy (spy : nat) : M Impl unit :=
  o ← get;
  if Nat.eqb spy 0 then raise BadInput "NULL access spy provided"
  else if hasAccessSpy o spy
  then raise BadInput "Attempt to install the same access spy more than once"
  else modify (set_spies (fun l => l ++ [spy])).

(** [MatCfg::removeAccessSpy]: [std::remove] and [erase] keep the other
    spies in their order. *)
Definition removeAccessSpy (spy : nat) : M Impl unit :=
  o ← get;
  let n := length (m_spies o) in
  modify (set_spies (List.filter (fun s => negb (Nat.eqb s spy)))) ;;
  o ← get;
  if Nat.eqb n (length (m_spies o))
  then raise BadInput "Could not remove access spy which was never installed"
  else mret tt.

(** *** Consistency validation *)

Definition throw_if (cond : bool) (k : ErrorKind) (what : string) : result unit :=
  if cond then Throw k what else Ok tt.

Definition lowercase_num_underscore : string := "abcdefghijklmnopqrstuvwxyz_0123456789".

(** The validation of dir1 and dir2 inside [if (nOrient)]. *)
Definition check_directions (dir0 dir1 : ValOrientDir) : result unit :=
  forR_ [dir0; dir1] (fun d =>
    throw_if (mag2 (crystal d) =? 0)%float BadInput
      (if crystal_is_hkl d
       then "Specified point in hkl space is a null-vector"
       else "Specified direction in crystal frame is a null-vector") ;;
    throw_if (mag2 (lab d) =? 0)%float BadInput
      "Specified direction in laboratory frame is a null-vector") ;;
  throw_if (isParallel (lab dir0) (lab dir1) 1.0e-6%float) BadInput
    "Specified primary and secondary lab directions are parallel" ;;
  if Bool.eqb (crystal_is_hkl dir0) (crystal_is_hkl dir1)
  then throw_if (isParallel (crystal dir0) (crystal dir1) 1.0e-6%float) BadInput
         (if crystal_is_hkl dir0
          then "Specified primary and secondary hkl points have planes with parallel normals"
          else "Specified primary and secondary directions in the crystal frame are parallel")
  else Ok tt.

(** [MatCfg::checkConsistency]. The SpyDisabler only detaches the spies
    for the duration of the call. *)
Definition checkConsistency (o : Impl) : result unit :=
  parval_temp ← get_temp o;
  parval_dcutoff ← get_dcutoff o;
  parval_dcutoffup ← get_dcutoffup o;
  parval_packfact ← get_packfact o;
  parval_dirtol ← get_dirtol o;
  parval_sccutoff ← get_sccutoff o;
  throw_if (negb (parval_temp =? -1.0)%float
            && ((parval_temp <? 0.0)%float || (1e5 <? parval_temp)%float))
    BadInput "temp must be -1.0 or in the range (0.0,1e5]" ;;
  (if negb (parval_dcutoff =? -1)%float then
     throw_if (parval_dcutoff <? 0.0)%float BadInput "dcutoff must be -1.0 or >=0.0" ;;
     throw_if (parval_dcutoffup <=? parval_dcutoff)%float BadInput
       "dcutoff must be less than dcutoffup" ;;
     throw_if (negb ((1e-3 <=? parval_dcutoff)%float && (parval_dcutoff <=? 1e5)%float)
               && negb (parval_dcutoff =? 0)%float)
       BadInput
       "dcutoff must be -1 (hkl lists disabled), 0 (for automatic selection), or in range [1e-3,1e5]"
   else Ok tt) ;;
  throw_if ((parval_packfact <=? 0.0)%float || (1.0 <? parval_packfact)%float)
    BadInput "packfact must be in range (0.0,1.0]" ;;
  throw_if (parval_sccutoff <? 0.0)%float BadInput "sccutoff must be >=0.0" ;;
  throw_if ((parval_dirtol <=? 0.0)%float || (kPi <? parval_dirtol)%float)
    BadInput "dirtol must be in range (0.0,pi]" ;;
  parval_mosprec ← get_mosprec o;
  throw_if (negb (valueInInterval 0.9999e-7%float 0.10000001%float parval_mosprec))
    BadInput "mosprec must be in the range [1e-7,1e-1]." ;;
  parval_inelas ← get_inelas o;
  throw_if (empty parval_inelas || negb (contains_only parval_inelas lowercase_num_underscore))
    BadInput "invalid inelas name specified" ;;
  parval_infofactory ← get_infofactory o;
  parval_infofact_name ← get_infofact_name o;
  throw_if (negb (contains_only parval_infofact_name lowercase_num_underscore))
    BadInput "invalid infofactory name specified" ;;
  throw_if (empty parval_infofact_name && contains parval_infofactory ":")
    BadInput "infofactory options not allowed when not specifying specific factory" ;;
  decodeopts parval_infofactory true ;;
  let nOrient := ((if hasPar o PAR_dir1 then 1 else 0)
                  + (if hasPar o PAR_dir2 then 1 else 0)
                  + (if hasPar o PAR_mos then 1 else 0))%nat in
  throw_if (negb (Nat.eqb nOrient 0) && Nat.ltb nOrient 3)
    BadInput "Must set all or none of mos, dir1 and dir2 parameters" ;;
  throw_if (Nat.eqb nOrient 0 && hasPar o PAR_dirtol)
    BadInput "mos, dir1 and dir2 parameters must all be set when dirtol is set" ;;
  (if negb (Nat.eqb nOrient 0) then
     parval_mos ← get_mos o;
     throw_if ((parval_mos <=? 0.0)%float || (1.570796326794896558 <? parval_mos)%float)
       BadInput "mos must be in range (0.0,pi/2]" ;;
     throw_if (negb (parval_packfact =? 1.0)%float)
       BadInput "Single crystal parameters are set, so packfact must be 1.0" ;;
     dir0 ← getValTypeThrowIfNotAvail o PAR_dir1;
     dir1 ← getValTypeThrowIfNotAvail o PAR_dir2;
     check_directions dir0 dir1
   else Ok tt) ;;
  (if hasPar o PAR_lcaxis then
     nc_assert (isLayeredCrystal o) "isLayeredCrystal()" ;;
     v ← get_lcaxis o;
     nc_assert (negb (any_nan v)) "! ( ncisnan(v[0]) || ncisnan(v[1]) || ncisnan(v[2]) )" ;;
     let '(v0, v1, v2) := v in
     let mag := PrimFloat.sqrt (v0 * v0 + v1 * v1 + v2 * v2)%float in
     throw_if (ncisinf mag || ncisinf v0 || ncisinf v1 || ncisinf v2)
       BadInput "Infinities or too large values specified in lcaxis vector" ;;
     throw_if (mag =? 0)%float
       BadInput "Null vector or too small values specified in lcaxis vector"
   else Ok tt) ;;
  parval_vdoslux ← get_vdoslux o;
  throw_if ((parval_vdoslux <? 0)%Z || (5 <? parval_vdoslux)%Z)
    BadInput "Specified invalid vdoslux value (must be integer from 0 to 5)".

End Impl.

(** *** Handles, reference counts and copy-on-write *)

(** An Impl with the counter it inherits from RCBase (NCMem.hh). *)
Record RCImpl : Type := mkRC {
  m_refCount : nat;
  rc_obj : Impl
}.

(** The free store: the live Impl objects by address. *)
Abbreviation Heap := (gmap nat RCImpl).

(** [class MatCfg]: its only data member is the pointer m_impl. *)
Record Handle : Type := mkHandle { m_impl : nat }.

(** The largest value of an unsigned, which has 32 bits. *)
Definition UINT_MAX : N := 4294967295.

(** [++m_refCount] on the unsigned counter: the successor, and 0 after
    the largest value. *)
Definition incr_unsigned (c : nat) : nat :=
  if N.eqb (N.of_nat c) UINT_MAX then 0 else S c.

(** [RCBase::ref] *)
Definition ref (a : nat) (hp : Heap) : Heap :=
  alter (fun o => mkRC (incr_unsigned (m_refCount o)) (rc_obj o)) a hp.

(** [RCBase::unref]: decrement, and [delete this] at zero. *)
Definition unref (a : nat) (hp : Heap) : Heap :=
  match hp !! a with
  | Some o =>
      if Nat.eqb (m_refCount o - 1) 0 then delete a hp
      else <[a := mkRC (m_refCount o - 1) (rc_obj o)]> hp
  | None => hp
  end.

(** How the member functions of MatCfg reach the table: [cow()] and the
    dereference [m_impl->...]. The state [S] is what a call can change. *)
Class Owner (S : Type) : Type := {
  cow : M S unit;
  via_m_impl : forall {A}, M Impl A -> M S A
}.

(** Modelled from the spec: NCSCOrientation.hh is not among the sources;
    the record holds what the accessors called by setOrientation return
    (isComplete, getCrysIsHKL(i), getCrysDir(i), getLabDir(i) for i = 0
    and 1, getTolerance). *)
Record SCOrientation : Type := mkSCO {
  sco_isComplete : bool;
  sco_getCrysIsHKL : bool * bool;
  sco_getCrysDir : vec3 * vec3;
  sco_getLabDir : vec3 * vec3;
  sco_getTolerance : double
}.

Section Handles.
Context `{Externals}.

(** The copy constructor [Impl(const Impl& o)], the body of clone: it
    refuses a monitored source, copies the values and the file data, and
    starts with no spies. *)
Definition Impl_copy (o : Impl) : result Impl :=
  match ensureNoSpy o with
  | (Ok _, _) =>
      Ok (mkImpl [] (m_datafile_resolved o) (m_datafile_orig o) (m_datafileext o)
                 (m_ignoredfilecfg o) (m_parlist o))
  | (Throw k w, _) => Throw k w
  end.

(** [MatCfg::cow] on the heap. A handle whose pointer is not live does
    not occur; dereferencing it is reported as a LogicError. *)
Definition heap_cow : M (Heap * Handle) unit := fun '(hp, h) =>
  match hp !! m_impl h with
  | None => (Throw LogicError "dangling m_impl", (hp, h))
  | Some o =>
      if Nat.eqb (m_refCount o) 1 then (Ok tt, (hp, h))
      else
        match Impl_copy (rc_obj o) with
        | Throw k w => (Throw k w, (hp, h))
        | Ok newobj =>
            let newimpl := fresh (dom hp) in
            let hp := <[newimpl := mkRC 0 newobj]> hp in
            let hp := ref newimpl hp in
            let hp := unref (m_impl h) hp in
            (Ok tt, (hp, mkHandle newimpl))
        end
  end.

(** [m_impl->call] on the heap. *)
Definition heap_via_m_impl {A} (call : M Impl A) : M (Heap * Handle) A := fun '(hp, h) =>
  match hp !! m_impl h with
  | None => (Throw LogicError "dangling m_impl", (hp, h))
  | Some o =>
      let '(r, obj) := call (rc_obj o) in
      (r, (<[m_impl h := mkRC (m_refCount o) obj]> hp, h))
  end.

#[global] Instance Owner_heap : Owner (Heap * Handle) := {|
  cow := heap_cow;
  via_m_impl := @heap_via_m_impl
|}.

(** A handle which is the only one on its table (refCount()==1), as
    during the MatCfg constructor: cow() returns at once and the calls act
    on the table itself. *)
Definition Owner_exclusive : Owner Impl := {|
  cow := mret tt;
  via_m_impl A call := call
|}.

(** [MatCfg(const MatCfg& o)] / [operator=] into a fresh handle. *)
Definition copy_handle (o : Handle) (hp : Heap) : Heap * Handle :=
  (ref (m_impl o) hp, mkHandle (m_impl o)).

(** [MatCfg::~MatCfg] of a handle whose pointer is not null. *)
Definition MatCfg_destroy (h : Handle) (hp : Heap) : Heap := unref (m_impl h) hp.

(** [MatCfg::operator=(const MatCfg& o)] on a handle whose pointer is
    not null: the new table is referenced before the old one is
    released. *)
Definition MatCfg_assign (this o : Handle) (hp : Heap) : Heap * Handle :=
  let hp := ref (m_impl o) hp in
  let hp := unref (m_impl this) hp in
  (hp, mkHandle (m_impl o)).

(** What a handle sees: the table it points to. *)
Definition deref (hp : Heap) (h : Handle) : option Impl :=
  rc_obj <$> hp !! m_impl h.

Section Setters.
Context {S : Type} {OW : Owner S}.

Definition set_temp (v : double) : M S unit := cow ;; via_m_impl (setVal_Dbl PAR_temp v).
Definition set_dcutoff (v : double) : M S unit := cow ;; via_m_impl (setVal_Dbl PAR_dcutoff v).
Definition set_dcutoffup (v : double) : M S unit := cow ;; via_m_impl (setVal_Dbl PAR_dcutoffup v).
Definition set_packfact (v : double) : M S unit := cow ;; via_m_impl (setVal_Dbl PAR_packfact v).
Definition set_mos (v : double) : M S unit := cow ;; via_m_impl (setVal_Dbl PAR_mos v).
Definition set_mosprec (v : double) : M S unit := cow ;; via_m_impl (setVal_Dbl PAR_mosprec v).
Definition set_sccutoff (v : double) : M S unit := cow ;; via_m_impl (setVal_Dbl PAR_sccutoff v).
Definition set_dirtol (v : double) : M S unit := cow ;; via_m_impl (setVal_Dbl PAR_dirtol v).
Definition set_coh_elas (v : bool) : M S unit := cow ;; via_m_impl (setVal_Bool PAR_coh_elas v).
Definition set_incoh_elas (v : bool) : M S unit := cow ;; via_m_impl (setVal_Bool PAR_incoh_elas v).
Definition set_inelas (v : string) : M S unit := cow ;; via_m_impl (setVal_Str PAR_inelas v).
Definition set_overridefileext (v : string) : M S unit :=
  cow ;; via_m_impl (setVal_Str PAR_overridefileext v).
Definition set_infofactory (v : string) : M S unit := cow ;; via_m_impl (setVal_Str PAR_infofactory v).
Definition set_scatfactory (v : string) : M S unit := cow ;; via_m_impl (setVal_Str PAR_scatfactory v).
Definition set_absnfactory (v : string) : M S unit := cow ;; via_m_impl (setVal_Str PAR_absnfactory v).
Definition set_lcmode (v : Z) : M S unit := cow ;; via_m_impl (setVal_Int PAR_lcmode v).
Definition set_vdoslux (v : Z) : M S unit := cow ;; via_m_impl (setVal_Int PAR_vdoslux v).

Definition set_lcaxis (axis : vec3) : M S unit :=
  cow ;; via_m_impl (getValTypeForSet PAR_lcaxis (ValVector_set axis)).

Definition set_dir1 (cishkl : bool) (cdir ldir : vec3) : M S unit :=
  cow ;; via_m_impl (getValTypeForSet PAR_dir1 (ValOrientDir_set cishkl cdir ldir)).

Definition set_dir2 (cishkl : bool) (cdir ldir : vec3) : M S unit :=
  cow ;; via_m_impl (getValTypeForSet PAR_dir2 (ValOrientDir_set cishkl cdir ldir)).

Definition set_atomdb (v : string) : M S unit :=
  cow ;; via_m_impl (getValTypeForSet PAR_atomdb (ValAtomDB_set_from_strrep v)).

(** [Impl::setOrientation]: both slots are obtained (and created) before
    the two calls of set through the pointers p[0], p[1]. *)
Definition Impl_setOrientation (sco : SCOrientation) : M Impl unit :=
  getValTypeForSet (T := ValOrientDir) PAR_dir1 (mret tt) ;;
  getValTypeForSet (T := ValOrientDir) PAR_dir2 (mret tt) ;;
  getValTypeForSet PAR_dir1
    (ValOrientDir_set (fst (sco_getCrysIsHKL sco)) (fst (sco_getCrysDir sco))
                      (fst (sco_getLabDir sco))) ;;
  getValTypeForSet PAR_dir2
    (ValOrientDir_set (snd (sco_getCrysIsHKL sco)) (snd (sco_getCrysDir sco))
                      (snd (sco_getLabDir sco))) ;;
  setVal_Dbl PAR_dirtol (sco_getTolerance sco).

(** [MatCfg::setOrientation] *)
Definition setOrientation (sco : SCOrientation) : M S unit :=
  if negb (sco_isComplete sco)
  then raise BadInput "setOrientation called with incomplete SCOrientation object"
  else
    cow ;;
    via_m_impl (Impl_setOrientation sco) ;;
    via_m_impl (o ← get; lift (nc_assert (isSingleCrystal o) "isSingleCrystal()")).

(** The body of the loop of applyStrCfg on the part [parts.at(i)]. *)
Definition applyStrCfg_part (part : string) : M S unit :=
  let part := trim part in
  if empty part then mret tt
  else if String.eqb part "ignorefilecfg"
  then raise BadInput "The ignorefilecfg keyword can only be used in the MatCfg constructor (and only directly after the filename)"
  else
    let par_and_val := split part 0 "=" in
    if negb (Nat.eqb (length par_and_val) 2)
    then raise BadInput "Bad syntax in parameter specification"
    else
      let name := trim (nth 0 par_and_val "") in
      let value := trim (nth 1 par_and_val "") in
      if empty name then raise BadInput "Missing parameter name"
      else cow ;; via_m_impl (setValByStr name value).

(** [MatCfg::applyStrCfg] *)
Definition applyStrCfg (str : string) : M S unit :=
  if negb (isSimpleASCII str true true)
  then raise BadInput "Non-ASCII characters in parameter specification!"
  else if contains_any str NCMATCFG_FORBIDDEN_CHARS
  then raise BadInput "Forbidden characters in parameter specification!"
  else forM_ (split str 0 ";") applyStrCfg_part.

(** The public modifiers of MatCfg. *)
Inductive Setter : Type :=
| Set_temp (v : double) | Set_dcutoff (v : double) | Set_dcutoffup (v : double)
| Set_packfact (v : double) | Set_mos (v : double) | Set_mosprec (v : double)
| Set_sccutoff (v : double) | Set_dirtol (v : double)
| Set_coh_elas (v : bool) | Set_incoh_elas (v : bool)
| Set_inelas (v : string) | Set_overridefileext (v : string)
| Set_infofactory (v : string) | Set_scatfactory (v : string)
| Set_absnfactory (v : string)
| Set_lcmode (v : Z) | Set_vdoslux (v : Z)
| Set_lcaxis (axis : vec3)
| Set_dir1 (cishkl : bool) (cdir ldir : vec3)
| Set_dir2 (cishkl : bool) (cdir ldir : vec3)
| Set_atomdb (v : string)
| SetOrientation (sco : SCOrientation)
| ApplyStrCfg (str : string).

Definition call_setter (f : Setter) : M S unit :=
  match f with
  | Set_temp v => set_temp v | Set_dcutoff v => set_dcutoff v
  | Set_dcutoffup v => set_dcutoffup v | Set_packfact v => set_packfact v
  | Set_mos v => set_mos v | Set_mosprec v => set_mosprec v
  | Set_sccutoff v => set_sccutoff v | Set_dirtol v => set_dirtol v
  | Set_coh_elas v => set_coh_elas v | Set_incoh_elas v => set_incoh_elas v
  | Set_inelas v => set_inelas v | Set_overridefileext v => set_overridefileext v
  | Set_infofactory v => set_infofactory v | Set_scatfactory v => set_scatfactory v
  | Set_absnfactory v => set_absnfactory v
  | Set_lcmode v => set_lcmode v | Set_vdoslux v => set_vdoslux v
  | Set_lcaxis axis => set_lcaxis axis
  | Set_dir1 b c l => set_dir1 b c l
  | Set_dir2 b c l => set_dir2 b c l
  | Set_atomdb v => set_atomdb v
  | SetOrientation sco => setOrientation sco
  | ApplyStrCfg str => applyStrCfg str
  end.

End Setters.

(** *** Construction from a file name and parameters *)

(** Modelled from the spec: NCFile.cc is not among the sources; a
    TextInputStream gives the successive lines of its source and the
    on-disk resolved path (empty for in-memory sources). *)
Record TextInputStream : Type := mkStream {
  ts_lines : list string;
  onDiskResolvedPath : string
}.

Definition pattern : string := "NCRYSTALMATCFG".

(** The body of the loop [while (input.getLine(line))] of
    extractFileCfgStr on one line, from the value of [res] before the
    line to its value after; [continue] leaves it as it is. *)
Definition extractFileCfgStr_line (line res : string) : result string :=
  match find line pattern with
  | None => Ok res
  | Some pos =>
      if negb (empty res)
      then Throw BadInput "Input file contains more than one NCRYSTALMATCFG specification"
      else
        let line := substr_from (pos + String.length pattern) line in
        if empty line || negb (startswith line "[")
        then Throw BadInput
               "Input file contains NCRYSTALMATCFG which is not followed by a '[' character"
        else if bool_decide (is_Some (find line pattern))
        then Throw BadInput
               "Input file contains more than one NCRYSTALMATCFG specification on a single line"
        else
          let line := substr_from 1 line in
          match find_chr line "]" with
          | None => Throw BadInput
                      "Input file contains NCRYSTALMATCFG without a closing ']' character"
          | Some pos =>
              let res := substr_to pos line in
              Ok (if empty res then " " else res)
          end
  end.

(** The loop itself, with the value of [res] on entry. *)
Fixpoint extractFileCfgStr_loop (lines : list string) (res : string) : result string :=
  match lines with
  | [] => Ok res
  | line :: rest =>
      res ← extractFileCfgStr_line line res;
      extractFileCfgStr_loop rest res
  end.

(** [Impl::extractFileCfgStr] *)
Definition extractFileCfgStr (input : TextInputStream) : result string :=
  trim <$> extractFileCfgStr_loop (ts_lines input) "".

(** The statement under [for (i<parts2.size())] in the constructor: it
    does not depend on [i], so running it for every [i] is running it
    once when parts2 is not empty. It gives m_ignoredfilecfg and
    extracfgstr. *)
Definition ctor_parts2 (parts1 : string) (parts2 : list string) : bool * string :=
  match parts2 with
  | [] => (false, "")
  | p0 :: _ =>
      if String.eqb p0 "ignorefilecfg"
      then (true, if Nat.eqb (length parts2) 2 then nth 1 parts2 "" else "")
      else (false, parts1)
  end.

(** [applyStrCfg( str )] as the constructor calls it: an exception leaves
    the constructor, whose guard releases the table. *)
Definition ctor_applyStrCfg (str : string) (o : Impl) : result Impl :=
  match applyStrCfg (OW := Owner_exclusive) str o with
  | (Ok _, o) => Ok o
  | (Throw k w, _) => Throw k w
  end.

(** [MatCfg::MatCfg(const std::string& datafile_and_parameters)], giving
    the new table; [createTextInputStream] is the function of NCFile.hh
    (a null result is [None]). During the constructor the new handle is
    the only owner of the table. *)
Definition MatCfg_new (createTextInputStream : string -> option TextInputStream)
    (datafile_and_parameters : string) : result Impl :=
  let input := trim datafile_and_parameters in
  let parts := map trim (split input 1 ";") in
  let parts0 := nth 0 parts "" in
  if bool_decide (parts = []) || empty parts0
  then Throw MissingInfo "Please supply name of data file"
  else if contains parts0 "="
  then Throw BadInput "Filename contains a forbidden character ('=')"
  else
    match createTextInputStream parts0 with
    | None => Throw FileNotFound "Could not find specified datafile"
    | Some inputstream =>
        let resolved := onDiskResolvedPath inputstream in
        let orig := if negb (String.eqb parts0 resolved) then parts0 else "" in
        nc_assert (Nat.leb (length parts) 2) "parts.size()<=2" ;;
        let '(ignored, extracfgstr) :=
          if Nat.eqb (length parts) 2
          then ctor_parts2 (nth 1 parts "") (map trim (split (nth 1 parts "") 1 ";"))
          else (false, "") in
        let o := mkImpl [] resolved orig (getfileext parts0) ignored ∅ in
        o ← (if negb ignored then
               filecfgstr ← extractFileCfgStr inputstream;
               if negb (empty filecfgstr)
               then ctor_applyStrCfg filecfgstr o
               else Ok o
             else Ok o);
        o ← (if negb (empty extracfgstr)
             then ctor_applyStrCfg extracfgstr o
             else Ok o);
        ext ← getDataFileExtension o;
        throw_if (empty ext) BadInput
          "Unsupported data file (can not determine extension)" ;;
        Ok o
    end.

End Handles.

(** *** NCFactory_NCMAT.cc: the factory of .ncmat files *)

(** What createInfo reads from the configuration for loadNCMAT. *)
Record NCMATCfgVars : Type := mkCfgVars {
  cv_temp : double;
  cv_dcutoff : double;
  cv_dcutoffup : double;
  cv_expandhkl : bool;
  cv_atomdb : list (list string)
}.

Section Factory.
Context `{Externals}.

(** [NCMATFactory::canCreateInfo] *)
Definition canCreateInfo (cfg : Impl) : result Z :=
  ext ← getDataFileExtension cfg;
  Ok (if String.eqb ext "ncmat" then 100%Z else 0%Z).

(** [NCMATFactory::createInfo] up to the call of loadNCMAT (NCLoadNCMAT.hh
    is not among the sources): the variables it passes on. *)
Definition createInfo_cfgvars (cfg : Impl) : result NCMATCfgVars :=
  can ← canCreateInfo cfg;
  nc_assert (negb (Z.eqb can 0)) "canCreateInfo(cfg)" ;;
  infofactopt_validate cfg ["expandhkl"] ;;
  temp ← get_temp cfg;
  dcutoff ← get_dcutoff cfg;
  dcutoffup ← get_dcutoffup cfg;
  expandhkl ← get_infofactopt_flag cfg "expandhkl";
  atomdb ← get_atomdb_parsed cfg;
  Ok (mkCfgVars temp dcutoff dcutoffup expandhkl atomdb).

End Factory.

End MatCfg.

(* ===================================================================== *)
(** ** NCParseNCMAT.cc: the NCMAT parser *)
(* ===================================================================== *)

Module NCMAT.
Import NCString.

(** Modelled from the spec: NCMATData.hh is not among the sources; the
    types below hold the members of NCMATData and NCMATData::DynInfo which
    the parser reads and writes (the Raw Material Data of the data model),
    with the initial values the parser relies on: version 0, null cell
    vectors, spacegroup 0, global Debye temperature 0, density 0,
    fraction -1.0, dynamic-info type Undefined. *)
Inductive DynInfoType : Type :=
| Sterile | FreeGas | ScatKnl | VDOS | VDOSDebye | Undefined.

#[global] Instance DynInfoType_eq_dec : EqDecision DynInfoType.
Proof. solve_decision. Defined.

Record DynInfo : Type := mkDynInfo {
  fraction : double;
  element_name : string;
  dyninfo_type : DynInfoType;
  fields : gmap string (list double)
}.

Definition DynInfo_new : DynInfo := mkDynInfo (-1.0)%float "" Undefined ∅.

Inductive DensityUnit : Type := ATOMS_PER_AA3 | KG_PER_M3.

Record NCMATData : Type := mkData {
  version : Z;
  cell_lengths : vec3;
  cell_angles : vec3;
  atompos : list (string * vec3);
  spacegroup : Z;
  debyetemp_global : double;
  debyetemp_perelement : list (string * double);
  dyninfos : list DynInfo;
  density : double;
  density_unit : DensityUnit;
  atomDBLines : list (list string);
  customSections : list (string * list (list string))
}.

Definition NCMATData_new : NCMATData :=
  mkData 0 (0, 0, 0)%float (0, 0, 0)%float [] 0 0%float [] [] 0%float ATOMS_PER_AA3 [] [].

(** Modelled from the spec: the member functions of NCMATData which the
    parser and parseNCMATData call are not among the sources. A validation returns [true]
    when it passes and [false] when it throws, and what it throws is a
    BadInput (all failures of the parser raise BadInput). *)
Class NCMATDataOps : Type := {
  validateCell : NCMATData -> bool;
  validateAtomPos : NCMATData -> bool;
  validateSpaceGroup : NCMATData -> bool;
  validateDebyeTemperature : NCMATData -> bool;
  validateDensity : NCMATData -> bool;
  DynInfo_validate : DynInfo -> bool;
  hasDebyeTemperature : NCMATData -> bool;
  validateElementNameByVersion : string -> Z -> bool;
  unaliasElementNames : NCMATData -> NCMATData;
  validate : NCMATData -> bool
}.

(** [class NCMATParser]. The pointer m_active_dyninfo is null or points
    to the last element of m_data.dyninfos: it is the flag
    [m_active_dyninfo]. The pointer m_dyninfo_active_vector_field is null
    or points to the vector stored under a keyword in the fields of that
    element: it is the keyword. *)
Record NCMATParser : Type := mkParser {
  m_data : NCMATData;
  m_active_dyninfo : bool;
  m_dyninfo_active_vector_field : option string;
  m_dyninfo_active_vector_field_allownegative : bool
}.

Definition NCMATParser_new : NCMATParser := mkParser NCMATData_new false None false.

Definition set_data (f : NCMATData -> NCMATData) (p : NCMATParser) : NCMATParser :=
  mkParser (f (m_data p)) (m_active_dyninfo p) (m_dyninfo_active_vector_field p)
           (m_dyninfo_active_vector_field_allownegative p).

Definition Parts : Type := list string.

(** *** parseLine *)

(** The second loop of parseLine, from the character where the first
    one stopped: no control codes in comments except tab, line feed and a
    carriage return which is last or followed by a line feed. *)
Fixpoint parseLine_comment (s : string) : result unit :=
  match s with
  | EmptyString => Ok tt
  | String c r =>
      let n := nat_of_ascii c in
      if Nat.leb 32 n && negb (Nat.eqb n 127) then parseLine_comment r
      else if Ascii.eqb c chr_tab || Ascii.eqb c chr_lf then parseLine_comment r
      else if Ascii.eqb c chr_cr then
        if negb (empty r) && negb (startswith r (String chr_lf EmptyString))
        then Throw BadInput "contains invalid character. Carriage return codes are not allowed unless used as part of DOS line endings."
        else parseLine_comment r
      else Throw BadInput "contains illegal control code character"
  end.

(** The first loop of parseLine from the character [c]; [cur] is the
    part begun at partbegin (empty when partbegin is null) and [parts]
    the parts found so far. *)
Fixpoint parseLine_scan (s : string) (cur : string) (parts : Parts) : result Parts :=
  let add_cur := if empty cur then parts else parts ++ [cur] in
  match s with
  | EmptyString => Ok add_cur
  | String c r =>
      let n := nat_of_ascii c in
      if Nat.ltb n 127 && Nat.ltb 32 n && negb (Ascii.eqb c "#")
      then parseLine_scan r (cur +:+ String c EmptyString) parts
      else if Ascii.eqb c " " || Ascii.eqb c chr_tab
      then parseLine_scan r "" add_cur
      else if Ascii.eqb c chr_lf || Ascii.eqb c chr_cr || Ascii.eqb c "#"
      then
        if Ascii.eqb c chr_cr && negb (empty r)
           && negb (startswith r (String chr_lf EmptyString))
        then Throw BadInput "contains invalid character. Carriage return codes are not allowed unless used as part of DOS line endings."
        else parseLine_comment s ;; Ok add_cur
      else Throw BadInput "contains invalid character. Only regular ASCII characters (including spaces) are allowed outside comments (comments can be UTF-8)"
  end.

(** [NCMATParser::parseLine] *)
Definition parseLine (line : string) : result Parts := parseLine_scan line "" [].

Section Parser.
Context `{Externals} `{NCMATDataOps}.

Definition throw_unless (ok : bool) (what : string) : M NCMATParser unit :=
  if ok then mret tt else raise BadInput what.

(** [NCMATParser::validateElementName] *)
Definition validateElementName (s : string) : M NCMATParser unit :=
  p ← get;
  throw_unless (validateElementNameByVersion s (version (m_data p)))
    "invalid element name".

(** [NCMATParser::str2dbl_withfractions] *)
Definition str2dbl_withfractions (p : NCMATParser) (ss : string) : result double :=
  if negb (contains ss "/") then str2dbl_or_throw ss
  else if Z.eqb (version (m_data p)) 1
  then Throw BadInput "specification with fractions not supported in NCMAT v1 files"
  else
    let parts := split ss 0 "/" in
    if negb (Nat.eqb (length parts) 2)
    then Throw BadInput "multiple fractions in numbers are not supported"
    else if existsb empty parts
    then Throw BadInput "empty denominator or numerator"
    else
      a ← str2dbl_or_throw (nth 0 parts "");
      b ← str2dbl_or_throw (nth 1 parts "");
      if ncisnan a || ncisnan b || ncisinf a || ncisinf b
      then Throw BadInput "invalid division attempted"
      else if (b =? 0)%float then Throw BadInput "division by zero attempted"
      else Ok (a / b)%float.

Definition is_null (v : vec3) : bool :=
  let '(x, y, z) := v in ((x =? 0) && (y =? 0) && (z =? 0))%float.

(** Three numbers from the parts after the first one. *)
Definition parse3 (conv : string -> result double) (what : string) (parts : Parts)
    : result vec3 :=
  x ← rethrow_BadInput what (conv (nth 1 parts ""));
  y ← rethrow_BadInput what (conv (nth 2 parts ""));
  z ← rethrow_BadInput what (conv (nth 3 parts ""));
  Ok (x, y, z).

(** *** Section handlers. The line number only enters the messages. *)

Definition handleSectionData_HEAD (parts : Parts) : M NCMATParser unit :=
  if bool_decide (parts = []) then mret tt
  else raise BadInput "should not have non-comment entries before the first section".

Definition handleSectionData_CELL (parts : Parts) : M NCMATParser unit :=
  p ← get;
  match parts with
  | [] => throw_unless (validateCell (m_data p)) "problem in the @CELL section"
  | p0 :: _ =>
      if negb (isOneOf p0 ["lengths"; "angles"])
      then raise BadInput "found something where lengths or angles keyword was expected in @CELL section"
      else if negb (Nat.eqb (length parts) 4)
      then raise BadInput "wrong number of data entries after keyword (expected three numbers)"
      else
        let is_lengths := String.eqb p0 "lengths" in
        let targetvector :=
          if is_lengths then cell_lengths (m_data p) else cell_angles (m_data p) in
        if negb (is_null targetvector) then raise BadInput "repeated keyword"
        else
          v ← lift (parse3 str2dbl_or_throw "problem while decoding parameter" parts);
          modify (set_data (fun d =>
            mkData (version d)
                   (if is_lengths then v else cell_lengths d)
                   (if is_lengths then cell_angles d else v)
                   (atompos d) (spacegroup d) (debyetemp_global d)
                   (debyetemp_perelement d) (dyninfos d) (density d) (density_unit d)
                   (atomDBLines d) (customSections d))) ;;
          if is_null v then raise BadInput "vector is a null-vector" else mret tt
  end.

Definition handleSectionData_ATOMPOSITIONS (parts : Parts) : M NCMATParser unit :=
  p ← get;
  match parts with
  | [] =>
      if bool_decide (atompos (m_data p) = [])
      then raise BadInput "no element positions specified in @ATOMPOSITIONS section"
      else throw_unless (validateAtomPos (m_data p)) "problem in the @ATOMPOSITIONS section"
  | p0 :: _ =>
      validateElementName p0 ;;
      if negb (Nat.eqb (length parts) 4)
      then raise BadInput "wrong number of data entries after element name (expected three numbers)"
      else
        v ← lift (parse3 (str2dbl_withfractions p)
                         "problem while decoding position parameter" parts);
        modify (set_data (fun d =>
          mkData (version d) (cell_lengths d) (cell_angles d)
                 (atompos d ++ [(p0, v)]) (spacegroup d) (debyetemp_global d)
                 (debyetemp_perelement d) (dyninfos d) (density d) (density_unit d)
                 (atomDBLines d) (customSections d)))
  end.

Definition handleSectionData_SPACEGROUP (parts : Parts) : M NCMATParser unit :=
  p ← get;
  match parts with
  | [] =>
      if Z.eqb (spacegroup (m_data p)) 0
      then raise BadInput "no spacegroup number specified in @SPACEGROUP section"
      else throw_unless (validateSpaceGroup (m_data p)) "problem in the @SPACEGROUP section"
  | p0 :: _ =>
      if negb (Z.eqb (spacegroup (m_data p)) 0) || Nat.ltb 1 (length parts)
      then raise BadInput "multiple entries specified in @SPACEGROUP section"
      else
        sg ← lift (rethrow_BadInput "problem while decoding spacegroup parameter"
                                    (str2int_or_throw p0));
        modify (set_data (fun d =>
          mkData (version d) (cell_lengths d) (cell_angles d) (atompos d) sg
                 (debyetemp_global d) (debyetemp_perelement d) (dyninfos d)
                 (density d) (density_unit d) (atomDBLines d) (customSections d)))
  end.

Definition handleSectionData_DEBYETEMPERATURE (parts : Parts) : M NCMATParser unit :=
  p ← get;
  match parts with
  | [] =>
      if negb (hasDebyeTemperature (m_data p))
      then raise BadInput "missing data in @DEBYETEMPERATURE section"
      else throw_unless (validateDebyeTemperature (m_data p))
                        "problem in the @DEBYETEMPERATURE section"
  | p0 :: _ =>
      if negb (debyetemp_global (m_data p) =? 0.0)%float
      then raise BadInput "invalid entries found after global Debye temperature was already specified"
      else if Nat.eqb (length parts) 1 then
        if negb (bool_decide (debyetemp_perelement (m_data p) = []))
        then raise BadInput "invalid entries found (missing element name or temperature?)"
        else
          dt ← lift (rethrow_BadInput "problem while decoding global Debye temperature"
                                      (str2dbl_or_throw p0));
          modify (set_data (fun d =>
            mkData (version d) (cell_lengths d) (cell_angles d) (atompos d)
                   (spacegroup d) dt (debyetemp_perelement d) (dyninfos d)
                   (density d) (density_unit d) (atomDBLines d) (customSections d)))
      else if Nat.eqb (length parts) 2 then
        validateElementName p0 ;;
        dt ← lift (rethrow_BadInput "problem while decoding temperature for element"
                                    (str2dbl_or_throw (nth 1 parts "")));
        modify (set_data (fun d =>
          mkData (version d) (cell_lengths d) (cell_angles d) (atompos d)
                 (spacegroup d) (debyetemp_global d)
                 (debyetemp_perelement d ++ [(p0, dt)]) (dyninfos d)
                 (density d) (density_unit d) (atomDBLines d) (customSections d)))
      else raise BadInput "wrong number of data entries"
  end.

Definition handleSectionData_DENSITY (parts : Parts) : M NCMATParser unit :=
  p ← get;
  match parts with
  | [] =>
      if (density (m_data p) =? 0)%float
      then raise BadInput "no input found in @DENSITY section"
      else throw_unless (validateDensity (m_data p)) "problem in the @DENSITY section"
  | p0 :: _ =>
      if negb (Nat.eqb (length parts) 2)
      then raise BadInput "wrong number of entries in @DENSITY section"
      else
        density_val ← lift (rethrow_BadInput "problem while decoding density value"
                                             (str2dbl_or_throw p0));
        let store (u : DensityUnit) (v : double) : M NCMATParser unit :=
          modify (set_data (fun d =>
            mkData (version d) (cell_lengths d) (cell_angles d) (atompos d)
                   (spacegroup d) (debyetemp_global d) (debyetemp_perelement d)
                   (dyninfos d) v u (atomDBLines d) (customSections d))) in
        let unit := nth 1 parts "" in
        if String.eqb unit "atoms_per_aa3" then store ATOMS_PER_AA3 density_val
        else if String.eqb unit "kg_per_m3" then store KG_PER_M3 density_val
        else if String.eqb unit "g_per_cm3" then store KG_PER_M3 (density_val * 1000.0)%float
        else raise BadInput "invalid density unit"
  end.

Definition handleSectionData_ATOMDB (parts : Parts) : M NCMATParser unit :=
  match parts with
  | [] => mret tt
  | p0 :: _ =>
      (if negb (String.eqb p0 "nodefaults") then validateElementName p0 else mret tt) ;;
      modify (set_data (fun d =>
        mkData (version d) (cell_lengths d) (cell_angles d) (atompos d)
               (spacegroup d) (debyetemp_global d) (debyetemp_perelement d)
               (dyninfos d) (density d) (density_unit d)
               (atomDBLines d ++ [parts]) (customSections d)))
  end.

(** [m_data.customSections.back().second.push_back(parts)] *)
Fixpoint push_back_last {K V} (l : list (K * list V)) (x : V) : list (K * list V) :=
  match l with
  | [] => []
  | [(k, vs)] => [(k, vs ++ [x])]
  | e :: rest => e :: push_back_last rest x
  end.

Definition handleSectionData_CUSTOM (parts : Parts) : M NCMATParser unit :=
  match parts with
  | [] => mret tt
  | _ =>
      p ← get;
      lift (MatCfg.nc_assert (negb (bool_decide (customSections (m_data p) = [])))
                             "!m_data.customSections.empty()") ;;
      modify (set_data (fun d =>
        mkData (version d) (cell_lengths d) (cell_angles d) (atompos d)
               (spacegroup d) (debyetemp_global d) (debyetemp_perelement d)
               (dyninfos d) (density d) (density_unit d)
               (atomDBLines d) (push_back_last (customSections d) parts)))
  end.

(** *** The @DYNINFO handler *)

Fixpoint alter_last {A} (f : A -> A) (l : list A) : list A :=
  match l with
  | [] => []
  | [x] => [f x]
  | x :: rest => x :: alter_last f rest
  end.

(** [*m_active_dyninfo], the last element of m_data.dyninfos. *)
Definition active_di (p : NCMATParser) : DynInfo :=
  List.last (dyninfos (m_data p)) DynInfo_new.

Definition set_dyninfos (f : list DynInfo -> list DynInfo) (d : NCMATData) : NCMATData :=
  mkData (version d) (cell_lengths d) (cell_angles d) (atompos d) (spacegroup d)
         (debyetemp_global d) (debyetemp_perelement d) (f (dyninfos d))
         (density d) (density_unit d) (atomDBLines d) (customSections d).

(** A write through the pointer m_active_dyninfo. *)
Definition modify_active_di (f : DynInfo -> DynInfo) : M NCMATParser unit :=
  modify (set_data (set_dyninfos (alter_last f))).

Definition set_fields (f : gmap string (list double) -> gmap string (list double))
    (di : DynInfo) : DynInfo :=
  mkDynInfo (fraction di) (element_name di) (dyninfo_type di) (f (fields di)).

Definition lowercase_underscore : string := "abcdefghijklmnopqrstuvwxyz_".

Definition multiline_keywords : list string :=
  [ "sab"; "sab_scaled"; "sqw"; "alphagrid"; "betagrid"; "qgrid";
    "omegagrid"; "egrid"; "vdos_egrid"; "vdos_density" ].

(** [p0[0] >= 'a'] *)
Definition first_chr_ge_a (p0 : string) : bool :=
  match p0 with
  | EmptyString => false
  | String c _ => Nat.leb (nat_of_ascii "a") (nat_of_ascii c)
  end.

(** The common fields fraction, element and type of a @DYNINFO block. *)
Definition dyninfo_common_field (p0 p1 : string) (nparts : nat) : M NCMATParser unit :=
  p ← get;
  let di := active_di p in
  if negb (Nat.eqb nparts 2)
  then raise BadInput "does not provide exactly one argument to keyword"
  else if (String.eqb p0 "fraction" && negb (fraction di =? -1.0)%float)
          || (String.eqb p0 "element" && negb (empty (element_name di)))
          || (String.eqb p0 "type" && negb (bool_decide (dyninfo_type di = Undefined)))
  then raise BadInput "keyword is specified a second time"
  else if String.eqb p0 "fraction" then
    fr ← lift (rethrow_BadInput "problem while decoding fraction parameter"
                                (str2dbl_withfractions p p1));
    if negb (fr <=? 1.0)%float || negb (0.0 <? fr)%float
    then raise BadInput "problem while decoding fraction parameter (must result in a number greater than 0.0 and at most 1.0)"
    else modify_active_di (fun di =>
           mkDynInfo fr (element_name di) (dyninfo_type di) (fields di))
  else if String.eqb p0 "element" then
    validateElementName p1 ;;
    modify_active_di (fun di => mkDynInfo (fraction di) p1 (dyninfo_type di) (fields di))
  else if String.eqb p0 "type" then
    let set_type (t : DynInfoType) :=
      modify_active_di (fun di => mkDynInfo (fraction di) (element_name di) t (fields di)) in
    if String.eqb p1 "scatknl" then set_type ScatKnl
    else if String.eqb p1 "vdos" then set_type VDOS
    else if String.eqb p1 "vdosdebye" then set_type VDOSDebye
    else if String.eqb p1 "freegas" then set_type FreeGas
    else if String.eqb p1 "sterile" then set_type Sterile
    else raise BadInput "invalid @DYNINFO type specified"
  else mret tt.

(** The body of the loop over the entries [*itParseToVect] of a vector
    field: the value, with the repeat count after an 'r', is pushed to the
    vector [parse_target] points to (the field [target] of the active
    block). *)
Definition dyninfo_vector_entry (target : string) (entry : string) : M NCMATParser unit :=
  p ← get;
  let '(srcnumstr, srcrepeatstr) :=
    match find_chr entry "r" with
    | Some idx_repeat_marker =>
        (substr_to idx_repeat_marker entry, Some (substr_from (S idx_repeat_marker) entry))
    | None => (entry, None)
    end in
  '(repeat_count, val) ←
    lift (rethrow_BadInput "problem while decoding vector entry"
      (repeat_count ←
         match srcrepeatstr with
         | Some rs =>
             irc ← str2int_or_throw rs;
             if (irc <? 2)%Z
             then Throw BadInput "repeated entry count parameter must be >= 2"
             else Ok (Z.to_nat irc)
         | None => Ok 1%nat
         end;
       val ← str2dbl_or_throw srcnumstr;
       Ok (repeat_count, val)));
  if ncisnan val || ncisinf val
  then raise BadInput "problem while decoding vector entry : NaN or infinite number"
  else if negb (m_dyninfo_active_vector_field_allownegative p) && (val <? 0.0)%float
  then raise BadInput "problem while decoding vector entry : Negative number"
  else modify_active_di (set_fields (alter (fun v => v ++ replicate repeat_count val) target)).

(** [NCMATParser::handleSectionData_DYNINFO] *)
Definition handleSectionData_DYNINFO (parts : Parts) : M NCMATParser unit :=
  p ← get;
  match parts with
  | [] =>
      if negb (m_active_dyninfo p)
      then raise BadInput "no input found in @DYNINFO section"
      else
        throw_unless (DynInfo_validate (active_di p))
                     "problem found in the @DYNINFO section" ;;
        modify (fun p => mkParser (m_data p) false None false)
  | p0 :: rest =>
      (if negb (m_active_dyninfo p)
       then modify (fun p =>
              mkParser (set_dyninfos (fun l => l ++ [DynInfo_new]) (m_data p)) true
                       (m_dyninfo_active_vector_field p)
                       (m_dyninfo_active_vector_field_allownegative p))
       else mret tt) ;;
      (* [None]: the function has returned; otherwise parse_target and the
         entries from itParseToVect on *)
      after_keyword ←
        (if first_chr_ge_a p0 && contains_only p0 lowercase_underscore then
           if Nat.ltb (length parts) 2
           then raise BadInput "provides no arguments for keyword"
           else
             modify (fun p => mkParser (m_data p) (m_active_dyninfo p) None false) ;;
             if isOneOf p0 ["fraction"; "element"; "type"] then
               dyninfo_common_field p0 (nth 1 parts "") (length parts) ;;
               mret None
             else
               p ← get;
               if bool_decide (is_Some (fields (active_di p) !! p0))
               then raise BadInput "keyword is specified a second time"
               else
                 modify_active_di (set_fields (<[p0 := []]>)) ;;
                 (if isOneOf p0 multiline_keywords then
                    if isOneOf p0 ["sqw"; "qgrid"; "omegagrid"]
                    then raise BadInput "support for kernels in S(q,w) format is not supported in NCMAT v1 or NCMAT v2 files"
                    else modify (fun p =>
                           mkParser (m_data p) (m_active_dyninfo p) (Some p0)
                                    (String.eqb p0 "betagrid" || String.eqb p0 "omegagrid"))
                  else mret tt) ;;
                 mret (Some (Some p0, rest))
         else mret (Some (None, parts)));
      match after_keyword with
      | None => mret tt
      | Some (parse_target, entries) =>
          p ← get;
          let parse_target :=
            match m_dyninfo_active_vector_field p with
            | Some f => Some f
            | None => parse_target
            end in
          match parse_target with
          | Some target =>
              if bool_decide (entries = [])
              then raise LogicError "Assertion failure: parse_target && itParseToVect != itParseToVectE"
              else forM_ entries (dyninfo_vector_entry target)
          | None => raise LogicError "Assertion failure: parse_target && itParseToVect != itParseToVectE"
          end
      end
  end.

(** *** parseFile: section dispatch *)

(** The member functions a [handleSectionDataFn] can point to. *)
Inductive Handler : Type :=
| H_HEAD | H_CELL | H_ATOMPOSITIONS | H_SPACEGROUP | H_DEBYETEMPERATURE
| H_DYNINFO | H_DENSITY | H_ATOMDB | H_CUSTOM.

(** [std::invoke(itSection->second,*this,parts,lineno)] *)
Definition invoke (h : Handler) (parts : Parts) : M NCMATParser unit :=
  match h with
  | H_HEAD => handleSectionData_HEAD parts
  | H_CELL => handleSectionData_CELL parts
  | H_ATOMPOSITIONS => handleSectionData_ATOMPOSITIONS parts
  | H_SPACEGROUP => handleSectionData_SPACEGROUP parts
  | H_DEBYETEMPERATURE => handleSectionData_DEBYETEMPERATURE parts
  | H_DYNINFO => handleSectionData_DYNINFO parts
  | H_DENSITY => handleSectionData_DENSITY parts
  | H_ATOMDB => handleSectionData_ATOMDB parts
  | H_CUSTOM => handleSectionData_CUSTOM parts
  end.

(** The map [section2handler] as parseFile fills it for a version. *)
Definition section2handler (version : Z) : gmap string Handler :=
  let m : gmap string Handler :=
    <["DEBYETEMPERATURE" := H_DEBYETEMPERATURE]>
      (<["SPACEGROUP" := H_SPACEGROUP]>
        (<["ATOMPOSITIONS" := H_ATOMPOSITIONS]>
          (<["CELL" := H_CELL]> (<["HEAD" := H_HEAD]> ∅)))) in
  let m := if (2 <=? version)%Z
           then <["DENSITY" := H_DENSITY]> (<["DYNINFO" := H_DYNINFO]> m) else m in
  let m := if (3 <=? version)%Z
           then <["CUSTOM" := H_CUSTOM]> (<["ATOMDB" := H_ATOMDB]> m) else m in
  m.

(** The local variables of parseFile which live across the lines. *)
Record FileLoop : Type := mkLoop {
  current_section : string;
  itSection : Handler;
  sections_seen : gset string;
  sawAnySection : bool
}.

Definition FileLoop_new : FileLoop := mkLoop "HEAD" H_HEAD ∅ false.

Definition first_chr_is (s : string) (c : ascii) : bool :=
  match s with
  | EmptyString => false
  | String d _ => Ascii.eqb d c
  end.

(** The part of the loop body of parseFile for a line whose first part
    begins with '@': the switch to a new section. *)
Definition parseFile_marker (loc : FileLoop) (line : string) (parts : Parts)
    : M NCMATParser FileLoop :=
  p ← get;
  let v := version (m_data p) in
  let p0 := hd "" parts in
  if Nat.ltb 1 (length parts)
  then raise BadInput "should not have non-comment entries after a section marker"
  else if negb (first_chr_is line "@")
  then raise BadInput "should not have whitespace before a section marker"
  else
    let new_section := substr_from 1 p0 in
    if empty new_section
    then raise BadInput "has missing section name after '@' symbol"
    else
      let is_custom_section := startswith new_section "CUSTOM_" in
      invoke (itSection loc) [] ;;
      let multiple_sections_allowed :=
        is_custom_section || String.eqb new_section "DYNINFO" in
      seen ←
        (if negb multiple_sections_allowed then
           if bool_decide (new_section ∈ sections_seen loc)
           then raise BadInput "multiple sections of the same name are not allowed"
           else mret ({[new_section]} ∪ sections_seen loc)
         else mret (sections_seen loc));
      let current_section := new_section in
      match section2handler v !! (if is_custom_section then "CUSTOM" else current_section) with
      | None =>
          if Z.eqb v 1 && (String.eqb current_section "DYNINFO"
                           || String.eqb current_section "DENSITY")
          then raise BadInput "has a section which is not supported in the indicated NCMAT format version, NCMAT v1. It is only available starting with NCMAT v2."
          else if (v <? 3)%Z && (is_custom_section || String.eqb current_section "ATOMDB")
          then raise BadInput "has a section which is not supported in the indicated NCMAT format version. It is only available starting with NCMAT v3."
          else raise BadInput "has a section which is not a supported section name."
      | Some h =>
          (if is_custom_section then
             if Nat.leb (String.length current_section) 7
             then raise BadInput "has a custom section (needs additional characters after CUSTOM_)."
             else modify (set_data (fun d =>
                    mkData (version d) (cell_lengths d) (cell_angles d) (atompos d)
                           (spacegroup d) (debyetemp_global d) (debyetemp_perelement d)
                           (dyninfos d) (density d) (density_unit d) (atomDBLines d)
                           (customSections d ++ [(substr_from 7 current_section, [])])))
           else mret tt) ;;
          mret (mkLoop current_section h seen true)
      end.

(** The body of the loop [while ( input.getLine(line) )] of parseFile. *)
Definition parseFile_line (loc : FileLoop) (line : string) : M NCMATParser FileLoop :=
  p ← get;
  parts ← lift (parseLine line);
  (if Z.eqb (version (m_data p)) 1 && contains line "#" then
     if sawAnySection loc
        || (negb (bool_decide (parts = [])) && first_chr_is (hd "" parts) "@")
        || negb (first_chr_is line "#")
     then raise BadInput "has comments in a place which is not allowed in the NCMAT v1 format"
     else mret tt
   else mret tt) ;;
  if bool_decide (parts = []) then mret loc
  else if first_chr_is (hd "" parts) "@"
  then parseFile_marker loc line parts
  else invoke (itSection loc) parts ;; mret loc.

Fixpoint parseFile_lines (loc : FileLoop) (lines : list string) : M NCMATParser FileLoop :=
  match lines with
  | [] => mret loc
  | line :: rest => loc ← parseFile_line loc line; parseFile_lines loc rest
  end.

(** [NCMATParser::parseFile], on the lines after the first one. *)
Definition parseFile (lines : list string) : M NCMATParser unit :=
  loc ← parseFile_lines FileLoop_new lines;
  invoke (itSection loc) [].

Definition set_version (v : Z) (d : NCMATData) : NCMATData :=
  mkData v (cell_lengths d) (cell_angles d) (atompos d) (spacegroup d)
         (debyetemp_global d) (debyetemp_perelement d) (dyninfos d)
         (density d) (density_unit d) (atomDBLines d) (customSections d).

(** [NCMATParser::NCMATParser(std::unique_ptr<TextInputStream>)], from
    the lines of the stream. *)
Definition NCMATParser_ctor (lines : list string) : M NCMATParser unit :=
  match lines with
  | [] => raise BadInput "Empty input"
  | line :: rest =>
      if negb (startswith line "NCMAT")
      then raise BadInput "is not in NCMAT format: The first 5 characters in the first line must be NCMAT"
      else
        parts ← lift (parseLine line);
        (if Nat.eqb (length parts) 2 then
           let p1 := nth 1 parts "" in
           if String.eqb p1 "v1" then
             modify (set_data (set_version 1)) ;;
             if contains line "#"
             then raise BadInput "has comments in the first line, which is not allowed in the NCMAT v1 format"
             else mret tt
           else if String.eqb p1 "v2" then modify (set_data (set_version 2))
           else if String.eqb p1 "v3" then modify (set_data (set_version 3))
           else raise BadInput "is in an NCMAT format version which is not recognised by this installation of NCrystal"
         else mret tt) ;;
        p ← get;
        if Z.eqb (version (m_data p)) 0
        then raise BadInput "is missing clear NCMAT format version designation in the first line"
        else
          parseFile rest ;;
          modify (set_data unaliasElementNames)
  end.

(** [parseNCMATData(input, doFinalValidation)]: the data of a parser run
    on the lines of the stream, returned as it is or after
    NCMATData::validate. *)
Definition parseNCMATData (lines : list string) (doFinalValidation : bool)
    : result NCMATData :=
  match NCMATParser_ctor lines NCMATParser_new with
  | (Throw k w, _) => Throw k w
  | (Ok _, parser) =>
      if negb doFinalValidation then Ok (m_data parser)
      else
        let data := m_data parser in
        if validate data then Ok data
        else Throw BadInput "validation of the data failed"
  end.

End Parser.

End NCMAT.

(* ===================================================================== *)
(** ** A reference instance of the external functions *)
(* ===================================================================== *)

(** The parameters of the development instantiated with decimal number
    conversion in binary64, the printf %g format of the C++ streams and
    the constants of NCDefs.hh, for evaluating the model on concrete
    input. *)
Module Std.
Import NCString.

Definition digit_of (c : ascii) : option Z :=
  let n := nat_of_ascii c in
  if Nat.leb 48 n && Nat.leb n 57 then Some (Z.of_nat (n - 48)) else None.

(** Reads the leading decimal digits of [s]: their value appended to
    [acc], their number added to [cnt], and the rest of the string. *)
Fixpoint read_digits (s : string) (acc : Z) (cnt : nat) : Z * nat * string :=
  match s with
  | EmptyString => (acc, cnt, s)
  | String c r =>
      match digit_of c with
      | Some d => read_digits r (10 * acc + d)%Z (S cnt)
      | None => (acc, cnt, s)
      end
  end.

Definition read_sign (s : string) : bool * string :=
  match s with
  | String "-" r => (true, r)
  | String "+" r => (false, r)
  | _ => (false, s)
  end.

(** The binary64 number nearest to [(-1)^neg * m * 10^e10] (ties to
    even): one correctly rounded division of exact integers. *)
Definition round_decimal (neg : bool) (m e10 : Z) : double :=
  match m with
  | Zpos mp =>
      let '(num, den) :=
        if (0 <=? e10)%Z then (Z.to_pos (m * 10 ^ e10), 1%positive)
        else (mp, Z.to_pos (10 ^ (- e10))) in
      SF2Prim (SFdiv prec emax (S754_finite neg num 0) (S754_finite false den 0))
  | _ => if neg then (-0)%float else 0%float
  end.

(** Modelled from the spec: the body of [str2dbl] (NCString.cc) is not
    among the sources. Decimal literals only: an optional sign, digits
    with an optional decimal point, an optional exponent; the whole
    string must be a number, anything else is the BadInput case. *)
Definition str2dbl (s : string) : option double :=
  let '(neg, s) := read_sign s in
  let '(ip, ni, s) := read_digits s 0 0 in
  let '(m, nf, s) :=
    match s with
    | String "." r => read_digits r ip 0
    | _ => (ip, O, s)
    end in
  if Nat.eqb (ni + nf) 0 then None
  else
    match s with
    | EmptyString => Some (round_decimal neg m (- Z.of_nat nf))
    | String c r =>
        if Ascii.eqb c "e" || Ascii.eqb c "E" then
          let '(eneg, r) := read_sign r in
          let '(ev, ne, r) := read_digits r 0 0 in
          if Nat.eqb ne 0 || negb (empty r) then None
          else Some (round_decimal neg m ((if eneg then - ev else ev) - Z.of_nat nf))
        else None
    end.

(** Modelled from the spec: the body of [str2int] (NCString.cc) is not
    among the sources. An optional sign and decimal digits, within the
    range of a 32 bit int. *)
Definition str2int (s : string) : option Z :=
  let '(neg, s) := read_sign s in
  let '(v, n, r) := read_digits s 0 0 in
  let v := if neg then (- v)%Z else v in
  if Nat.eqb n 0 || negb (empty r) then None
  else if ((-2147483648 <=? v) && (v <=? 2147483647))%Z then Some v
  else None.

(** The decimal digits of a natural number. *)
Definition digits_of_Z (z : Z) : string := NilZero.string_of_uint (N.to_uint (Z.to_N z)).

Fixpoint zeros (n : nat) : string :=
  match n with
  | O => ""
  | S n' => String "0" (zeros n')
  end.

Definition pad_left (width : nat) (s : string) : string :=
  zeros (width - String.length s) +:+ s.

(** Removes the zeros at the end of a string of digits. *)
Fixpoint strip_zeros (s : string) : string :=
  match s with
  | EmptyString => EmptyString
  | String c r =>
      match strip_zeros r with
      | EmptyString => if Ascii.eqb c "0" then EmptyString else String c EmptyString
      | r' => String c r'
      end
  end.

(** The largest [x] in [lo, lo + fuel] with [10^x <= num/den], for a
    ratio which is at least [10^lo]. *)
Fixpoint decimal_exponent (fuel : nat) (x : Z) (num den : Z) : Z :=
  match fuel with
  | O => x
  | S fuel' =>
      let ge (y : Z) := if (0 <=? y)%Z then (den * 10 ^ y <=? num)%Z
                        else (den <=? num * 10 ^ (- y))%Z in
      if ge (x + 1)%Z then decimal_exponent fuel' (x + 1)%Z num den else x
  end.

(** [num/den] rounded to the nearest integer, ties to even. *)
Definition round_half_even (num den : Z) : Z :=
  let q := (num / den)%Z in
  let r := (num mod den)%Z in
  match (2 * r ?= den)%Z with
  | Lt => q
  | Gt => (q + 1)%Z
  | Eq => if Z.even q then q else (q + 1)%Z
  end.

(** The text of a positive finite [m * 2^e] in the %g format with [p]
    significant digits. *)
Definition format_g (p : nat) (m e : Z) : string :=
  let p := Nat.max p 1 in
  let '(num, den) := if (0 <=? e)%Z then (m * 2 ^ e, 1)%Z else (m, 2 ^ (- e))%Z in
  let x := decimal_exponent 800 (-400) num den in
  (* the p leading digits, as an integer *)
  let scale := (Z.of_nat p - 1 - x)%Z in
  let d := if (0 <=? scale)%Z then round_half_even (num * 10 ^ scale) den
           else round_half_even num (den * 10 ^ (- scale)) in
  let '(d, x) := if (10 ^ Z.of_nat p <=? d)%Z then ((d / 10)%Z, (x + 1)%Z) else (d, x) in
  let ds := digits_of_Z d in
  if (x <? -4)%Z || (Z.of_nat p <=? x)%Z then
    let frac := strip_zeros (substr_from 1 ds) in
    substr_to 1 ds +:+ (if empty frac then "" else "." +:+ frac)
      +:+ "e" +:+ (if (x <? 0)%Z then "-" else "+")
      +:+ pad_left 2 (digits_of_Z (Z.abs x))
  else if (x <? 0)%Z then
    "0." +:+ zeros (Z.to_nat (- x - 1)) +:+ strip_zeros ds
  else
    let frac := strip_zeros (substr_from (Z.to_nat (x + 1)) ds) in
    substr_to (Z.to_nat (x + 1)) ds +:+ (if empty frac then "" else "." +:+ frac).

(** The insertion [s << value] of a double in a std::stringstream whose
    precision is [p] and whose float field is the default one: the
    conversion of printf with %g and that precision. *)
Definition dbl2str (p : nat) (x : double) : string :=
  match Prim2SF x with
  | S754_zero s => if s then "-0" else "0"
  | S754_infinity s => if s then "-inf" else "inf"
  | S754_nan => "nan"
  | S754_finite s m e => (if s then "-" else "") +:+ format_g p (Zpos m) e
  end.

(** Modelled from the spec: NCDefs.hh is not among the sources; the unit
    factors of the angle units, deg = pi/180, arcmin = pi/10800 and
    arcsec = pi/648000. *)
Definition kDeg : double := (kPi / 180)%float.
Definition kArcMin : double := (kPi / 10800)%float.
Definition kArcSec : double := (kPi / 648000)%float.

(** Modelled from the spec: NCMath.hh is not among the sources; [x] is
    in the closed interval from [a] to [b]. *)
Definition valueInInterval (a b x : double) : bool := ((a <=? x) && (x <=? b))%float.

(** Modelled from the spec: NCVector.hh is not among the sources; two
    directions are parallel within [epsilon] when the square of their dot
    product exceeds the product of their squared lengths times
    [1 - epsilon]. *)
Definition isParallel (v w : vec3) (epsilon : double) : bool :=
  let '(a, b, c) := v in
  let '(x, y, z) := w in
  let dp := (a * x + b * y + c * z)%float in
  (mag2 v * mag2 w * (1.0 - epsilon) <? dp * dp)%float.

(** Modelled from the spec: the body of [getfileext] (NCString.cc) is not
    among the sources; the text after the last dot of the file name,
    empty when there is none. *)
Fixpoint getfileext_from (s : string) (ext : option string) : string :=
  match s with
  | EmptyString => default "" ext
  | String c r =>
      if Ascii.eqb c "." then getfileext_from r (Some "")
      else if Ascii.eqb c "/" then getfileext_from r None
      else getfileext_from r ((fun e => e +:+ String c EmptyString) <$> ext)
  end.

Definition getfileext (filename : string) : string := getfileext_from filename None.

(** Modelled from the spec: NCAtomUtils.cc is not among the sources; a
    line of the atom database is made of at least one word and a line
    which begins with nodefaults has no other word. *)
Definition validateAtomDBLine (line : list string) : bool :=
  match line with
  | [] => false
  | w :: rest => negb (String.eqb w "nodefaults") || bool_decide (rest = [])
  end.

Definition externals : Externals :=
  Build_Externals str2dbl str2int getfileext dbl2str kDeg kArcMin kArcSec
                  valueInInterval isParallel validateAtomDBLine
                  0%float 0%Z false.

Definition is_upper (c : ascii) : bool := ascii_in_range 65 90 c.
Definition is_lower (c : ascii) : bool := ascii_in_range 97 122 c.
Definition is_digit (c : ascii) : bool := ascii_in_range 48 57 c.

Fixpoint all_chars (f : ascii -> bool) (s : string) : bool :=
  match s with
  | EmptyString => true
  | String c r => f c && all_chars f r
  end.

(** An element symbol: an upper case letter, then at most one lower
    case letter. *)
Definition is_symbol (s : string) : bool :=
  match s with
  | String a EmptyString => is_upper a
  | String a (String b EmptyString) => is_upper a && is_lower b
  | _ => false
  end.

Fixpoint drop_digits (s : string) : string :=
  match s with
  | String c r => if is_digit c then drop_digits r else s
  | EmptyString => s
  end.

(** Modelled from the spec: NCMATData.cc is not among the sources; the
    element-name grammar by version: element symbols in v1, also isotope
    markers (digits before the symbol) from v2, also labels made of a
    letter followed by letters and digits from v3. *)
Definition validateElementNameByVersion (s : string) (version : Z) : bool :=
  is_symbol s
  || ((2 <=? version)%Z && negb (String.eqb (drop_digits s) s) && is_symbol (drop_digits s))
  || ((3 <=? version)%Z
      && match s with
         | String c r => (is_upper c || is_lower c)
                         && all_chars (fun d => is_upper d || is_lower d || is_digit d) r
         | EmptyString => false
         end).

Definition finite3 (v : vec3) : bool :=
  let '(x, y, z) := v in
  negb (ncisnan x || ncisinf x || ncisnan y || ncisinf y || ncisnan z || ncisinf z).

(** Modelled from the spec: NCMATData.cc is not among the sources; the
    invariants of the whole record in the data model: a version from 1 to
    3, at most one form of Debye temperature, and fractions of the
    dynamic-info blocks which sum to 1 within 1e-6 when there are
    blocks. *)
Definition validate (d : NCMAT.NCMATData) : bool :=
  (1 <=? NCMAT.version d)%Z && (NCMAT.version d <=? 3)%Z
  && ((NCMAT.debyetemp_global d =? 0)%float
      || bool_decide (NCMAT.debyetemp_perelement d = []))
  && (bool_decide (NCMAT.dyninfos d = [])
      || (let total := fold_left (fun acc di => (acc + NCMAT.fraction di)%float)
                                 (NCMAT.dyninfos d) 0%float in
          (abs (total - 1) <=? 1e-6)%float)).

(** Modelled from the spec: NCMATData.cc is not among the sources; the
    validations of the data model: both cell vectors set, every
    coordinate finite, space group in 1..230, at most one form of Debye
    temperature, density not negative, fraction in (0,1] with element and
    type given. *)
Definition ops : NCMAT.NCMATDataOps :=
  NCMAT.Build_NCMATDataOps
    (fun d => negb (NCMAT.is_null (NCMAT.cell_lengths d))
              && negb (NCMAT.is_null (NCMAT.cell_angles d)))
    (fun d => forallb (fun e => finite3 (snd e)) (NCMAT.atompos d))
    (fun d => (1 <=? NCMAT.spacegroup d)%Z && (NCMAT.spacegroup d <=? 230)%Z)
    (fun d => (NCMAT.debyetemp_global d =? 0)%float
              || bool_decide (NCMAT.debyetemp_perelement d = []))
    (fun d => (0 <=? NCMAT.density d)%float)
    (fun di => (0 <? NCMAT.fraction di)%float && (NCMAT.fraction di <=? 1)%float
               && negb (empty (NCMAT.element_name di))
               && negb (bool_decide (NCMAT.dyninfo_type di = NCMAT.Undefined)))
    (fun d => (0 <? NCMAT.debyetemp_global d)%float
              || negb (bool_decide (NCMAT.debyetemp_perelement d = [])))
    validateElementNameByVersion
    (fun d => d)
    validate.

End Std.

(* ===================================================================== *)
(** ** Scenarios and vocabulary of the statements *)
(* ===================================================================== *)

Module Scenario.
Import NCString MatCfg.

(** An in-memory source named foo.ncmat whose second line embeds a
    configuration, and one with two such lines. *)
Definition foo_lines : list string :=
  [ "NCMAT v2"; "# NCRYSTALMATCFG[temp=500K]"; "@CELL" ].

Definition two_marker_lines : list string :=
  [ "NCMAT v2"; "# NCRYSTALMATCFG[temp=500K]"; "# NCRYSTALMATCFG[temp=600K]" ].

Definition plain_lines : list string := [ "NCMAT v2"; "@CELL" ].

Definition createTextInputStream (sourcename : string) : option TextInputStream :=
  if String.eqb sourcename "foo.ncmat" then Some (mkStream foo_lines "")
  else if String.eqb sourcename "two.ncmat" then Some (mkStream two_marker_lines "")
  else if String.eqb sourcename "plain.ncmat" then Some (mkStream plain_lines "")
  else None.

(** [cfg.set(name, value); cfg.get_temp()] and the like on a table which
    has no parameter set: the outcome of the getter when the setter did
    not throw. *)
Definition set_then_get `{Externals} {V} (name value : string)
    (getter : Impl -> result V) : result V :=
  let '(r, o) := setValByStr name value (Impl_new false) in
  r ;; getter o.

(** What ValDbl::set makes of a computed value: NaN is refused. *)
Definition stored (x : double) : result double :=
  if ncisnan x then Throw BadInput "Attempting to set number to NaN" else Ok x.

Definition first_chr (s : string) : option ascii :=
  match s with
  | EmptyString => None
  | String c _ => Some c
  end.

(** A number written without unit and without surrounding blanks: it
    begins with a character which is not a blank and ends with one
    which is neither a blank nor a letter. *)
Definition bare_number (s : string) : bool :=
  from_option (fun c => negb (is_ws c)) false (first_chr s)
  && from_option (fun c => negb (is_ws c) && negb (contains alpha c)) false (last_chr s).

(** A unit suffix: letters only, at least one. *)
Definition unit_suffix (s : string) : bool :=
  negb (empty s) && contains_only s alpha.

(** The parts of a parameter string between the ';' separators: a part
    is blank when it is empty or made of whitespace, and of the form
    key=value when it splits on '=' in two parts of which the first is
    not blank. *)
Definition blank (seg : string) : bool := empty (trim seg).

Definition key_value_form (seg : string) : bool :=
  Nat.eqb (length (split (trim seg) 0 "=")) 2
  && negb (empty (trim (nth 0 (split (trim seg) 0 "=") ""))).

Definition seg_key (seg : string) : string :=
  trim (nth 0 (split (trim seg) 0 "=") "").

Definition seg_value (seg : string) : string :=
  trim (nth 1 (split (trim seg) 0 "=") "").

(** What the casts of a value class promise: the down-cast of an
    up-cast object gives the object back, and succeeds exactly on the
    objects of the dynamic type of the class. *)
Class ValTypeLaws (T : Type) `{ValType T} : Prop := {
  of_to_base (vt : T) : of_base (to_base vt) = Some vt;
  of_base_Some (vb : ValBase) (vt : T) : of_base vb = Some vt -> vb = to_base vt;
  of_base_dyn (vb : ValBase) :
    dyn_type vb = value_type_enum (T := T) -> is_Some (of_base (T := T) vb);
  dyn_to_base (vt : T) : dyn_type (to_base vt) = value_type_enum (T := T)
}.

(** A slot as the setters leave it: the object has the type of the
    parameter and, for a double, its unit type. A table is well formed
    when nobody monitors it and every slot is. *)
Definition slot_fits `{Externals} (par : PARAMETERS) (vb : ValBase) : Prop :=
  dyn_type vb = partypes par /\
  match vb with
  | VDbl d => dbl_unittype d = dbl_unittype (addUnitsForValType (T := ValDbl) ValType_new par)
  | _ => True
  end.

Definition well_formed `{Externals} (o : Impl) : Prop :=
  m_spies o = [] /\ map_Forall slot_fits (m_parlist o).

(** A call on a value object whose outcome does not depend on what the
    object held: on any two objects it throws or returns alike, and when
    it returns it leaves the same object. *)
Definition constant_call {T A} (call : M T A) : Prop :=
  forall vt1 vt2, fst (call vt1) = fst (call vt2)
    /\ (is_Ok (fst (call vt1)) = true -> snd (call vt1) = snd (call vt2)).

(** The same for the objects which fit the slot of [par], the result
    fitting it too. *)
Definition oblivious `{Externals} {T} `{ValType T} {A} (par : PARAMETERS)
    (call : M T A) : Prop :=
  forall vt1 vt2, slot_fits par (to_base vt1) -> slot_fits par (to_base vt2) ->
    fst (call vt1) = fst (call vt2)
    /\ (is_Ok (fst (call vt1)) = true ->
        snd (call vt1) = snd (call vt2) /\ slot_fits par (to_base (snd (call vt1)))).

(** A member function of Impl run on two well-formed tables of which the
    second holds every slot of the first: it throws or returns alike on
    both, and when it returns the two tables are again so. *)
Definition sim `{Externals} {A} (m : M Impl A) : Prop :=
  forall oA oB, well_formed oA -> well_formed oB -> m_parlist oA ⊆ m_parlist oB ->
    fst (m oA) = fst (m oB)
    /\ (is_Ok (fst (m oB)) = true ->
        well_formed (snd (m oA)) /\ well_formed (snd (m oB))
        /\ m_parlist (snd (m oA)) ⊆ m_parlist (snd (m oB))).

(** The file name and the parameters of the string given to the
    constructor, as the constructor separates them, and whether the
    parameters begin with the keyword ignorefilecfg. *)
Definition input_file (datafile_and_parameters : string) : string :=
  nth 0 (map trim (split (trim datafile_and_parameters) 1 ";")) "".

Definition input_params (datafile_and_parameters : string) : string :=
  nth 1 (map trim (split (trim datafile_and_parameters) 1 ";")) "".

Definition ignorefilecfg_specified (datafile_and_parameters : string) : bool :=
  String.eqb (nth 0 (map trim (split (input_params datafile_and_parameters) 1 ";")) "")
             "ignorefilecfg".

(** The table of the constructor before any parameter is applied, for
    the file name [file] opened as [input], when the embedded
    configuration is not ignored. *)
Definition new_table `{Externals} (file : string) (input : TextInputStream) : Impl :=
  mkImpl [] (onDiskResolvedPath input)
         (if negb (String.eqb file (onDiskResolvedPath input)) then file else "")
         (getfileext file) false ∅.

(** The number of markers in a line, read from left to right, each
    search starting after the previous occurrence; [fuel] bounds the
    number of searches, and the length of the line is enough. *)
Fixpoint markers_in (fuel : nat) (line : string) : nat :=
  match fuel with
  | O => O
  | S fuel' =>
      match find line pattern with
      | None => O
      | Some pos =>
          S (markers_in fuel' (substr_from (pos + String.length pattern) line))
      end
  end.

Definition marker_count (lines : list string) : nat :=
  sum_list (map (fun line => markers_in (String.length line) line) lines).

(** The text between the brackets of the marker of [line], when the
    marker at [pos] is followed by an opening bracket, the text and a
    closing bracket. *)
Definition bracketed (line : string) (text : string) : Prop :=
  exists pos rest,
    find line pattern = Some pos
    /\ substr_from (pos + String.length pattern) line = "[" +:+ text +:+ "]" +:+ rest
    /\ contains text "]" = false.

(** The configuration after the keyword ignorefilecfg, and the table of
    the constructor when the keyword is given. *)
Definition params_after_keyword (datafile_and_parameters : string) : string :=
  nth 1 (map trim (split (input_params datafile_and_parameters) 1 ";")) "".

Definition new_table_ignoring `{Externals} (file : string) (input : TextInputStream) : Impl :=
  mkImpl [] (onDiskResolvedPath input)
         (if negb (String.eqb file (onDiskResolvedPath input)) then file else "")
         (getfileext file) true ∅.

(** The unit names which the switch of ValDbl::set_from_strrep knows for
    a unit type. *)
Definition units_of (ut : UnitType) : list string :=
  match ut with
  | UnitAngle => ["rad"; "deg"; "arcmin"; "arcsec"]
  | UnitLength => ["Aa"; "nm"; "mm"; "cm"; "m"]
  | UnitTemp => ["K"; "C"; "F"]
  | UnitNone => []
  end.

(** A member function of Impl which leaves a monitored table as it is. *)
Definition frozen {A} (call : M Impl A) : Prop :=
  forall o, m_spies o <> [] -> snd (call o) = o.

(** The lines of an atom database as ValAtomDB::set leaves them: none is
    empty, each passed validateAtomDBLine, and the line nodefaults is
    nowhere but first. *)
Definition atomdb_lines_ok `{Externals} (lines : list (list string)) : Prop :=
  Forall (fun line => line <> [] /\ validateAtomDBLine line = true) lines
  /\ (forall i, lines !! i = Some ["nodefaults"] -> i = 0).

(** A computation which keeps [I], whether it returns or throws. *)
Definition preserves {S A} (I : S -> Prop) (m : M S A) : Prop :=
  hoare I m (fun _ => I) I.

(** The characters of the parts of a line of an NCMAT file: printable
    ASCII other than the space and '#'. *)
Definition token_chr (c : ascii) : bool :=
  Nat.ltb (nat_of_ascii c) 127 && Nat.ltb 32 (nat_of_ascii c) && negb (Ascii.eqb c "#").

Fixpoint all_token_chrs (s : string) : bool :=
  match s with
  | EmptyString => true
  | String c r => token_chr c && all_token_chrs r
  end.

Definition is_token (s : string) : bool := negb (empty s) && all_token_chrs s.

Definition has_version (v : Z) (p : NCMAT.NCMATParser) : Prop :=
  NCMAT.version (NCMAT.m_data p) = v.

(** Handles which share a table: the store [hp0] holds at address [a]
    the table [o] with count [k], and the handle which calls a modifier
    points to [a]. After the modifier that handle either is as before, or
    is detached: it points to the address which was free in [hp0], where
    a table of its own has count 1, and [a] still holds [o], with one
    owner less. *)
Definition clone_addr (hp0 : Heap) : nat := fresh (dom hp0).

Definition detached (hp0 : Heap) (a k : nat) (o : Impl) (s : Heap * Handle) : Prop :=
  exists o', s = (<[clone_addr hp0 := mkRC 1 o']> (<[a := mkRC (k - 1) o]> hp0),
                  mkHandle (clone_addr hp0)).

Definition attached_or_detached (hp0 : Heap) (a k : nat) (o : Impl)
    (s : Heap * Handle) : Prop :=
  s = (hp0, mkHandle a) \/ detached hp0 a k o s.

(** A store with one new table at address 0 and two handles on it. *)
Definition shared_heap : Heap := ref 0 {[ 0%nat := mkRC 1 (Impl_new false) ]}.

(** Stores and tables of the examples: a table monitored by a spy, a
    store with one table and one handle, and tables made by applying a
    parameter string to a new table. *)
Definition monitored_heap : Heap :=
  {[ 0%nat := mkRC 1 (set_spies (fun _ => [7%nat]) (Impl_new false)) ]}.

Definition single_crystal_cfg `{Externals} : Impl :=
  snd (applyStrCfg (OW := Owner_exclusive)
         "mos=0.5deg;dir1=@crys_hkl:0,0,1@lab:0,0,1;dir2=@crys_hkl:0,1,0@lab:0,1,0"
         (Impl_new false)).

Definition cfg_temp_dcutoff `{Externals} : Impl :=
  snd (applyStrCfg (OW := Owner_exclusive) "temp=300;dcutoff=1" (Impl_new false)).

Definition single_heap : Heap := {[ 0%nat := mkRC 1 (Impl_new false) ]}.

Definition cfg_factory `{Externals} : Impl :=
  snd (applyStrCfg (OW := Owner_exclusive)
         "overridefileext=ncmat;infofactory=stdncmat:expandhkl" (Impl_new false)).

Definition cfg_temp `{Externals} : Impl :=
  snd (applyStrCfg (OW := Owner_exclusive) "temp=300" (Impl_new false)).

Definition cfg_embedded `{Externals} : Impl :=
  snd (applyStrCfg (OW := Owner_exclusive) "temp=300K;dcutoff=0.5" (Impl_new false)).

(** The version gate of the sections which are not in every version of
    the format, with the handler of the section: DYNINFO and DENSITY
    need version 2, ATOMDB and the CUSTOM_ sections version 3. *)
Definition section_gate (name : string) : option (Z * NCMAT.Handler) :=
  if String.eqb name "DYNINFO" then Some (2%Z, NCMAT.H_DYNINFO)
  else if String.eqb name "DENSITY" then Some (2%Z, NCMAT.H_DENSITY)
  else if String.eqb name "ATOMDB" then Some (3%Z, NCMAT.H_ATOMDB)
  else if startswith name "CUSTOM_" then Some (3%Z, NCMAT.H_CUSTOM)
  else None.

(** The key under which parseFile looks a section up. *)
Definition section_key (name : string) : string :=
  if startswith name "CUSTOM_" then "CUSTOM" else name.

(** The sections which a file may hold more than once. *)
Definition repeatable (name : string) : bool :=
  startswith name "CUSTOM_" || String.eqb name "DYNINFO".

(** The parser after the entry of the custom section [name] was added
    to customSections. *)
Definition add_custom (name : string) (p : NCMAT.NCMATParser) : NCMAT.NCMATParser :=
  NCMAT.set_data (fun d =>
    NCMAT.mkData (NCMAT.version d) (NCMAT.cell_lengths d) (NCMAT.cell_angles d)
                 (NCMAT.atompos d) (NCMAT.spacegroup d) (NCMAT.debyetemp_global d)
                 (NCMAT.debyetemp_perelement d) (NCMAT.dyninfos d) (NCMAT.density d)
                 (NCMAT.density_unit d) (NCMAT.atomDBLines d)
                 (NCMAT.customSections d ++ [(substr_from 7 name, [])])) p.



(** The vector of the cell which a line of the keyword [kw] of @CELL
    is stored in. *)
Definition cell_vector (kw : string) (p : NCMAT.NCMATParser) : vec3 :=
  if String.eqb kw "lengths" then NCMAT.cell_lengths (NCMAT.m_data p)
  else NCMAT.cell_angles (NCMAT.m_data p).

(** A parser in the @DYNINFO section of a version 2 file before the
    first line of a block. *)
Definition dyninfo_start : NCMAT.NCMATParser :=
  NCMAT.mkParser (NCMAT.set_version 2 NCMAT.NCMATData_new) false None false.

(** The same parser in a version 1 file. *)
Definition v1_start : NCMAT.NCMATParser :=
  NCMAT.mkParser (NCMAT.set_version 1 NCMAT.NCMATData_new) false None false.

(** The same parser in a version 3 file. *)
Definition v3_start : NCMAT.NCMATParser :=
  NCMAT.mkParser (NCMAT.set_version 3 NCMAT.NCMATData_new) false None false.

(** How many elements of a list compare equal to [x]. *)
Definition count_occ_dbl (x : double) (l : list double) : nat :=
  length (filter (fun y => (y =? x)%float = true) l).


End Scenario.


(* ===================================================================== *)
(** * Properties *)
(* ===================================================================== *)

Module Facts.
Import NCString MatCfg Scenario.

Lemma append_cons (c : ascii) (s t : string) : String c s +:+ t = String c (s +:+ t).
Proof. reflexivity. Qed.

Lemma append_nil_l (t : string) : "" +:+ t = t.
Proof. reflexivity. Qed.

Lemma append_empty_r (s : string) : s +:+ "" = s.
Proof. induction s as [|c s IH]; [done | by rewrite append_cons, IH]. Qed.

Section Generic.
Context `{Externals}.

(** *** Round trip of the serialisation *)

(** C1 (the code departs from it): the parser accepts the parameter
    string with an atomdb value made of empty lines only and stores an
    empty atom database; toStrCfg then emits an atomdb entry with an empty
    value, which the parser refuses. The round trip of this accepted
    configuration ends in a BadInput instead of an equivalent
    configuration. *)
Theorem C1_roundtrip_breaks_on_empty_atomdb (ignored : bool) :
  exists o : Impl,
    applyStrCfg (OW := Owner_exclusive) "atomdb=@" (Impl_new ignored) = (Ok tt, o)
    /\ get_atomdb o = Ok ""
    /\ toStrCfg o false None = "atomdb="
    /\ throws BadInput
         (fst (applyStrCfg (OW := Owner_exclusive) (toStrCfg o false None) (Impl_new ignored))).
Proof.
  eexists. split; [vm_compute; reflexivity|].
  split; [vm_compute; reflexivity|].
  split; [vm_compute; reflexivity|].
  eexists. vm_compute. reflexivity.
Qed.

(** *** Consistency validation of temp *)

(** C3 (the code departs from it): with temp set to 0 and every other
    parameter unset, checkConsistency returns without throwing, although
    0 is outside the domain {-1} union (0,1e5] which the message of the
    check itself names. The hypothesis says that the default mosprec is
    in its interval. *)
Theorem C3_temp_zero_is_accepted (ignored : bool) :
  valueInInterval 0.9999e-7%float 0.10000001%float 1e-3%float = true ->
  exists o : Impl,
    set_temp (OW := Owner_exclusive) 0%float (Impl_new ignored) = (Ok tt, o)
    /\ get_temp o = Ok 0%float
    /\ checkConsistency o = Ok tt.
Proof.
  intros Hv. eexists. split; [vm_compute; reflexivity|].
  split; [vm_compute; reflexivity|].
  cbv -[valueInInterval]. rewrite Hv. reflexivity.
Qed.

(** The test on temp in checkConsistency, on its own: it lets pass -1
    and the closed interval from 0 to 1e5. *)
Lemma temp_test_passes (t : double) :
  (negb (t =? -1.0) && ((t <? 0.0) || (1e5 <? t)))%float = false <->
  (t =? -1.0)%float = true \/ ((t <? 0.0)%float = false /\ (1e5 <? t)%float = false).
Proof.
  destruct (t =? -1.0)%float, (t <? 0.0)%float, (1e5 <? t)%float; simpl; intuition congruence.
Qed.

(** *** Cache signature *)

(** C4 (the code departs from it): for a double parameter which is set,
    getCacheSignature emits the value as the stream prints it at
    precision 16, that is 16 significant digits and not 17, whatever the
    remembered original text is. *)
Theorem C4_cache_signature_has_16_digits (o : Impl) (name : string) (p : PARAMETERS)
    (d : ValDbl) :
  strNameToParIdx name = Ok p ->
  m_parlist o !! p = Some (VDbl d) ->
  getCacheSignature o [name] = Ok (name +:+ "=" +:+ dbl2str 16 (dbl_value d)).
Proof.
  intros Hp Hd. unfold getCacheSignature. simpl. rewrite Hp. simpl. rewrite Hd. simpl.
  by rewrite append_empty_r.
Qed.

End Generic.

(** ** The NCMAT parser *)

Section ParserFacts.
Import NCMAT.
Context `{Externals} `{NCMATDataOps}.

Ltac unfold_M :=
  unfold mbind, mret, M_bind, M_ret, raise, lift, modify, get, put, throw_unless in *.

Ltac split_ifs :=
  repeat match goal with
  | |- context [if ?b then _ else _] => destruct b; simpl
  end.

Lemma throws_intro {A} (k : ErrorKind) (w : string) : @throws A k (Throw k w).
Proof. by exists w. Qed.

(** *** Version gating of the sections *)

(** The close call of a handler (an empty list of parts) returns or
    throws a BadInput. *)
Lemma invoke_close (h : Handler) (p : NCMATParser) :
  is_Ok (fst (invoke h [] p)) = true \/ throws BadInput (fst (invoke h [] p)).
Proof.
  destruct h; unfold invoke, handleSectionData_HEAD, handleSectionData_CELL,
    handleSectionData_ATOMPOSITIONS, handleSectionData_SPACEGROUP,
    handleSectionData_DEBYETEMPERATURE, handleSectionData_DYNINFO,
    handleSectionData_DENSITY, handleSectionData_ATOMDB, handleSectionData_CUSTOM;
    unfold_M; simpl; split_ifs; eauto using throws_intro.
Qed.

Lemma lookup_below_gate (v : Z) (name : string) (gate : Z) (h : Handler) :
  section_gate name = Some (gate, h) ->
  (v <? gate)%Z = true ->
  section2handler v !! section_key name = None.
Proof.
  unfold section_gate, section_key. intros Hg Hv.
  destruct (String.eqb_spec name "DYNINFO") as [->|?].
  { injection Hg as <- <-. unfold section2handler.
    replace (2 <=? v)%Z with false by lia. replace (3 <=? v)%Z with false by lia.
    vm_compute. reflexivity. }
  destruct (String.eqb_spec name "DENSITY") as [->|?].
  { injection Hg as <- <-. unfold section2handler.
    replace (2 <=? v)%Z with false by lia. replace (3 <=? v)%Z with false by lia.
    vm_compute. reflexivity. }
  destruct (String.eqb_spec name "ATOMDB") as [->|?].
  { injection Hg as <- <-. unfold section2handler.
    replace (3 <=? v)%Z with false by lia.
    destruct (2 <=? v)%Z; vm_compute; reflexivity. }
  destruct (startswith name "CUSTOM_") eqn:Hc; [|discriminate].
  injection Hg as <- <-. unfold section2handler.
  replace (3 <=? v)%Z with false by lia.
  destruct (2 <=? v)%Z; vm_compute; reflexivity.
Qed.

Lemma lookup_at_gate (v : Z) (name : string) (gate : Z) (h : Handler) :
  section_gate name = Some (gate, h) ->
  (v <? gate)%Z = false ->
  section2handler v !! section_key name = Some h.
Proof.
  unfold section_gate, section_key. intros Hg Hv.
  destruct (String.eqb_spec name "DYNINFO") as [->|?].
  { injection Hg as <- <-. unfold section2handler.
    replace (2 <=? v)%Z with true by lia.
    destruct (3 <=? v)%Z; vm_compute; reflexivity. }
  destruct (String.eqb_spec name "DENSITY") as [->|?].
  { injection Hg as <- <-. unfold section2handler.
    replace (2 <=? v)%Z with true by lia.
    destruct (3 <=? v)%Z; vm_compute; reflexivity. }
  destruct (String.eqb_spec name "ATOMDB") as [->|?].
  { injection Hg as <- <-. unfold section2handler.
    replace (3 <=? v)%Z with true by lia. replace (2 <=? v)%Z with true by lia.
    vm_compute; reflexivity. }
  destruct (startswith name "CUSTOM_") eqn:Hc; [|discriminate].
  injection Hg as <- <-. unfold section2handler.
  replace (3 <=? v)%Z with true by lia. replace (2 <=? v)%Z with true by lia.
  vm_compute; reflexivity.
Qed.

(** The switch to a section whose gate is above the version of the file
    throws a BadInput, whatever the state of the parser. *)
Lemma marker_below_gate (p : NCMATParser) (loc : FileLoop) (line : string) (rest : Parts)
    (name : string) (gate : Z) (h : Handler) :
  section_gate name = Some (gate, h) ->
  (version (m_data p) <? gate)%Z = true ->
  throws BadInput (fst (parseFile_marker loc line (String "@" name :: rest) p)).
Proof.
  intros Hg Hv. unfold parseFile_marker. unfold_M. simpl.
  destruct (1 <? S (length rest))%nat; [apply throws_intro|].
  destruct (negb (first_chr_is line "@")); [apply throws_intro|].
  destruct (empty name) eqn:He; [apply throws_intro|].
  destruct (invoke_close (itSection loc) p) as [Hok|[w Hw]].
  2:{ destruct (invoke (itSection loc) [] p) as [r p']. simpl in Hw. subst r.
      simpl. apply throws_intro. }
  destruct (invoke (itSection loc) [] p) as [[[]|] p'] eqn:Hinv; [|done].
  simpl.
  pose proof (lookup_below_gate _ _ _ _ Hg Hv) as Hl. unfold section_key in Hl.
  destruct (negb (startswith name "CUSTOM_" || (name =? "DYNINFO"))%string).
  - destruct (bool_decide (name ∈ sections_seen loc)); [apply throws_intro|].
    rewrite Hl. split_ifs; apply throws_intro.
  - rewrite Hl. split_ifs; apply throws_intro.
Qed.

Lemma gate_at_least_2 (name : string) (gate : Z) (h : Handler) :
  section_gate name = Some (gate, h) -> (2 <= gate)%Z /\ empty name = false.
Proof.
  unfold section_gate. intros Hg.
  destruct (String.eqb_spec name "DYNINFO") as [->|?];
    [injection Hg as <- _; split; [lia|done]|].
  destruct (String.eqb_spec name "DENSITY") as [->|?];
    [injection Hg as <- _; split; [lia|done]|].
  destruct (String.eqb_spec name "ATOMDB") as [->|?];
    [injection Hg as <- _; split; [lia|done]|].
  destruct (startswith name "CUSTOM_") eqn:Hc; [|discriminate].
  injection Hg as <- _. split; [lia|]. by destruct name.
Qed.

(** The switch to a section at or above its gate: when the marker begins
    the line, the section which ends passes its close call, the section
    was not given before unless it may be repeated, and a custom name has
    characters after CUSTOM_, the loop goes on in the new section with
    its handler. *)
Lemma marker_at_gate (p p1 : NCMATParser) (loc : FileLoop) (line : string)
    (name : string) (gate : Z) (h : Handler) :
  section_gate name = Some (gate, h) ->
  (version (m_data p) <? gate)%Z = false ->
  first_chr_is line "@" = true ->
  invoke (itSection loc) [] p = (Ok tt, p1) ->
  (repeatable name = false -> name ∉ sections_seen loc) ->
  (startswith name "CUSTOM_" = true -> 7 < String.length name) ->
  parseFile_marker loc line [String "@" name] p
  = (Ok (mkLoop name h
           (if repeatable name then sections_seen loc else {[name]} ∪ sections_seen loc)
           true),
     if startswith name "CUSTOM_" then add_custom name p1 else p1).
Proof.
  intros Hg Hv Hat Hclose Hseen Hlen.
  pose proof (lookup_at_gate _ _ _ _ Hg Hv) as Hl. unfold section_key in Hl.
  destruct (gate_at_least_2 _ _ _ Hg) as [_ Hne].
  unfold parseFile_marker. unfold_M. cbn [length hd Nat.ltb Nat.leb substr_from].
  rewrite Hat. cbn [negb]. rewrite Hne, Hclose. cbn [fst snd].
  fold (repeatable name). unfold repeatable in *.
  destruct (startswith name "CUSTOM_") eqn:Hc; cbn [orb negb].
  - rewrite Hl. specialize (Hlen eq_refl).
    destruct (Nat.leb_spec (String.length name) 7) as [?|_]; [lia|]. reflexivity.
  - destruct (String.eqb name "DYNINFO") eqn:Hd; cbn [negb].
    + by rewrite Hl.
    + rewrite (bool_decide_eq_false_2 _ (Hseen eq_refl)). by rewrite Hl.
Qed.

(** C5: a line whose first part is the marker of DYNINFO, DENSITY,
    ATOMDB or a CUSTOM_ section makes the parser throw a BadInput when the
    version of the file is below the gate of the section (2 for DYNINFO
    and DENSITY, 3 for ATOMDB and CUSTOM_), whatever the parser has read
    before. At or above the gate the look-up in section2handler finds the
    handler of the section, and the line is accepted: when the marker is
    alone on the line and begins it, the section which ends passes its
    close call, the section was not given before (unless it is DYNINFO or
    a custom one) and a custom name has characters after CUSTOM_, the
    loop of parseFile returns in the new section with that handler
    installed, the parser being as the close call left it, with the new
    entry of customSections for a custom section. *)
Theorem C5_version_gating (p : NCMATParser) (loc : FileLoop) (line : string)
    (rest : Parts) (name : string) (gate : Z) (h : Handler) :
  parseLine line = Ok (String "@" name :: rest) ->
  section_gate name = Some (gate, h) ->
  if (version (m_data p) <? gate)%Z
  then throws BadInput (fst (parseFile_line loc line p))
  else
    section2handler (version (m_data p)) !! section_key name = Some h
    /\ (forall p1,
          rest = [] ->
          first_chr_is line "@" = true ->
          invoke (itSection loc) [] p = (Ok tt, p1) ->
          (repeatable name = false -> name ∉ sections_seen loc) ->
          (startswith name "CUSTOM_" = true -> 7 < String.length name) ->
          parseFile_line loc line p
          = (Ok (mkLoop name h
                   (if repeatable name then sections_seen loc
                    else {[name]} ∪ sections_seen loc)
                   true),
             if startswith name "CUSTOM_" then add_custom name p1 else p1)).
Proof.
  intros Hline Hg.
  destruct (version (m_data p) <? gate)%Z eqn:Hv.
  - unfold parseFile_line. unfold_M. rewrite Hline. simpl.
    pose proof (marker_below_gate p loc line rest name gate h Hg Hv) as Hm.
    destruct ((version (m_data p) =? 1)%Z && contains line "#").
    + destruct (sawAnySection loc || true || negb (first_chr_is line "#"));
        [apply throws_intro|].
      exact Hm.
    + exact Hm.
  - split; [by eapply lookup_at_gate|].
    intros p1 -> Hat Hclose Hseen Hlen.
    destruct (gate_at_least_2 _ _ _ Hg) as [Hge _].
    unfold parseFile_line. unfold_M. rewrite Hline.
    replace (version (m_data p) =? 1)%Z with false by lia.
    cbn [andb fst snd hd first_chr_is].
    rewrite bool_decide_eq_false_2 by done.
    change (Ascii.eqb "@" "@") with true. cbv iota.
    by apply (marker_at_gate p p1 loc line name gate h).
Qed.

(** *** Repeated entries of a @DYNINFO vector field *)

Lemma find_chr_app (V : string) (c : ascii) (rest : string) :
  contains V c = false -> find_chr (V +:+ String c rest) c = Some (String.length V).
Proof.
  induction V as [|d V IH]; intros Hc.
  - rewrite append_nil_l. simpl. by rewrite Ascii.eqb_refl.
  - simpl in Hc. apply orb_false_elim in Hc as [Hd HV].
    rewrite append_cons. simpl. rewrite Hd. by rewrite IH.
Qed.

Lemma substr_to_app (V rest : string) : substr_to (String.length V) (V +:+ rest) = V.
Proof.
  induction V as [|d V IH]; [by destruct rest|].
  rewrite append_cons. simpl. by f_equal.
Qed.

Lemma substr_from_app (V rest : string) : substr_from (String.length V) (V +:+ rest) = rest.
Proof. induction V as [|d V IH]; [done|]. by rewrite append_cons. Qed.

Lemma last_alter_last {A} (f : A -> A) (l : list A) (d : A) :
  l <> [] -> List.last (alter_last f l) d = f (List.last l d).
Proof.
  induction l as [|x [|y l] IH]; intros Hl; [done|done|].
  specialize (IH ltac:(done)).
  change (alter_last f (x :: y :: l)) with (x :: alter_last f (y :: l)).
  change (List.last (x :: y :: l) d) with (List.last (y :: l) d).
  rewrite <- IH.
  destruct (alter_last f (y :: l)) eqn:E; [by destruct l|]. reflexivity.
Qed.

Lemma active_di_alter_last (f : DynInfo -> DynInfo) (p : NCMATParser) :
  dyninfos (m_data p) <> [] ->
  active_di (set_data (set_dyninfos (alter_last f)) p) = f (active_di p).
Proof. intros Hl. unfold active_di. simpl. by apply last_alter_last. Qed.

(** An entry V r N of a vector field: BadInput when N is below 2,
    otherwise exactly N copies of the value of V are appended. *)
Lemma entry_repeat (p : NCMATParser) (target V N : string) (n : Z) (v : double)
    (old : list double) :
  contains V "r" = false ->
  str2int N = Some n ->
  str2dbl V = Some v ->
  ncisnan v || ncisinf v = false ->
  negb (m_dyninfo_active_vector_field_allownegative p) && (v <? 0.0)%float = false ->
  dyninfos (m_data p) <> [] ->
  fields (active_di p) !! target = Some old ->
  let '(r, p') := dyninfo_vector_entry target (V +:+ String "r" N) p in
  if (n <? 2)%Z then throws BadInput r
  else r = Ok tt /\
       fields (active_di p') !! target = Some (old ++ replicate (Z.to_nat n) v).
Proof.
  intros HV HN Hv Hfin Hneg Hne Hold.
  unfold dyninfo_vector_entry. unfold_M.
  rewrite (find_chr_app V "r" N HV).
  rewrite substr_to_app.
  assert (substr_from (S (String.length V)) (V +:+ String "r" N) = N) as ->.
  { clear. induction V as [|d V IH]; [done|]. rewrite append_cons. simpl. exact IH. }
  unfold str2int_or_throw, str2dbl_or_throw. rewrite HN, Hv. simpl.
  destruct (n <? 2)%Z eqn:Hn; simpl; [apply throws_intro|].
  rewrite Hfin, Hneg. unfold modify_active_di. unfold_M. simpl. split; [done|].
  rewrite active_di_alter_last by done. simpl.
  by rewrite lookup_alter_eq, Hold.
Qed.

(** The line of the scenario, in a @DYNINFO section of a version 2 file
    which has no block yet. *)
Lemma line_alphagrid :
  str2dbl "0" = Some 0%float -> str2dbl "0.1" = Some 0.1%float ->
  str2dbl "0.2" = Some 0.2%float -> str2dbl "0.3" = Some 0.3%float ->
  str2int "5" = Some 5%Z ->
  let '(r, p') :=
    handleSectionData_DYNINFO ["alphagrid"; "0"; "0.1"; "0.2"; "0.2r5"; "0.3"]
                              dyninfo_start in
  r = Ok tt
  /\ fields (active_di p') !! "alphagrid"
     = Some [0; 0.1; 0.2; 0.2; 0.2; 0.2; 0.2; 0.2; 0.3]%float.
Proof.
  intros Ha Hb Hc Hd He.
  destruct H as [s2d s2i ? ? ? ? ? ? ? ? ? ? ?]. simpl in Ha, Hb, Hc, Hd, He.
  repeat (vm_compute; progress rewrite ?Ha, ?Hb, ?Hc, ?Hd, ?He).
  vm_compute. split; reflexivity.
Qed.

(** C8: in a vector field of a @DYNINFO block a token V r N, where V is
    the text of a value (finite, and not negative unless the field allows
    it) and N the text of an integer, throws a BadInput when N is below 2
    and otherwise appends exactly N copies of the value; so the line
    alphagrid 0 0.1 0.2 0.2r5 0.3 gives the nine numbers with 0.2 six
    times. The hypotheses on str2dbl and str2int say how the tokens of the
    line read as numbers. *)
Theorem C8_repeat_notation (p : NCMATParser) (target V N : string) (n : Z) (v : double)
    (old : list double) :
  contains V "r" = false ->
  str2int N = Some n ->
  str2dbl V = Some v ->
  ncisnan v || ncisinf v = false ->
  negb (m_dyninfo_active_vector_field_allownegative p) && (v <? 0.0)%float = false ->
  dyninfos (m_data p) <> [] ->
  fields (active_di p) !! target = Some old ->
  str2dbl "0" = Some 0%float -> str2dbl "0.1" = Some 0.1%float ->
  str2dbl "0.2" = Some 0.2%float -> str2dbl "0.3" = Some 0.3%float ->
  str2int "5" = Some 5%Z ->
  (let '(r, p') := dyninfo_vector_entry target (V +:+ String "r" N) p in
   if (n <? 2)%Z then throws BadInput r
   else r = Ok tt /\
        fields (active_di p') !! target = Some (old ++ replicate (Z.to_nat n) v))
  /\
  (let '(r, p') :=
     handleSectionData_DYNINFO ["alphagrid"; "0"; "0.1"; "0.2"; "0.2r5"; "0.3"]
                               dyninfo_start in
   r = Ok tt
   /\ fields (active_di p') !! "alphagrid"
      = Some [0; 0.1; 0.2; 0.2; 0.2; 0.2; 0.2; 0.2; 0.3]%float
   /\ from_option (count_occ_dbl 0.2%float) 0%nat
                    (fields (active_di p') !! "alphagrid") = 6%nat).
Proof.
  intros HV HN Hv Hfin Hneg Hne Hold Ha Hb Hc Hd He. split.
  - by apply entry_repeat.
  - pose proof (line_alphagrid Ha Hb Hc Hd He) as Hl.
    destruct (handleSectionData_DYNINFO _ _) as [r p']. destruct Hl as [-> Hf].
    split; [done|]. split; [done|]. unfold double in *. rewrite Hf. reflexivity.
Qed.

(** *** The literal nodefaults *)






End ParserFacts.

(** ** The configuration string *)

Section Strings.

Lemma length_append (a b : string) :
  String.length (a +:+ b) = (String.length a + String.length b)%nat.
Proof. induction a as [|c a IH]; [done|]. rewrite append_cons. simpl. by rewrite IH. Qed.

Lemma last_chr_is_Some (c : ascii) (s : string) : is_Some (last_chr (String c s)).
Proof.
  revert c. induction s as [|d s IH]; intros c; [by eexists|].
  change (last_chr (String c (String d s))) with (last_chr (String d s)). apply IH.
Qed.

Lemma last_chr_cons (c : ascii) (s : string) :
  last_chr (String c s) = match last_chr s with Some d => Some d | None => Some c end.
Proof.
  destruct s as [|d s]; [done|].
  change (last_chr (String c (String d s))) with (last_chr (String d s)).
  by destruct (last_chr_is_Some d s) as [e ->].
Qed.

Lemma last_chr_append (a b : string) :
  empty b = false -> last_chr (a +:+ b) = last_chr b.
Proof.
  intros Hb. induction a as [|c a IH]; [done|].
  rewrite append_cons, last_chr_cons, IH.
  destruct b as [|d b]; [done|]. rewrite last_chr_cons. by destruct (last_chr b).
Qed.

Lemma get_lt (s : string) (k : nat) :
  (k < String.length s)%nat -> is_Some (String.get k s).
Proof.
  revert k. induction s as [|c s IH]; intros k Hk; [simpl in Hk; lia|].
  destruct k as [|k]; [by eexists|]. simpl. apply IH. simpl in Hk. lia.
Qed.

Lemma last_chr_get (s : string) :
  last_chr s = String.get (String.length s - 1) s.
Proof.
  induction s as [|c s IH]; [done|].
  rewrite last_chr_cons, IH. destruct s as [|d s]; [done|].
  change (String.length (String c (String d s)) - 1)%nat with (S (String.length s)).
  change (String.length (String d s) - 1)%nat with (String.length s - 0)%nat.
  rewrite Nat.sub_0_r.
  change (String.get (S (String.length s)) (String c (String d s)))
    with (String.get (String.length s) (String d s)).
  by destruct (get_lt (String d s) (String.length s) ltac:(simpl; lia)) as [e ->].
Qed.

Lemma alpha_not_ws (c : ascii) : contains alpha c = true -> is_ws c = false.
Proof.
  intros Ha. destruct (is_ws c) eqn:Hw; [|done].
  unfold is_ws in Hw.
  repeat (apply orb_prop in Hw as [Hw|Hw]); apply Ascii.eqb_eq in Hw; subst c; done.
Qed.

Lemma rtrim_id (s : string) :
  from_option (fun c => negb (is_ws c)) true (last_chr s) = true -> rtrim s = s.
Proof.
  induction s as [|c s IH]; [done|].
  rewrite last_chr_cons. intros Hl. simpl.
  destruct s as [|d s].
  - simpl in *. by destruct (is_ws c).
  - assert (rtrim (String d s) = String d s) as ->; [|done].
    apply IH. by destruct (last_chr (String d s)).
Qed.

Lemma trim_id (s : string) :
  from_option (fun c => negb (is_ws c)) true (first_chr s) = true ->
  from_option (fun c => negb (is_ws c)) true (last_chr s) = true ->
  trim s = s.
Proof.
  intros Hf Hl. unfold trim.
  assert (ltrim s = s) as ->; [|by apply rtrim_id].
  destruct s as [|c s]; [done|]. simpl in *. by destruct (is_ws c).
Qed.

Lemma contains_only_get (s needles : string) (k : nat) (c : ascii) :
  contains_only s needles = true -> String.get k s = Some c -> contains needles c = true.
Proof.
  revert k. induction s as [|d s IH]; intros k Hs Hg; [done|].
  simpl in Hs. apply andb_prop in Hs as [Hd Hs].
  destruct k as [|k]; simpl in Hg; [by injection Hg as <-|]. by eapply IH.
Qed.

Lemma get_append_r (a b : string) (k : nat) :
  String.get (String.length a + k) (a +:+ b) = String.get k b.
Proof. induction a as [|c a IH]; [done|]. rewrite append_cons. simpl. exact IH. Qed.

Lemma get_append_l (a b : string) (k : nat) :
  (k < String.length a)%nat -> String.get k (a +:+ b) = String.get k a.
Proof.
  revert k. induction a as [|c a IH]; intros k Hk; [simpl in Hk; lia|].
  rewrite append_cons. destruct k as [|k]; [done|]. simpl. apply IH. simpl in Hk. lia.
Qed.

Lemma unit_begin_S (tmp : string) (i : nat) :
  unit_begin tmp (S i)
  = match String.get i tmp with
    | Some c => if contains alpha c then unit_begin tmp i else S i
    | None => S i
    end.
Proof. reflexivity. Qed.

(** The loop which looks for the beginning of the unit stops after the
    number. *)
Lemma unit_begin_after_number (num unit : string) (k : nat) :
  from_option (fun c => negb (contains alpha c)) false (last_chr num) = true ->
  contains_only unit alpha = true ->
  (k <= String.length unit)%nat ->
  unit_begin (num +:+ unit) (String.length num + k) = String.length num.
Proof.
  intros Hnum Hunit. induction k as [|k IH]; intros Hk.
  - rewrite Nat.add_0_r. destruct num as [|c num]; [done|].
    pose proof (get_append_l (String c num) unit (String.length num) ltac:(simpl; lia)) as Hg.
    rewrite last_chr_get in Hnum.
    change (String.length (String c num) - 1)%nat with (String.length num - 0)%nat in Hnum.
    rewrite Nat.sub_0_r in Hnum.
    change (String.length (String c num)) with (S (String.length num)).
    revert Hg. generalize (String c num +:+ unit). intros tmp Hg.
    rewrite unit_begin_S, Hg.
    destruct (String.get (String.length num) (String c num)) as [d|]; [|done].
    cbn [from_option] in Hnum. apply negb_true_iff in Hnum. by rewrite Hnum.
  - rewrite Nat.add_succ_r.
    pose proof (get_append_r num unit k) as Hg.
    destruct (get_lt unit k ltac:(lia)) as [c Hc]. rewrite Hc in Hg.
    specialize (IH ltac:(lia)). revert Hg IH. generalize (num +:+ unit). intros tmp Hg IH.
    rewrite unit_begin_S, Hg, (contains_only_get _ _ _ _ Hunit Hc). exact IH.
Qed.

End Strings.

Section ValueFacts.
Context `{Externals}.

Ltac unfold_M :=
  unfold mbind, mret, M_bind, M_ret, raise, lift, modify, get, put in *.

(** *** Units of double parameters *)

Lemma bare_number_first (num : string) :
  bare_number num = true ->
  from_option (fun c => negb (is_ws c)) true (first_chr num) = true
  /\ from_option (fun c => negb (is_ws c)) true (last_chr num) = true
  /\ from_option (fun c => negb (contains alpha c)) false (last_chr num) = true
  /\ empty num = false.
Proof.
  unfold bare_number. intros Hb. apply andb_prop in Hb as [Hf Hl].
  destruct num as [|c num]; [done|].
  destruct (last_chr (String c num)) as [d|]; [|done].
  simpl in *. apply andb_prop in Hl as [Hl1 Hl2]. by rewrite Hf, Hl1, Hl2.
Qed.

Lemma unit_suffix_facts (unit : string) :
  unit_suffix unit = true ->
  empty unit = false /\ contains_only unit alpha = true
  /\ from_option (contains alpha) false (last_chr unit) = true
  /\ from_option (fun c => negb (is_ws c)) true (last_chr unit) = true.
Proof.
  unfold unit_suffix. intros Hu. apply andb_prop in Hu as [He Hc].
  apply negb_true_iff in He. split; [done|]. split; [done|].
  destruct unit as [|c unit]; [done|].
  destruct (last_chr_is_Some c unit) as [d Hd].
  pose proof (last_chr_get (String c unit)) as Hg. rewrite Hd in Hg.
  symmetry in Hg. pose proof (contains_only_get _ _ _ _ Hc Hg) as Ha.
  rewrite Hd. cbn [from_option]. split; [done|]. by rewrite (alpha_not_ws d Ha).
Qed.

Lemma first_chr_append (a b : string) :
  empty a = false -> first_chr (a +:+ b) = first_chr a.
Proof. by destruct a. Qed.

(** A number followed by a unit of the unit type of the parameter: the
    value stored is the offset plus the factor times the number, as the
    switch gives them for the unit. *)
Lemma set_from_strrep_with_unit (d : ValDbl) (num unit : string) (u off v : double) :
  dbl_unittype d <> UnitNone ->
  bare_number num = true ->
  unit_suffix unit = true ->
  unit_switch (dbl_unittype d) unit = (u, off) ->
  (u <=? 0)%float = false ->
  str2dbl num = Some v ->
  ValDbl_set_from_strrep (num +:+ unit) d
  = if ncisnan (off + u * v)%float
    then (Throw BadInput "Attempting to set number to NaN", d)
    else (Ok tt, mkValDbl (off + u * v)%float (dbl_unittype d) (num +:+ unit)).
Proof.
  intros Hut Hnum Hunit Hsw Hu Hv.
  apply bare_number_first in Hnum as (Hf & Hl & Hna & Hne).
  apply unit_suffix_facts in Hunit as (Hue & Hua & Hul & Hulw).
  assert (trim (num +:+ unit) = num +:+ unit) as Htrim.
  { apply trim_id; [by rewrite first_chr_append|by rewrite last_chr_append]. }
  assert (trim num = num) as Htrimnum by (by apply trim_id).
  unfold ValDbl_set_from_strrep. unfold_M.
  rewrite Htrim.
  rewrite (bool_decide_eq_false_2 _ Hut).
  rewrite last_chr_append by done. rewrite Hul.
  rewrite length_append.
  assert ((1 <? String.length num + String.length unit)%nat = true) as ->.
  { apply Nat.ltb_lt. destruct num, unit; simpl in *; try done; lia. }
  cbn [negb andb].
  rewrite (unit_begin_after_number num unit (String.length unit) Hna Hua (le_n _)).
  rewrite substr_from_app, substr_to_app, Htrimnum, Hsw, Hu.
  unfold str2dbl_or_throw. rewrite Hv. cbn [fst snd].
  unfold ValDbl_set. unfold_M.
  destruct (ncisnan (off + u * v)%float); [done|]. by rewrite Htrim.
Qed.

Lemma empty_append (a b : string) : empty a = false -> empty (a +:+ b) = false.
Proof. by destruct a. Qed.

(** Setting a double parameter by its name on a table where nothing is
    set creates the slot with the units of the parameter and converts
    the text. *)
Lemma setValByStr_new_dbl (name value : string) (p : PARAMETERS) (ignored : bool) :
  String.eqb name "bragg" = false -> String.eqb name "elas" = false ->
  String.eqb name "bkgd" = false ->
  strNameToParIdx name = Ok p ->
  partypes p = VALTYPE_DBL ->
  empty value = false ->
  setValByStr name value (Impl_new ignored)
  = let '(r, vt) := ValDbl_set_from_strrep value (addUnitsForValType ValDbl_new p) in
    (r, slot_assign p vt (slot_assign p (addUnitsForValType ValDbl_new p) (Impl_new ignored))).
Proof.
  intros H1 H2 H3 Hp Ht He. unfold setValByStr. rewrite H1, H2, H3.
  unfold_M. rewrite Hp, He, Ht. cbn [andb fst snd].
  unfold getValTypeForSet, ensureNoSpy, Impl_new. unfold_M. cbn [m_spies].
  rewrite bool_decide_eq_true_2 by done.
  cbn [m_parlist]. rewrite lookup_empty. unfold through_slot. reflexivity.
Qed.

Lemma getVal_dbl_slot (o : Impl) (p : PARAMETERS) (vt : ValDbl) (dflt : double) :
  partypes p = VALTYPE_DBL ->
  getVal dbl_value (slot_assign p vt o) p dflt = Ok (dbl_value vt).
Proof.
  intros Ht. unfold getVal, getValType, slot_assign. cbn [value_type_enum ValType_Dbl].
  rewrite Ht, bool_decide_eq_true_2 by done. cbn [nc_assert mbind result_bind].
  cbn [m_parlist set_parlist]. by rewrite lookup_insert_eq.
Qed.

Lemma getValNoFallback_dbl_slot (o : Impl) (p : PARAMETERS) (vt : ValDbl) :
  partypes p = VALTYPE_DBL ->
  getValNoFallback dbl_value (slot_assign p vt o) p = Ok (dbl_value vt).
Proof.
  intros Ht. unfold getValNoFallback, getValTypeThrowIfNotAvail, getValType, slot_assign.
  cbn [value_type_enum ValType_Dbl].
  rewrite Ht, bool_decide_eq_true_2 by done. cbn [nc_assert mbind result_bind].
  cbn [m_parlist set_parlist]. by rewrite lookup_insert_eq.
Qed.

Lemma set_then_get_unit (name : string) (p : PARAMETERS) (getter : Impl -> result double)
    (num unit : string) (u off v : double) :
  String.eqb name "bragg" = false -> String.eqb name "elas" = false ->
  String.eqb name "bkgd" = false ->
  strNameToParIdx name = Ok p ->
  partypes p = VALTYPE_DBL ->
  (forall o vt, getter (slot_assign p vt o) = Ok (dbl_value vt)) ->
  dbl_unittype (addUnitsForValType ValDbl_new p) <> UnitNone ->
  bare_number num = true ->
  unit_suffix unit = true ->
  unit_switch (dbl_unittype (addUnitsForValType ValDbl_new p)) unit = (u, off) ->
  (u <=? 0)%float = false ->
  str2dbl num = Some v ->
  set_then_get name (num +:+ unit) getter = stored (off + u * v)%float.
Proof.
  intros H1 H2 H3 Hp Ht Hget Hut Hnum Hunit Hsw Hu Hv.
  unfold set_then_get.
  rewrite (setValByStr_new_dbl name _ p false H1 H2 H3 Hp Ht)
    by (apply empty_append; by apply bare_number_first in Hnum as (_ & _ & _ & ?)).
  rewrite (set_from_strrep_with_unit _ num unit u off v Hut Hnum Hunit Hsw Hu Hv).
  unfold stored. destruct (ncisnan (off + u * v)%float); [done|].
  cbn [mbind result_bind]. by rewrite Hget.
Qed.

(** C7: a double parameter set from a number followed by a unit of its
    unit type stores the offset of the unit plus its factor times the
    number: for temp the unit C gives 273.15 + 1.0 * v and the unit F
    gives (273.15 - 32/1.8) + (1/1.8) * v, so that 20C reads back as
    293.15; for the angle parameters, which are mos and dirtol and no
    other, the unit arcmin gives 0.0 + kArcMin * v, so that 60arcmin
    reads back as 60 times the constant of an arc minute. The hypotheses
    say how the numbers read and that the constant is positive; [stored]
    refuses a NaN. *)
Theorem C7_unit_conversion (num : string) (v : double) :
  bare_number num = true ->
  str2dbl num = Some v ->
  (kArcMin <=? 0)%float = false ->
  str2dbl "20" = Some 20%float ->
  str2dbl "60" = Some 60%float ->
  set_then_get "temp" (num +:+ "C") get_temp = stored (273.15 + 1.0 * v)%float
  /\ set_then_get "temp" (num +:+ "F") get_temp
     = stored ((273.15 - (32 / 1.8)) + (1 / 1.8) * v)%float
  /\ set_then_get "mos" (num +:+ "arcmin") get_mos = stored (0.0 + kArcMin * v)%float
  /\ set_then_get "temp" "20C" get_temp = Ok 293.15%float
  /\ set_then_get "mos" "60arcmin" get_mos = stored (0.0 + kArcMin * 60)%float
  /\ set_then_get "dirtol" (num +:+ "arcmin") get_dirtol = stored (0.0 + kArcMin * v)%float
  /\ set_then_get "dirtol" "60arcmin" get_dirtol = stored (0.0 + kArcMin * 60)%float
  /\ (forall par, dbl_unittype (addUnitsForValType ValDbl_new par) = UnitAngle
                  <-> par = PAR_mos \/ par = PAR_dirtol).
Proof.
  intros Hnum Hv Hk H20 H60.
  assert (forall o vt, get_temp (slot_assign PAR_temp vt o) = Ok (dbl_value vt)) as Hgt.
  { intros. by apply getVal_dbl_slot. }
  assert (forall o vt, get_mos (slot_assign PAR_mos vt o) = Ok (dbl_value vt)) as Hgm.
  { intros. by apply getValNoFallback_dbl_slot. }
  assert (forall o vt, get_dirtol (slot_assign PAR_dirtol vt o) = Ok (dbl_value vt)) as Hgd.
  { intros. by apply getVal_dbl_slot. }
  split; [|split; [|split; [|split; [|split; [|split; [|split]]]]]];
    [| | | | | | |intros par; split;
                   [by destruct par; (try discriminate); auto|by intros [->| ->]]].
  - by apply (set_then_get_unit "temp" PAR_temp get_temp num "C" 1.0%float 273.15%float v).
  - by apply (set_then_get_unit "temp" PAR_temp get_temp num "F"
                (1 / 1.8)%float (273.15 - (32 / 1.8))%float v).
  - by apply (set_then_get_unit "mos" PAR_mos get_mos num "arcmin" kArcMin 0.0%float v).
  - by rewrite (set_then_get_unit "temp" PAR_temp get_temp "20" "C" 1.0%float 273.15%float
                  20%float).
  - by apply (set_then_get_unit "mos" PAR_mos get_mos "60" "arcmin" kArcMin 0.0%float
                60%float).
  - by apply (set_then_get_unit "dirtol" PAR_dirtol get_dirtol num "arcmin" kArcMin
                0.0%float v).
  - by apply (set_then_get_unit "dirtol" PAR_dirtol get_dirtol "60" "arcmin" kArcMin
                0.0%float 60%float).
Qed.
End ValueFacts.

Section SegmentFacts.
Context `{Externals} {S : Type} {OW : Owner S}.

Ltac unfold_M :=
  unfold mbind, mret, M_bind, M_ret, raise, lift, modify, get, put in *.

(** *** The parts of a parameter string *)

Lemma part_blank (seg : string) (s : S) :
  blank seg = true -> applyStrCfg_part seg s = (Ok tt, s).
Proof. unfold blank, applyStrCfg_part. by intros ->. Qed.

Lemma part_not_key_value (seg : string) (s : S) :
  blank seg = false -> key_value_form seg = false ->
  exists w, applyStrCfg_part seg s = (Throw BadInput w, s).
Proof.
  unfold blank, key_value_form, applyStrCfg_part. intros -> Hkv.
  destruct (String.eqb (trim seg) "ignorefilecfg"); [by eexists|].
  destruct (Nat.eqb (length (split (trim seg) 0 "=")) 2); simpl in *; [|by eexists].
  apply negb_false_iff in Hkv. rewrite Hkv. by eexists.
Qed.

Lemma split_no_sep (s : string) (sep : ascii) (fuel : option nat) :
  contains s sep = false -> split_sep sep fuel s = [s].
Proof.
  revert fuel. induction s as [|c s IH]; intros fuel Hc.
  - by destruct fuel as [[|?]|].
  - simpl in Hc. apply orb_false_elim in Hc as [Hc Hs].
    destruct fuel as [[|n]|]; [done| |]; simpl; rewrite Hc, IH; done.
Qed.

Lemma part_key_value (seg : string) (s : S) :
  key_value_form seg = true ->
  applyStrCfg_part seg s = (cow ;; via_m_impl (setValByStr (seg_key seg) (seg_value seg))) s.
Proof.
  unfold key_value_form, seg_key, seg_value, applyStrCfg_part. intros Hkv.
  apply andb_prop in Hkv as [Hlen Hkey].
  destruct (empty (trim seg)) eqn:He.
  { destruct (trim seg); [done|done]. }
  destruct (String.eqb_spec (trim seg) "ignorefilecfg") as [Heq|_].
  { rewrite Heq in Hlen. done. }
  rewrite Hlen. simpl. apply negb_true_iff in Hkey. by rewrite Hkey.
Qed.

Lemma forM_skip_blank (l : list string) (s : S) :
  forM_ l applyStrCfg_part s
  = forM_ (filter (fun seg => blank seg = false) l) applyStrCfg_part s.
Proof.
  revert s. induction l as [|seg l IH]; intros s; [done|].
  rewrite filter_cons. destruct (decide (blank seg = false)) as [Hb|Hb].
  - simpl. unfold_M. destruct (applyStrCfg_part seg s) as [[[]|k w] s']; [apply IH|done].
  - apply not_false_is_true in Hb. simpl. unfold_M. rewrite (part_blank seg s Hb). apply IH.
Qed.

Lemma forM_throw {A} (body : A -> M S unit) (l : list A) (s : S) (k : ErrorKind) (w : string) :
  fst (forM_ l body s) = Throw k w ->
  exists x s', x ∈ l /\ fst (body x s') = Throw k w.
Proof.
  revert s. induction l as [|x l IH]; intros s Hthrow; [done|].
  simpl in Hthrow. unfold_M.
  destruct (body x s) as [[[]|k' w'] s'] eqn:Hb.
  - destruct (IH s' Hthrow) as (y & s'' & Hy & Hby). exists y, s''. split; [by right|done].
  - simpl in Hthrow. injection Hthrow as -> ->. exists x, s. split; [by left|]. by rewrite Hb.
Qed.

(** C10 (amended): in a parameter string of admissible characters the
    parts between the ';' separators which are empty or blank are
    skipped, so that applyStrCfg does what it does on the other parts
    alone; and when it throws, the error comes from a part which is not
    blank: a BadInput when the part is not of the form key=value,
    otherwise whatever the setter called with the key and the value
    throws. A string which is not simple ASCII or holds a forbidden
    character is refused as a whole: a BadInput, and nothing is
    changed. *)
Theorem C10_blank_segments_skipped (str : string) (s : S) :
  if isSimpleASCII str true true && negb (contains_any str NCMATCFG_FORBIDDEN_CHARS)
  then
    applyStrCfg str s
    = forM_ (filter (fun seg => blank seg = false) (split str 0 ";")) applyStrCfg_part s
    /\ (forall k w, fst (applyStrCfg str s) = Throw k w ->
        exists seg, seg ∈ split str 0 ";" /\ blank seg = false
          /\ (if key_value_form seg
              then exists s', fst ((cow ;; via_m_impl (setValByStr (seg_key seg) (seg_value seg))) s')
                              = Throw k w
              else k = BadInput))
  else exists w, applyStrCfg str s = (Throw BadInput w, s).
Proof.
  destruct (isSimpleASCII str true true) eqn:Ha; cbn [andb negb];
    [|unfold applyStrCfg; rewrite Ha; by eexists].
  destruct (contains_any str NCMATCFG_FORBIDDEN_CHARS) eqn:Hf; cbn [negb];
    [unfold applyStrCfg; rewrite Ha, Hf; by eexists|].
  assert (applyStrCfg str s = forM_ (split str 0 ";") applyStrCfg_part s) as Happ.
  { unfold applyStrCfg. by rewrite Ha, Hf. }
  split; [by rewrite Happ, forM_skip_blank|].
  intros k w Hthrow. rewrite Happ in Hthrow.
  apply forM_throw in Hthrow as (seg & s' & Hin & Hseg).
  exists seg. split; [done|].
  destruct (blank seg) eqn:Hb.
  { by rewrite (part_blank seg s' Hb) in Hseg. }
  split; [done|].
  destruct (key_value_form seg) eqn:Hkv.
  - exists s'. by rewrite <- (part_key_value seg s' Hkv).
  - destruct (part_not_key_value seg s' Hb Hkv) as [w' Hw]. rewrite Hw in Hseg.
    by injection Hseg as <- _.
Qed.
End SegmentFacts.

(** ** Handles on a shared table *)

Section Hoare.
Context {S : Type}.
Implicit Types (P E : S -> Prop).

Lemma hoare_ret {A} P E (Q : A -> S -> Prop) (a : A) :
  (forall s, P s -> Q a s) -> hoare P (mret a) Q E.
Proof. intros HQ s Hs. apply HQ, Hs. Qed.

Lemma hoare_raise {A} P E (Q : A -> S -> Prop) k w :
  (forall s, P s -> E s) -> hoare P (raise k w) Q E.
Proof. intros HE s Hs. apply HE, Hs. Qed.

Lemma hoare_bind {A B} P E (R : A -> S -> Prop) (Q : B -> S -> Prop)
    (m : M S A) (f : A -> M S B) :
  hoare P m R E -> (forall a, hoare (R a) (f a) Q E) -> hoare P (m ≫= f) Q E.
Proof.
  intros Hm Hf s Hs. specialize (Hm s Hs). unfold mbind, M_bind.
  destruct (m s) as [[a|k w] s']; [|exact Hm]. apply (Hf a s' Hm).
Qed.

Lemma hoare_conseq {A} P P' E E' (Q Q' : A -> S -> Prop) (m : M S A) :
  hoare P' m Q' E' -> (forall s, P s -> P' s) -> (forall a s, Q' a s -> Q a s) ->
  (forall s, E' s -> E s) -> hoare P m Q E.
Proof.
  intros Hm HP HQ HE s Hs. specialize (Hm s (HP s Hs)).
  destruct (m s) as [[a|k w] s']; auto.
Qed.

Lemma hoare_forM {A} (I : S -> Prop) (l : list A) (body : A -> M S unit) :
  (forall x, hoare I (body x) (fun _ => I) I) ->
  hoare I (forM_ l body) (fun _ => I) I.
Proof.
  intros Hbody. induction l as [|x l IH]; simpl.
  - apply hoare_ret. auto.
  - eapply hoare_bind; [apply Hbody|]. intros []. exact IH.
Qed.

End Hoare.

Section CoW.
Context `{Externals}.
Variables (hp0 : Heap) (a k : nat) (o : Impl).
Hypothesis Hlive : hp0 !! a = Some (mkRC k o).
Hypothesis Hshared : 1 < k.

#[local] Abbreviation Det := (detached hp0 a k o).
#[local] Abbreviation Inv := (attached_or_detached hp0 a k o).

Lemma clone_addr_fresh : clone_addr hp0 <> a.
Proof using Hlive.
  intros Heq. apply (is_fresh (dom hp0)). unfold clone_addr in Heq.
  rewrite Heq. apply elem_of_dom. eauto.
Qed.

Lemma clone_addr_not_in : hp0 !! clone_addr hp0 = None.
Proof. apply not_elem_of_dom. exact (is_fresh (dom hp0)). Qed.

Lemma cow_detaches :
  hoare Inv heap_cow (fun _ => Det) Inv.
Proof using Hlive Hshared.
  intros [hp h] [Hs|[o' Hs]]; inversion Hs; subst; clear Hs; unfold heap_cow.
  - cbn [m_impl]. rewrite Hlive. cbn [m_refCount rc_obj].
    destruct (Nat.eqb_spec k 1) as [?|_]; [lia|].
    destruct (Impl_copy o) as [newobj|kk w]; [|left; reflexivity].
    exists newobj. f_equal. fold (clone_addr hp0).
    unfold ref. rewrite alter_insert_eq. cbn [m_refCount rc_obj].
    change (incr_unsigned 0) with 1.
    unfold unref. rewrite lookup_insert_ne by apply clone_addr_fresh.
    rewrite Hlive. cbn [m_refCount rc_obj].
    destruct (Nat.eqb_spec (k - 1) 0) as [?|_]; [lia|].
    apply insert_insert_ne. intros Heq. symmetry in Heq. revert Heq. apply clone_addr_fresh.
  - cbn [m_impl]. rewrite lookup_insert_eq. cbn [m_refCount]. simpl.
    exists o'. reflexivity.
Qed.

Lemma via_m_impl_detached {A} (call : M Impl A) :
  hoare Det (heap_via_m_impl call) (fun _ => Det) Det.
Proof.
  intros [hp h] [o' Hs]; inversion Hs; subst; clear Hs. unfold heap_via_m_impl.
  cbn [m_impl]. rewrite lookup_insert_eq. cbn [m_refCount rc_obj].
  destruct (call o') as [[r|kk w] obj]; exists obj; rewrite insert_insert_eq; reflexivity.
Qed.


Lemma detached_weaken (s : Heap * Handle) : Det s -> Inv s.
Proof. intros Hs. right. exact Hs. Qed.

Lemma via_m_impl_frame {A} (call : M Impl A) :
  hoare Det (via_m_impl call) (fun _ => Inv) Inv.
Proof.
  intros s Hs. pose proof (via_m_impl_detached call s Hs) as Hd.
  cbn [via_m_impl Owner_heap].
  destruct (heap_via_m_impl call s) as [[r|kk w] s']; right; exact Hd.
Qed.

Lemma cow_then_call {A} (call : M Impl A) :
  hoare Inv (cow ;; via_m_impl call)
        (fun _ => Inv) Inv.
Proof using Hlive Hshared.
  eapply hoare_bind; [apply cow_detaches|]. intros []. apply via_m_impl_frame.
Qed.

Lemma setOrientation_frame (sco : SCOrientation) :
  hoare Inv (setOrientation sco)
        (fun _ => Inv) Inv.
Proof using Hlive Hshared.
  unfold setOrientation. destruct (negb (sco_isComplete sco)).
  - apply hoare_raise. auto.
  - eapply hoare_bind; [apply cow_detaches|]. intros [].
    eapply hoare_bind.
    + eapply hoare_conseq; [apply via_m_impl_detached| | |];
        [auto|intros ? ? Hd; exact Hd|auto using detached_weaken].
    + intros []. apply via_m_impl_frame.
Qed.

Lemma applyStrCfg_part_frame (part : string) :
  hoare Inv (applyStrCfg_part part)
        (fun _ => Inv) Inv.
Proof using Hlive Hshared.
  unfold applyStrCfg_part.
  repeat match goal with
         | |- hoare _ (if ?b then _ else _) _ _ => destruct b
         end;
    try (apply hoare_raise; auto); try (apply hoare_ret; auto).
  apply cow_then_call.
Qed.

Lemma applyStrCfg_frame (str : string) :
  hoare Inv (applyStrCfg str)
        (fun _ => Inv) Inv.
Proof using Hlive Hshared.
  unfold applyStrCfg.
  repeat match goal with
         | |- hoare _ (if ?b then _ else _) _ _ => destruct b
         end;
    try (apply hoare_raise; auto).
  apply hoare_forM, applyStrCfg_part_frame.
Qed.

Lemma call_setter_frame (f : Setter) :
  hoare Inv (call_setter f)
        (fun _ => Inv) Inv.
Proof using Hlive Hshared.
  destruct f; cbn [call_setter];
    first [ apply setOrientation_frame | apply applyStrCfg_frame | apply cow_then_call ].
Qed.

End CoW.

Section Sharing.
Context `{Externals}.

(** C2: when the handles H1 and H2 point to the same table and its count
    exceeds 1, a call of any modifier on H1 (the setters, setOrientation,
    applyStrCfg), whether it returns or throws, leaves the table seen
    through H2 as it was, so every parameter reads through H2 as before;
    and either the store and H1 are untouched, or H1 now points to a
    clone at an address which was free, owned by H1 alone, the first
    table having one owner less. *)
Theorem C2_copy_on_write (f : Setter) (hp : Heap) (h1 h2 : Handle) (k : nat) (o : Impl) :
  m_impl h1 = m_impl h2 ->
  hp !! m_impl h1 = Some (mkRC k o) ->
  1 < k ->
  forall r hp' h1', call_setter f (hp, h1) = (r, (hp', h1')) ->
    deref hp' h2 = deref hp h2
    /\ ((hp', h1') = (hp, h1)
        \/ (hp !! m_impl h1' = None
            /\ m_refCount <$> (hp' !! m_impl h1') = Some 1%nat
            /\ m_refCount <$> (hp' !! m_impl h2) = Some (k - 1)%nat)).
Proof.
  intros Heq Hlive Hshared r hp' h1' Hcall.
  destruct h1 as [a], h2 as [a2]. cbn [m_impl] in *. subst a2.
  pose proof (call_setter_frame hp a k o Hlive Hshared f (hp, mkHandle a)
                (or_introl eq_refl)) as Hf.
  rewrite Hcall in Hf.
  assert (attached_or_detached hp a k o (hp', h1')) as [Hs|[o' Hs]]
    by (destruct r; exact Hf).
  - inversion Hs; subst. split; [reflexivity|left; reflexivity].
  - inversion Hs; subst. unfold deref. cbn [m_impl].
    pose proof (clone_addr_fresh _ _ _ _ Hlive) as Hne.
    rewrite lookup_insert_ne by exact Hne.
    rewrite !lookup_insert_eq, Hlive. split; [reflexivity|]. right.
    split; [apply clone_addr_not_in|]. split; reflexivity.
Qed.

End Sharing.

(** ** The constructor and the configuration embedded in the file *)

Section Markers.

(** *** Markers in the lines of a file *)

Lemma prefix_length (a b : string) :
  String.prefix a b = true -> String.length a <= String.length b.
Proof.
  revert b. induction a as [|c a IH]; intros b Hp; [simpl; lia|].
  destruct b as [|d b]; [discriminate|]. simpl in Hp.
  destruct (Ascii.ascii_dec c d); [|discriminate]. simpl. apply IH in Hp. lia.
Qed.

Lemma find_eq (s pat : string) :
  find s pat = if String.prefix pat s then Some 0
               else match s with
                    | EmptyString => None
                    | String _ r => S <$> find r pat
                    end.
Proof. destruct s; reflexivity. Qed.

Lemma find_Some_length (s pat : string) (pos : nat) :
  find s pat = Some pos -> pos + String.length pat <= String.length s.
Proof.
  revert pos. induction s as [|c s IH]; intros pos; rewrite find_eq;
    destruct (String.prefix pat _) eqn:Hp.
  - intros [= <-]. apply prefix_length in Hp. simpl in *. lia.
  - discriminate.
  - intros [= <-]. apply prefix_length in Hp. simpl in *. lia.
  - destruct (find s pat) as [p|] eqn:Hf; [|discriminate].
    intros [= <-]. specialize (IH p eq_refl). simpl. lia.
Qed.

Lemma markers_in_zero (fuel : nat) (line : string) :
  fuel <> 0 -> markers_in fuel line = 0 -> find line pattern = None.
Proof.
  destruct fuel as [|fuel]; [done|]. intros _. cbn [markers_in].
  destruct (find line pattern); [discriminate|done].
Qed.

Lemma markers_in_unmarked (fuel : nat) (line : string) :
  find line pattern = None -> markers_in fuel line = 0.
Proof. intros Hf. destruct fuel; cbn [markers_in]; [done|]. by rewrite Hf. Qed.

Lemma unmarked_line (line : string) :
  markers_in (String.length line) line = 0 -> find line pattern = None.
Proof.
  destruct line as [|c line]; [reflexivity|]. apply markers_in_zero. done.
Qed.

Lemma marked_line (line : string) (pos : nat) :
  find line pattern = Some pos ->
  markers_in (String.length line) line
  = S (markers_in (String.length line - 1)
                  (substr_from (pos + String.length pattern) line)).
Proof.
  intros Hf. pose proof (find_Some_length _ _ _ Hf) as Hlen.
  change (String.length pattern) with 14 in *.
  destruct (String.length line) as [|n] eqn:Hn; [lia|].
  cbn [markers_in]. rewrite Hf. do 2 f_equal. lia.
Qed.

Lemma marked_once (line : string) :
  markers_in (String.length line) line = 1 ->
  exists pos, find line pattern = Some pos
    /\ find (substr_from (pos + String.length pattern) line) pattern = None.
Proof.
  intros Hm. destruct (find line pattern) as [pos|] eqn:Hf.
  - exists pos. split; [reflexivity|]. rewrite (marked_line _ _ Hf) in Hm.
    pose proof (find_Some_length _ _ _ Hf) as Hlen.
    change (String.length pattern) with 14 in *.
    apply (markers_in_zero (String.length line - 1)); [lia|]. lia.
  - rewrite (markers_in_unmarked _ _ Hf) in Hm. discriminate.
Qed.

Lemma marked_twice (line : string) :
  2 <= markers_in (String.length line) line ->
  exists pos, find line pattern = Some pos
    /\ is_Some (find (substr_from (pos + String.length pattern) line) pattern).
Proof.
  intros Hm. destruct (find line pattern) as [pos|] eqn:Hf.
  - exists pos. split; [reflexivity|]. rewrite (marked_line _ _ Hf) in Hm.
    destruct (String.length line - 1) as [|n]; [simpl in Hm; lia|].
    cbn [markers_in] in Hm.
    destruct (find (substr_from _ line) pattern); [eauto|lia].
  - rewrite (markers_in_unmarked _ _ Hf) in Hm. lia.
Qed.

Lemma markers_in_member (line : string) (lines : list string) :
  line ∈ lines -> markers_in (String.length line) line <= marker_count lines.
Proof.
  unfold marker_count. induction 1 as [|? ? ? _ IH]; simpl; lia.
Qed.

Lemma line_unmarked (line res : string) :
  find line pattern = None -> extractFileCfgStr_line line res = Ok res.
Proof. intros Hf. unfold extractFileCfgStr_line. by rewrite Hf. Qed.

Lemma line_throws_BadInput (line res : string) (k : ErrorKind) (w : string) :
  extractFileCfgStr_line line res = Throw k w -> k = BadInput.
Proof.
  unfold extractFileCfgStr_line. repeat case_match; congruence.
Qed.

Lemma line_marked_again (line res : string) :
  is_Some (find line pattern) -> empty res = false ->
  throws BadInput (extractFileCfgStr_line line res).
Proof.
  intros [pos Hf] Hres. unfold extractFileCfgStr_line. rewrite Hf, Hres.
  eexists. reflexivity.
Qed.

Lemma line_marked_twice (line res : string) :
  2 <= markers_in (String.length line) line ->
  throws BadInput (extractFileCfgStr_line line res).
Proof.
  intros Hm. destruct (marked_twice _ Hm) as (pos & Hf & Hagain).
  unfold extractFileCfgStr_line. rewrite Hf.
  destruct (negb (empty res)); [eexists; reflexivity|].
  destruct (_ || _); [eexists; reflexivity|].
  rewrite bool_decide_eq_true_2 by exact Hagain. eexists. reflexivity.
Qed.

Lemma line_marked_Ok (line r : string) :
  is_Some (find line pattern) -> extractFileCfgStr_line line "" = Ok r ->
  empty r = false.
Proof.
  intros [pos Hf]. unfold extractFileCfgStr_line. rewrite Hf.
  repeat case_match; try discriminate; intros [= <-]; done.
Qed.

Lemma line_bracketed (line text : string) :
  markers_in (String.length line) line = 1 -> bracketed line text ->
  extractFileCfgStr_line line "" = Ok (if empty text then " " else text).
Proof.
  intros Hm (pos & rest & Hf & Hrest & Htext).
  destruct (marked_once _ Hm) as (pos' & Hf' & Hnone).
  rewrite Hf in Hf'. injection Hf' as <-.
  change ("[" +:+ text +:+ "]" +:+ rest)
    with (String "[" (text +:+ String "]" rest)) in Hrest.
  unfold extractFileCfgStr_line. rewrite Hf. cbv zeta. rewrite Hnone, Hrest.
  cbn -[find find_chr substr_to String.append].
  rewrite (find_chr_app text "]" rest Htext), substr_to_app.
  by destruct (text +:+ String "]" rest).
Qed.

Lemma marker_count_cons (line : string) (lines : list string) :
  marker_count (line :: lines)
  = markers_in (String.length line) line + marker_count lines.
Proof. reflexivity. Qed.

Lemma loop_unmarked (lines : list string) (res : string) :
  marker_count lines = 0 -> extractFileCfgStr_loop lines res = Ok res.
Proof.
  induction lines as [|line lines IH]; [done|]. rewrite marker_count_cons.
  intros Hc. cbn [extractFileCfgStr_loop].
  rewrite line_unmarked by (apply unmarked_line; lia). apply IH. lia.
Qed.

Lemma loop_marked_again (lines : list string) (res : string) :
  empty res = false -> 1 <= marker_count lines ->
  throws BadInput (extractFileCfgStr_loop lines res).
Proof.
  intros Hres. induction lines as [|line lines IH]; [cbn; lia|].
  rewrite marker_count_cons. intros Hc. cbn [extractFileCfgStr_loop].
  destruct (find line pattern) as [pos|] eqn:Hf.
  - destruct (line_marked_again line res) as [w ->]; [eauto|done|]. by eexists.
  - rewrite line_unmarked by done. apply IH.
    rewrite (markers_in_unmarked _ _ Hf) in Hc. lia.
Qed.

Lemma loop_several (lines : list string) :
  2 <= marker_count lines -> throws BadInput (extractFileCfgStr_loop lines "").
Proof.
  induction lines as [|line lines IH]; [cbn; lia|].
  rewrite marker_count_cons. intros Hc. cbn [extractFileCfgStr_loop].
  destruct (markers_in (String.length line) line) as [|[|n]] eqn:Hm.
  - rewrite line_unmarked by (apply unmarked_line; done). apply IH. lia.
  - destruct (marked_once _ Hm) as (pos & Hf & _).
    destruct (extractFileCfgStr_line line "") as [r|k w] eqn:Hl.
    + apply loop_marked_again; [|lia]. eapply line_marked_Ok; eauto.
    + apply line_throws_BadInput in Hl as ->. by eexists.
  - destruct (line_marked_twice line "") as [w ->]; [lia|]. by eexists.
Qed.

Lemma loop_one (lines : list string) (line text : string) :
  marker_count lines = 1 -> line ∈ lines -> bracketed line text ->
  extractFileCfgStr_loop lines "" = Ok (if empty text then " " else text).
Proof.
  intros Hc Hin Hb.
  assert (Hline : 1 <= markers_in (String.length line) line).
  { destruct Hb as (pos & rest & Hf & _). rewrite (marked_line _ _ Hf). lia. }
  induction lines as [|l lines IH]; [by apply elem_of_nil in Hin|].
  rewrite marker_count_cons in Hc. cbn [extractFileCfgStr_loop].
  apply elem_of_cons in Hin as [<-|Hin].
  - rewrite (line_bracketed line text); [|lia|done]. apply loop_unmarked. lia.
  - pose proof (markers_in_member _ _ Hin).
    rewrite line_unmarked by (apply unmarked_line; lia). apply IH; [lia|done].
Qed.

Lemma trim_payload (text : string) : trim (if empty text then " " else text) = trim text.
Proof. by destruct text. Qed.

Lemma extract_one (input : TextInputStream) (line text : string) :
  marker_count (ts_lines input) = 1 -> line ∈ ts_lines input -> bracketed line text ->
  extractFileCfgStr input = Ok (trim text).
Proof.
  intros Hc Hin Hb. unfold extractFileCfgStr.
  rewrite (loop_one _ _ _ Hc Hin Hb). cbn. by rewrite trim_payload.
Qed.

Lemma extract_several (input : TextInputStream) :
  2 <= marker_count (ts_lines input) -> throws BadInput (extractFileCfgStr input).
Proof.
  intros Hc. unfold extractFileCfgStr.
  destruct (loop_several _ Hc) as [w ->]. by eexists.
Qed.

End Markers.

Section UserWins.
Context `{Externals}.

Ltac unfold_M :=
  unfold mbind, mret, M_bind, M_ret, raise, lift, modify, get, put in *.

(** *** Parameters set twice *)

#[local] Instance ValDbl_laws : ValTypeLaws ValDbl.
Proof. split; try done; intros []; simpl; try done; by intros ? [= ->] || eauto. Qed.
#[local] Instance ValInt_laws : ValTypeLaws ValInt.
Proof. split; try done; intros []; simpl; try done; by intros ? [= ->] || eauto. Qed.
#[local] Instance ValBool_laws : ValTypeLaws ValBool.
Proof. split; try done; intros []; simpl; try done; by intros ? [= ->] || eauto. Qed.
#[local] Instance ValStr_laws : ValTypeLaws ValStr.
Proof. split; try done; intros []; simpl; try done; by intros ? [= ->] || eauto. Qed.
#[local] Instance ValAtomDB_laws : ValTypeLaws ValAtomDB.
Proof. split; try done; intros []; simpl; try done; by intros ? [= ->] || eauto. Qed.
#[local] Instance ValOrientDir_laws : ValTypeLaws ValOrientDir.
Proof. split; try done; intros []; simpl; try done; by intros ? [= ->] || eauto. Qed.
#[local] Instance ValVector_laws : ValTypeLaws ValVector.
Proof. split; try done; intros []; simpl; try done; by intros ? [= ->] || eauto. Qed.

Lemma sim_ret {A} (a : A) : sim (mret a).
Proof. intros oA oB HA HB Hsub. split; [reflexivity|]. intros _. auto. Qed.

Lemma sim_raise {A} k w : sim (raise (A := A) k w).
Proof. intros oA oB HA HB Hsub. split; [reflexivity|]. discriminate. Qed.

Lemma sim_lift {A} (r : result A) : sim (lift r).
Proof. intros oA oB HA HB Hsub. split; [reflexivity|]. intros _. auto. Qed.

Lemma sim_bind {A B} (m : M Impl A) (f : A -> M Impl B) :
  sim m -> (forall a, sim (f a)) -> sim (m ≫= f).
Proof.
  intros Hm Hf oA oB HA HB Hsub. destruct (Hm oA oB HA HB Hsub) as [Hr Hok].
  unfold mbind, M_bind.
  destruct (m oA) as [rA oA'], (m oB) as [rB oB']. cbn [fst snd] in *. subst rB.
  destruct rA as [a|k w]; [|split; [reflexivity|discriminate]].
  destruct (Hok eq_refl) as (HA' & HB' & Hsub'). apply Hf; assumption.
Qed.

Lemma sim_forM {A} (l : list A) (body : A -> M Impl unit) :
  (forall x, sim (body x)) -> sim (forM_ l body).
Proof.
  intros Hbody. induction l as [|x l IH]; simpl.
  - apply sim_ret.
  - apply sim_bind; [apply Hbody|]. intros []. exact IH.
Qed.

Lemma well_formed_assign {T} `{ValTypeLaws T} (par : PARAMETERS) (vt : T) (o : Impl) :
  well_formed o -> slot_fits par (to_base vt) -> well_formed (slot_assign par vt o).
Proof.
  intros [Hspy Hall] Hfit. split; [exact Hspy|].
  unfold slot_assign, set_parlist. cbn [m_parlist].
  apply map_Forall_insert_2; assumption.
Qed.

Lemma sim_getValTypeForSet {T} `{ValTypeLaws T} {A} (par : PARAMETERS) (call : M T A) :
  value_type_enum (T := T) = partypes par ->
  slot_fits par (to_base (addUnitsForValType (T := T) ValType_new par)) ->
  oblivious par call ->
  sim (getValTypeForSet par call).
Proof.
  intros Hty Hnew Hobl oA oB HA HB Hsub.
  assert (Hslot : forall o vb, well_formed o -> m_parlist o !! par = Some vb ->
            exists vt : T, vb = to_base vt /\ of_base vb = Some vt /\ slot_fits par vb).
  { intros o vb [_ Hall] Hlk. pose proof (Hall par vb Hlk) as Hfit.
    destruct (of_base_dyn (T := T) vb) as [vt Hvt].
    - rewrite Hty. apply Hfit.
    - exists vt. split; [apply of_base_Some, Hvt|]. split; [exact Hvt|exact Hfit]. }
  assert (Hrun : forall o, well_formed o ->
            exists vt : T, slot_fits par (to_base vt)
              /\ getValTypeForSet par call o
                 = (fst (call vt), slot_assign par (snd (call vt)) o)
              /\ (forall vb, m_parlist o !! par = Some vb -> vb = to_base vt)).
  { intros o Ho. unfold getValTypeForSet, ensureNoSpy. unfold_M.
    destruct Ho as [Hspy Hall]. rewrite Hspy. cbn.
    destruct (m_parlist o !! par) as [vb|] eqn:Hlk.
    - destruct (Hslot o vb (conj Hspy Hall) Hlk) as (vt & -> & Hvt & Hfit).
      rewrite Hvt. exists vt. split; [exact Hfit|]. split; [|intros ? [= <-]; reflexivity].
      unfold through_slot. destruct (call vt); reflexivity.
    - exists (addUnitsForValType ValType_new par). split; [exact Hnew|].
      split; [|discriminate].
      unfold through_slot. destruct (call _) as [r vt']. cbn [fst snd].
      f_equal. unfold slot_assign, set_parlist. cbn. rewrite insert_insert_eq.
      reflexivity. }
  destruct (Hrun oA HA) as (vtA & HfA & -> & HlkA).
  destruct (Hrun oB HB) as (vtB & HfB & -> & HlkB).
  cbn [fst snd].
  destruct (m_parlist oA !! par) as [vb|] eqn:HlA.
  - pose proof (lookup_weaken _ _ _ _ HlA Hsub) as HlB.
    pose proof (HlkA vb eq_refl) as E1. pose proof (HlkB vb HlB) as E2.
    assert (vtA = vtB) as ->.
    { pose proof (of_to_base vtA) as E3. rewrite <- E1, E2, of_to_base in E3.
      congruence. }
    split; [reflexivity|]. intros Hok.
    destruct (Hobl vtB vtB HfB HfB) as [_ Hfit]. destruct (Hfit Hok) as [_ Hfit'].
    split; [apply well_formed_assign; assumption|].
    split; [apply well_formed_assign; assumption|].
    unfold slot_assign, set_parlist. cbn. apply insert_mono, Hsub.
  - destruct (Hobl vtA vtB HfA HfB) as [Hr Hfit]. split; [exact Hr|].
    rewrite <- Hr. intros Hok. destruct (Hfit Hok) as [Heq Hfit'].
    rewrite <- Heq.
    split; [apply well_formed_assign; assumption|].
    split; [apply well_formed_assign; assumption|].
    unfold slot_assign, set_parlist. cbn. apply insert_mono, Hsub.
Qed.

Lemma constant_oblivious {T} `{ValTypeLaws T} {A} (par : PARAMETERS) (call : M T A) :
  (forall vt : T, slot_fits par (to_base vt)) -> constant_call call -> oblivious par call.
Proof.
  intros Hfit Hc vt1 vt2 _ _. destruct (Hc vt1 vt2) as [Hr Hs].
  split; [exact Hr|]. intros Hok. split; [apply Hs, Hok|apply Hfit].
Qed.

Ltac constant_tac :=
  intros vt1 vt2; unfold_M;
  repeat (case_match; simplify_eq; cbn [fst snd is_Ok];
          try (split; [reflexivity|first [discriminate|intros _; reflexivity]]));
  try (cbn [fst snd is_Ok];
       split; [reflexivity|first [discriminate|intros _; reflexivity]]).

Lemma ValInt_set_from_strrep_constant (s : string) :
  constant_call (ValInt_set_from_strrep s).
Proof.
  unfold ValInt_set_from_strrep, ValInt_set. constant_tac.
Qed.

Lemma ValBool_set_constant (v : bool) : constant_call (ValBool_set v).
Proof. unfold ValBool_set. constant_tac. Qed.

Lemma ValBool_set_from_strrep_constant (s : string) :
  constant_call (ValBool_set_from_strrep s).
Proof. unfold ValBool_set_from_strrep. constant_tac. Qed.

Lemma ValStr_set_constant (s : string) : constant_call (ValStr_set s).
Proof. unfold ValStr_set. constant_tac. Qed.

Lemma ValVector_set_from_strrep_constant (s : string) :
  constant_call (ValVector_set_from_strrep s).
Proof.
  unfold ValVector_set_from_strrep, ValVector_set. constant_tac.
Qed.

Lemma ValOrientDir_set_from_strrep_constant (s : string) :
  constant_call (ValOrientDir_set_from_strrep s).
Proof.
  unfold ValOrientDir_set_from_strrep, ValOrientDir_set. constant_tac.
Qed.

Lemma ValAtomDB_set_lines_value (s : list (list string)) :
  forall (iline : nat) (v1 v2 : ValAtomDB),
    atomdb_value v1 = atomdb_value v2 ->
    fst (ValAtomDB_set_lines s iline v1) = fst (ValAtomDB_set_lines s iline v2)
    /\ atomdb_value (snd (ValAtomDB_set_lines s iline v1))
       = atomdb_value (snd (ValAtomDB_set_lines s iline v2)).
Proof.
  induction s as [|line rest IH]; intros iline v1 v2 Hv; cbn [ValAtomDB_set_lines].
  - split; [reflexivity|exact Hv].
  - destruct (bool_decide (line = [])); [apply IH, Hv|].
    unfold_M.
    destruct (forR_ line atomdb_check_word) as [[]|]; cbn [fst snd];
      [|split; [reflexivity|exact Hv]].
    destruct (validateAtomDBLine line); cbn [fst snd]; [|split; [reflexivity|exact Hv]].
    destruct (bool_decide (line = ["nodefaults"]) && (0 <? iline)%nat); cbn [fst snd];
      [split; [reflexivity|exact Hv]|].
    apply IH. cbn. rewrite Hv. reflexivity.
Qed.

Lemma ValAtomDB_set_from_strrep_constant (s : string) :
  constant_call (ValAtomDB_set_from_strrep s).
Proof.
  intros v1 v2. unfold ValAtomDB_set_from_strrep, ValAtomDB_set.
  set (lines := map _ _). unfold_M.
  destruct (ValAtomDB_set_lines_value lines 0
              (mkValAtomDB [] (atomdb_value_as_string v1))
              (mkValAtomDB [] (atomdb_value_as_string v2)) eq_refl) as [Hr Hv].
  destruct (ValAtomDB_set_lines lines 0 (mkValAtomDB [] (atomdb_value_as_string v1)))
    as [r1 w1].
  destruct (ValAtomDB_set_lines lines 0 (mkValAtomDB [] (atomdb_value_as_string v2)))
    as [r2 w2].
  cbn [fst snd] in *. subst r2. destruct r1; cbn; [|split; [reflexivity|discriminate]].
  split; [reflexivity|]. intros _. unfold ValAtomDB_to_strrep_impl. rewrite Hv.
  reflexivity.
Qed.

Lemma ValDbl_set_from_strrep_oblivious (par : PARAMETERS) (s : string) :
  partypes par = VALTYPE_DBL -> oblivious par (ValDbl_set_from_strrep s).
Proof.
  intros Hty [v1 u1 s1] [v2 u2 s2] [_ Hu1] [_ Hu2].
  cbn [to_base ValType_Dbl dbl_unittype] in Hu1, Hu2.
  rewrite <- Hu2 in Hu1. subst u2.
  unfold ValDbl_set_from_strrep, ValDbl_set. unfold_M. cbn [dbl_unittype dbl_value].
  repeat (case_match; simplify_eq; cbn [fst snd is_Ok dbl_unittype dbl_value];
          try (split; [reflexivity|discriminate])).
  all: split; [reflexivity|intros _; split; [reflexivity|]].
  all: split; [symmetry; exact Hty|first [exact Hu2|reflexivity|cbn; congruence]].
Qed.

Lemma sim_if {A} (b : bool) (m1 m2 : M Impl A) :
  sim m1 -> sim m2 -> sim (if b then m1 else m2).
Proof. destruct b; auto. Qed.

Lemma plain_slot_fits {T} `{ValTypeLaws T} (par : PARAMETERS) :
  value_type_enum (T := T) = partypes par ->
  value_type_enum (T := T) <> VALTYPE_DBL ->
  forall vt : T, slot_fits par (to_base vt).
Proof.
  intros Hty Hnd vt. pose proof (dyn_to_base vt) as Hd.
  split; [congruence|]. destruct (to_base vt); try exact I.
  cbn in Hd. congruence.
Qed.

Lemma sim_set_constant {T} `{ValTypeLaws T} (par : PARAMETERS) (call : M T unit) :
  value_type_enum (T := T) = partypes par ->
  value_type_enum (T := T) <> VALTYPE_DBL ->
  constant_call call ->
  sim (getValTypeForSet par call).
Proof.
  intros Hty Hnd Hc. apply sim_getValTypeForSet; [exact Hty| |].
  - apply plain_slot_fits; assumption.
  - apply constant_oblivious; [apply plain_slot_fits; assumption|exact Hc].
Qed.

Lemma sim_set_by_type (par : PARAMETERS) (value : string) :
  sim (match partypes par with
       | VALTYPE_DBL => getValTypeForSet par (ValDbl_set_from_strrep value)
       | VALTYPE_INT => getValTypeForSet par (ValInt_set_from_strrep value)
       | VALTYPE_BOOL => getValTypeForSet par (ValBool_set_from_strrep value)
       | VALTYPE_STR => getValTypeForSet par (ValStr_set_from_strrep value)
       | VALTYPE_ORIENTDIR => getValTypeForSet par (ValOrientDir_set_from_strrep value)
       | VALTYPE_VECTOR => getValTypeForSet par (ValVector_set_from_strrep value)
       | VALTYPE_ATOMDB => getValTypeForSet par (ValAtomDB_set_from_strrep value)
       end).
Proof.
  destruct (partypes par) eqn:Hty.
  - apply sim_getValTypeForSet; [symmetry; exact Hty| |].
    + split; [symmetry; exact Hty|reflexivity].
    + apply ValDbl_set_from_strrep_oblivious, Hty.
  - apply sim_set_constant; [symmetry; exact Hty|discriminate|].
    apply ValBool_set_from_strrep_constant.
  - apply sim_set_constant; [symmetry; exact Hty|discriminate|].
    apply ValInt_set_from_strrep_constant.
  - apply sim_set_constant; [symmetry; exact Hty|discriminate|].
    apply ValStr_set_constant.
  - apply sim_set_constant; [symmetry; exact Hty|discriminate|].
    apply ValOrientDir_set_from_strrep_constant.
  - apply sim_set_constant; [symmetry; exact Hty|discriminate|].
    apply ValVector_set_from_strrep_constant.
  - apply sim_set_constant; [symmetry; exact Hty|discriminate|].
    apply ValAtomDB_set_from_strrep_constant.
Qed.

Lemma sim_setValByStr (name value : string) : sim (setValByStr name value).
Proof.
  assert (Hidx : forall n, sim (
    paridx ← lift (strNameToParIdx n);
    if empty value && negb (bool_decide (partypes paridx = VALTYPE_STR))
    then raise BadInput ("Missing parameter value for parameter " +:+ n)
    else
      match partypes paridx with
      | VALTYPE_DBL => getValTypeForSet paridx (ValDbl_set_from_strrep value)
      | VALTYPE_INT => getValTypeForSet paridx (ValInt_set_from_strrep value)
      | VALTYPE_BOOL => getValTypeForSet paridx (ValBool_set_from_strrep value)
      | VALTYPE_STR => getValTypeForSet paridx (ValStr_set_from_strrep value)
      | VALTYPE_ORIENTDIR => getValTypeForSet paridx (ValOrientDir_set_from_strrep value)
      | VALTYPE_VECTOR => getValTypeForSet paridx (ValVector_set_from_strrep value)
      | VALTYPE_ATOMDB => getValTypeForSet paridx (ValAtomDB_set_from_strrep value)
      end)).
  { intros n. apply sim_bind; [apply sim_lift|]. intros par.
    apply sim_if; [apply sim_raise|apply sim_set_by_type]. }
  unfold setValByStr. cbv zeta.
  apply sim_if; [apply Hidx|].
  apply sim_if.
  { apply sim_bind; [apply sim_ret|]. intros [r tmp].
    apply sim_bind; [apply sim_lift|]. intros [].
    apply sim_bind; [|intros []];
      (apply sim_set_constant; [reflexivity|discriminate|apply ValBool_set_constant]). }
  apply sim_if; [|apply Hidx].
  apply sim_if; [|apply sim_raise].
  apply sim_bind; [|intros []].
  - apply sim_set_constant; [reflexivity|discriminate|apply ValBool_set_constant].
  - apply sim_set_constant; [reflexivity|discriminate|apply ValStr_set_constant].
Qed.

Lemma sim_applyStrCfg_part (part : string) :
  sim (applyStrCfg_part (OW := Owner_exclusive) part).
Proof.
  unfold applyStrCfg_part. cbn [cow via_m_impl Owner_exclusive]. cbv zeta.
  apply sim_if; [apply sim_ret|].
  apply sim_if; [apply sim_raise|].
  apply sim_if; [apply sim_raise|].
  apply sim_if; [apply sim_raise|].
  apply sim_bind; [apply sim_ret|]. intros []. apply sim_setValByStr.
Qed.

Lemma sim_applyStrCfg (str : string) : sim (applyStrCfg (OW := Owner_exclusive) str).
Proof.
  unfold applyStrCfg.
  apply sim_if; [apply sim_raise|].
  apply sim_if; [apply sim_raise|].
  apply sim_forM, sim_applyStrCfg_part.
Qed.

Lemma well_formed_new (o : Impl) :
  m_spies o = [] -> m_parlist o = ∅ -> well_formed o.
Proof. intros Hs Hp. split; [exact Hs|]. rewrite Hp. apply map_Forall_empty. Qed.

(** The slots which the user's parameters give to a new table are the
    slots of the table after the parameters of the file and the user's. *)
Lemma user_parameters_win (payload user : string) (o0 o1 o : Impl) :
  m_spies o0 = [] -> m_parlist o0 = ∅ ->
  applyStrCfg (OW := Owner_exclusive) payload o0 = (Ok tt, o1) ->
  applyStrCfg (OW := Owner_exclusive) user o1 = (Ok tt, o) ->
  exists oU, applyStrCfg (OW := Owner_exclusive) user o0 = (Ok tt, oU)
             /\ m_parlist oU ⊆ m_parlist o.
Proof.
  intros Hs Hp H1 H2. pose proof (well_formed_new o0 Hs Hp) as Hwf0.
  destruct (sim_applyStrCfg payload o0 o0 Hwf0 Hwf0 (reflexivity _)) as [_ Hok1].
  rewrite H1 in Hok1. destruct (Hok1 eq_refl) as (Hwf1 & _ & _). cbn [snd] in Hwf1.
  assert (Hsub : m_parlist o0 ⊆ m_parlist o1) by (rewrite Hp; apply map_empty_subseteq).
  destruct (sim_applyStrCfg user o0 o1 Hwf0 Hwf1 Hsub) as [Hr Hok].
  rewrite H2 in Hr, Hok. cbn [fst snd] in Hr, Hok.
  destruct (Hok eq_refl) as (_ & _ & Hsub').
  destruct (applyStrCfg user o0) as [r oU]. cbn [fst snd] in *. subst r.
  exists oU. split; [reflexivity|exact Hsub'].
Qed.

End UserWins.

Section Ctor.
Context `{Externals}.

(** *** The constructor *)

Lemma split_sep_cons (sep : ascii) (fuel : option nat) (s : string) :
  exists p ps, split_sep sep fuel s = p :: ps.
Proof.
  destruct s as [|c s]; destruct fuel as [[|n]|]; cbn [split_sep]; eauto;
    destruct (Ascii.eqb c sep); eauto; destruct (split_sep sep _ s); eauto.
Qed.

Lemma split_sep_length (sep : ascii) (s : string) :
  forall n, length (split_sep sep (Some n) s) <= S n.
Proof.
  induction s as [|c s IH]; intros [|n]; cbn [split_sep]; try (simpl; lia).
  destruct (Ascii.eqb c sep).
  - cbn. specialize (IH n). lia.
  - specialize (IH (S n)). destruct (split_sep sep (Some (S n)) s); simpl in *; lia.
Qed.

Lemma ctor_applyStrCfg_empty (o : Impl) : ctor_applyStrCfg "" o = Ok o.
Proof. reflexivity. Qed.

Lemma ctor_applyStrCfg_guard (str : string) (o : Impl) :
  (if negb (empty str) then ctor_applyStrCfg str o else Ok o) = ctor_applyStrCfg str o.
Proof. destruct str; [reflexivity|reflexivity]. Qed.

Lemma ctor_applyStrCfg_Ok (str : string) (o o' : Impl) :
  ctor_applyStrCfg str o = Ok o' <-> applyStrCfg (OW := Owner_exclusive) str o = (Ok tt, o').
Proof.
  unfold ctor_applyStrCfg. destruct (applyStrCfg str o) as [[[]|k w] o2]; split;
    congruence.
Qed.

(** The constructor on a file name which opens, without the keyword
    ignorefilecfg: the configuration of the file, then the user's. *)
Lemma MatCfg_new_order (cts : string -> option TextInputStream) (dp : string)
    (input : TextInputStream) :
  empty (input_file dp) = false ->
  contains (input_file dp) "=" = false ->
  cts (input_file dp) = Some input ->
  ignorefilecfg_specified dp = false ->
  MatCfg_new cts dp
  = (payload ← extractFileCfgStr input;
     o1 ← ctor_applyStrCfg payload (new_table (input_file dp) input);
     o ← ctor_applyStrCfg (input_params dp) o1;
     ext ← getDataFileExtension o;
     throw_if (empty ext) BadInput "Unsupported data file (can not determine extension)" ;;
     Ok o).
Proof.
  unfold ignorefilecfg_specified. unfold input_file, input_params, MatCfg_new, split.
  intros Hne Heq Hopen Hign. cbv zeta.
  destruct (split_sep_cons ";" (Some 1) (trim dp)) as (p & ps & Hsplit).
  pose proof (split_sep_length ";" (trim dp) 1) as Hlen.
  rewrite Hsplit in *. cbn [map nth length] in *.
  rewrite bool_decide_eq_false_2 by discriminate. cbn [orb].
  rewrite Hne, Heq, Hopen.
  destruct ps as [|user [|? ?]]; cbn [map nth length] in *; [| |lia].
  - cbn. unfold new_table. destruct (extractFileCfgStr input) as [payload|]; [|done].
    cbn. rewrite ctor_applyStrCfg_guard.
    destruct (ctor_applyStrCfg payload _); reflexivity.
  - cbn [nc_assert Nat.leb Nat.eqb mbind result_bind].
    destruct (split_sep_cons ";" (Some 1) (trim user)) as (p2 & ps2 & Hsplit2).
    rewrite Hsplit2 in *. cbn [map nth] in Hign. unfold ctor_parts2. cbn [map].
    rewrite Hign. cbn [negb]. unfold new_table.
    destruct (extractFileCfgStr input) as [payload|]; [|done].
    cbn [mbind result_bind]. rewrite ctor_applyStrCfg_guard.
    destruct (ctor_applyStrCfg payload _) as [o1|]; [|done].
    cbn [mbind result_bind]. rewrite ctor_applyStrCfg_guard. reflexivity.
Qed.

(** C6: for an input whose file name opens and whose parameters do not
    begin with ignorefilecfg, the constructor extracts the configuration
    embedded in the file, applies it to the new table and then applies
    the user's parameters to the result; when the file has exactly one
    marker, followed by a bracketed text, the configuration applied
    first is that text; every slot which the user's parameters alone
    would give to the new table is a slot of the table constructed, so
    a parameter set by the file and by the user reads as the user set
    it; and when the file has more than one marker the constructor
    throws BadInput. *)
Theorem C6_embedded_cfg (cts : string -> option TextInputStream) (dp : string)
    (input : TextInputStream) :
  empty (input_file dp) = false ->
  contains (input_file dp) "=" = false ->
  cts (input_file dp) = Some input ->
  ignorefilecfg_specified dp = false ->
  MatCfg_new cts dp
  = (payload ← extractFileCfgStr input;
     o1 ← ctor_applyStrCfg payload (new_table (input_file dp) input);
     o ← ctor_applyStrCfg (input_params dp) o1;
     ext ← getDataFileExtension o;
     throw_if (empty ext) BadInput "Unsupported data file (can not determine extension)" ;;
     Ok o)
  /\ (marker_count (ts_lines input) = 1 ->
      forall line text, line ∈ ts_lines input -> bracketed line text ->
        extractFileCfgStr input = Ok (trim text))
  /\ (forall o, MatCfg_new cts dp = Ok o ->
      exists oU,
        applyStrCfg (OW := Owner_exclusive) (input_params dp)
                    (new_table (input_file dp) input) = (Ok tt, oU)
        /\ m_parlist oU ⊆ m_parlist o)
  /\ (2 <= marker_count (ts_lines input) -> throws BadInput (MatCfg_new cts dp)).
Proof.
  intros Hne Heq Hopen Hign.
  pose proof (MatCfg_new_order cts dp input Hne Heq Hopen Hign) as Horder.
  split; [exact Horder|]. split; [|split].
  - intros Hone line text Hin Hb. exact (extract_one input line text Hone Hin Hb).
  - intros o. rewrite Horder.
    destruct (extractFileCfgStr input) as [payload|]; [|discriminate].
    cbn [mbind result_bind].
    destruct (ctor_applyStrCfg payload _) as [o1|] eqn:H1; [|discriminate].
    cbn [mbind result_bind].
    destruct (ctor_applyStrCfg (input_params dp) o1) as [o2|] eqn:H2; [|discriminate].
    cbn [mbind result_bind].
    destruct (getDataFileExtension o2) as [ext|]; [|discriminate].
    cbn [mbind result_bind]. destruct (throw_if _ _ _); [|discriminate].
    cbn [mbind result_bind]. intros [= <-].
    apply ctor_applyStrCfg_Ok in H1, H2.
    exact (user_parameters_win payload (input_params dp)
             (new_table (input_file dp) input) o1 o2 eq_refl eq_refl H1 H2).
  - intros Hsev. rewrite Horder.
    destruct (extract_several input Hsev) as [w ->]. by eexists.
Qed.

End Ctor.

(** ** Further properties of the configuration store *)

Section TableFacts.
Context `{Externals}.

Ltac unfold_M :=
  unfold mbind, mret, M_bind, M_ret, raise, lift, modify, get, put in *.

(** *** Names, setters and getters *)

(** X1: a name resolves to a parameter exactly when it is the name of
    that parameter in parnames, and the look-up of any other name throws
    BadInput. *)
Theorem strNameToParIdx_parnames (name : string) :
  (forall p, strNameToParIdx name = Ok p <-> parnames p = name)
  /\ (forall k w, strNameToParIdx name = Throw k w -> k = BadInput).
Proof.
  split.
  - intros p. split.
    + unfold strNameToParIdx. destruct (all_pars !! _) as [q|]; [|discriminate].
      destruct (String.eqb (parnames q) name) eqn:He; [|discriminate].
      cbn. intros [= <-]. by apply String.eqb_eq.
    + intros <-. by destruct p.
  - intros k w. unfold strNameToParIdx. repeat case_match; congruence.
Qed.

(** X2: on a well-formed table, setting a double parameter to a number
    which is not NaN returns, the getter of that parameter then gives
    the number whatever its default, the parameter counts as set, every
    other slot is as before and the table is again well formed. *)
Theorem set_then_get_dbl (par : PARAMETERS) (v dflt : double) (o : Impl) :
  partypes par = VALTYPE_DBL -> well_formed o -> ncisnan v = false ->
  exists o',
    setVal_Dbl par v o = (Ok tt, o')
    /\ getVal dbl_value o' par dflt = Ok v
    /\ hasPar o' par = true
    /\ (forall q, q <> par -> m_parlist o' !! q = m_parlist o !! q)
    /\ well_formed o'.
Proof.
  intros Hty [Hspy Hall] Hnan.
  assert (Hrun : exists u s,
    setVal_Dbl par v o
    = (Ok tt, slot_assign par (mkValDbl v u s) o)
    /\ u = dbl_unittype (addUnitsForValType (T := ValDbl) ValType_new par)).
  { unfold setVal_Dbl, getValTypeForSet, ensureNoSpy. unfold_M. rewrite Hspy. cbn.
    destruct (m_parlist o !! par) as [vb|] eqn:Hlk.
    - destruct (Hall par vb Hlk) as [Hd Hu]. destruct vb; cbn in Hd; try congruence.
      cbn. unfold through_slot, ValDbl_set. unfold_M. rewrite Hnan. cbn.
      eexists _, _. split; [reflexivity|exact Hu].
    - unfold through_slot, ValDbl_set. unfold_M. rewrite Hnan. cbn.
      eexists _, _. split; [|reflexivity].
      f_equal. unfold slot_assign, set_parlist. cbn. f_equal.
      rewrite insert_insert_eq. reflexivity. }
  destruct Hrun as (u & s & Hrun & Hu). eexists. split; [exact Hrun|].
  unfold slot_assign, set_parlist, getVal, getValType, hasPar, nc_assert. cbn.
  rewrite Hty. rewrite bool_decide_eq_true_2 by reflexivity. cbn.
  rewrite lookup_insert_eq. cbn. split; [reflexivity|].
  split; [first [reflexivity|apply bool_decide_eq_true_2; eauto]|].
  split; [intros q Hq; by rewrite lookup_insert_ne|].
  split; [exact Hspy|]. apply map_Forall_insert_2; [|exact Hall].
  split; [cbn; congruence|exact Hu].
Qed.

(** X3: setting a double parameter which is not set to NaN throws
    BadInput after the slot was created: the parameter now counts as
    set, holding the object of the default constructor with the units of
    the parameter. *)
Theorem failed_set_leaves_slot (par : PARAMETERS) (v : double) (o : Impl) :
  m_spies o = [] -> m_parlist o !! par = None -> ncisnan v = true ->
  exists w o',
    setVal_Dbl par v o = (Throw BadInput w, o')
    /\ hasPar o' par = true
    /\ m_parlist o' !! par
       = Some (VDbl (addUnitsForValType (T := ValDbl) ValType_new par)).
Proof.
  intros Hspy Hlk Hnan.
  unfold setVal_Dbl, getValTypeForSet, ensureNoSpy. unfold_M. rewrite Hspy. cbn.
  rewrite Hlk. unfold through_slot, ValDbl_set. unfold_M. rewrite Hnan. cbn.
  eexists _, _. split; [reflexivity|].
  unfold hasPar, slot_assign, set_parlist. cbn. rewrite !lookup_insert_eq.
  split; [first [reflexivity|apply bool_decide_eq_true_2; eauto]|reflexivity].
Qed.

Lemma filter_other_snoc (spy : nat) (l : list nat) :
  spy ∉ l -> List.filter (fun s => negb (Nat.eqb s spy)) (l ++ [spy]) = l.
Proof.
  induction l as [|x l IH]; intros Hl; cbn.
  - by rewrite Nat.eqb_refl.
  - apply not_elem_of_cons in Hl as [Hx Hl].
    destruct (Nat.eqb_spec x spy) as [->|_]; [done|]. cbn. by rewrite IH.
Qed.

(** X5: installing a spy which is not null and not yet installed
    succeeds and makes hasAccessSpy true; removing it then restores the
    table; installing it twice and removing a spy which was never
    installed both throw BadInput. *)
Theorem spy_add_remove (spy : nat) (o : Impl) :
  spy <> 0 -> hasAccessSpy o spy = false ->
  exists o1,
    addAccessSpy spy o = (Ok tt, o1)
    /\ hasAccessSpy o1 spy = true
    /\ removeAccessSpy spy o1 = (Ok tt, o)
    /\ throws BadInput (fst (addAccessSpy spy o1))
    /\ throws BadInput (fst (removeAccessSpy spy o)).
Proof.
  intros Hnz Hnot. unfold hasAccessSpy in Hnot. apply bool_decide_eq_false in Hnot.
  exists (set_spies (fun l => l ++ [spy]) o).
  assert (Hin : hasAccessSpy (set_spies (fun l => l ++ [spy]) o) spy = true).
  { apply bool_decide_eq_true. cbn. apply elem_of_app. right. apply elem_of_cons. by left. }
  assert (Hnot' : hasAccessSpy o spy = false) by (apply bool_decide_eq_false_2, Hnot).
  split; [|split; [exact Hin|split; [|split]]].
  - unfold addAccessSpy. unfold_M.
    destruct (Nat.eqb_spec spy 0) as [?|_]; [done|]. by rewrite Hnot'.
  - unfold removeAccessSpy. unfold_M. cbn.
    rewrite filter_other_snoc by exact Hnot. rewrite length_app. cbn.
    destruct (Nat.eqb_spec (length (m_spies o) + 1) (length (m_spies o))) as [?|_]; [lia|].
    unfold set_spies. cbn. rewrite filter_other_snoc by exact Hnot. by destruct o.
  - unfold addAccessSpy. unfold_M.
    destruct (Nat.eqb_spec spy 0) as [?|_]; [done|]. rewrite Hin. by eexists.
  - unfold removeAccessSpy. unfold_M. cbn.
    assert (Hid : List.filter (fun s => negb (Nat.eqb s spy)) (m_spies o) = m_spies o).
    { clear Hin Hnot'. induction (m_spies o) as [|x l IH]; [done|]. cbn.
      apply not_elem_of_cons in Hnot as [Hx Hl].
      destruct (Nat.eqb_spec x spy) as [->|_]; [done|]. cbn. by rewrite IH. }
    rewrite Hid, Nat.eqb_refl. by eexists.
Qed.

(** X9: the cache signature for a set of names is the same on two tables
    which agree on the slots of those names. *)
Theorem cache_signature_frame (o1 o2 : Impl) (pns : list string) :
  (forall name p, name ∈ pns -> strNameToParIdx name = Ok p ->
     m_parlist o1 !! p = m_parlist o2 !! p) ->
  getCacheSignature o1 pns = getCacheSignature o2 pns.
Proof.
  unfold getCacheSignature. generalize true as first.
  induction pns as [|name pns IH]; intros first Hsame; [reflexivity|].
  cbn [getCacheSignature_from].
  destruct (strNameToParIdx name) as [p|] eqn:Hp; [|reflexivity].
  cbn [mbind result_bind].
  rewrite (Hsame name p) by (done || apply elem_of_cons; by left).
  rewrite IH; [reflexivity|]. intros n q Hn. apply Hsame. apply elem_of_cons. by right.
Qed.

Lemma isOneOf_true_elim (s : string) (l : list string) :
  isOneOf s l = true -> s ∈ l.
Proof.
  unfold isOneOf. induction l as [|x l IH]; cbn; [done|].
  intros Ho. apply orb_prop in Ho as [He|Ho].
  - apply String.eqb_eq in He as ->. apply elem_of_cons. by left.
  - apply elem_of_cons. right. by apply IH.
Qed.

(** X7: the pseudo-parameter elas with one of the values true, 1, false,
    0 does what setting coh_elas and then incoh_elas to that value does;
    with any other value it throws BadInput and leaves the table as it
    is. *)
Theorem elas_sets_both (value : string) (o : Impl) :
  (isOneOf value ["true"; "1"; "false"; "0"] = true ->
   setValByStr "elas" value o
   = (setValByStr "coh_elas" value ;; setValByStr "incoh_elas" value) o)
  /\ (isOneOf value ["true"; "1"; "false"; "0"] = false ->
      exists w, setValByStr "elas" value o = (Throw BadInput w, o)).
Proof.
  split.
  - intros Hv. apply isOneOf_true_elim in Hv.
    repeat (apply elem_of_cons in Hv as [->|Hv]); [reflexivity..|].
    by apply elem_of_nil in Hv.
  - unfold isOneOf. cbn [existsb]. intros Hv.
    repeat (apply orb_false_elim in Hv as [? Hv]).
    unfold setValByStr. cbn -[ValBool_set_from_strrep setVal_Bool].
    unfold ValBool_set_from_strrep. unfold_M.
    repeat match goal with Hx : String.eqb value _ = false |- _ => rewrite Hx; clear Hx end.
    cbn. by eexists.
Qed.

Lemma forallb_map_to_list {A} (P : string -> bool) (m : gmap string A) k v :
  forallb (fun kv => P (fst kv)) (map_to_list m) = true -> m !! k = Some v -> P k = true.
Proof.
  intros Hall Hk. rewrite forallb_forall in Hall.
  apply (Hall (k, v)). apply list_elem_of_In. by apply elem_of_map_to_list.
Qed.

Lemma validated_flag (s : string) (recognised_opts : list string) (flagname : string) :
  decodedopt_validate s recognised_opts = Ok tt ->
  decodeopt_flag s flagname = Ok true ->
  flagname ∈ recognised_opts.
Proof.
  unfold decodedopt_validate, decodeopt_flag.
  destruct (negb (contains s ":")); [discriminate|].
  destruct (decodeopts s true) as [m|]; [|discriminate]. cbn [mbind result_bind].
  destruct (forallb _ _) eqn:Hall; [|discriminate]. intros _.
  destruct (m !! flagname) as [v|] eqn:Hk; [|discriminate]. intros _.
  pose proof (forallb_map_to_list (fun k => bool_decide (k ∈ recognised_opts)) m _ _ Hall Hk)
    as Hin.
  by apply bool_decide_eq_true in Hin.
Qed.

(** X17: when infofactopt_validate accepts the options of infofactory
    for a set of recognised names, every flag which get_infofactopt_flag
    reports as set is one of those names. *)
Theorem flag_is_recognised (o : Impl) (recognised_opts : list string)
    (flagname : string) :
  infofactopt_validate o recognised_opts = Ok tt ->
  get_infofactopt_flag o flagname = Ok true ->
  flagname ∈ recognised_opts.
Proof.
  unfold infofactopt_validate, get_infofactopt_flag.
  destruct (get_infofactory o) as [s|]; [|discriminate]. cbn [mbind result_bind].
  apply validated_flag.
Qed.

(** X18: when createInfo gets as far as loadNCMAT, the extension of the
    data file is ncmat, the variables passed on are what the getters
    give, and expandhkl is the only flag that can be set in
    infofactory. *)
Theorem createInfo_accepts (cfg : Impl) (vars : NCMATCfgVars) :
  createInfo_cfgvars cfg = Ok vars ->
  getDataFileExtension cfg = Ok "ncmat"
  /\ get_temp cfg = Ok (cv_temp vars)
  /\ get_dcutoff cfg = Ok (cv_dcutoff vars)
  /\ get_dcutoffup cfg = Ok (cv_dcutoffup vars)
  /\ get_atomdb_parsed cfg = Ok (cv_atomdb vars)
  /\ get_infofactopt_flag cfg "expandhkl" = Ok (cv_expandhkl vars)
  /\ (forall flagname, get_infofactopt_flag cfg flagname = Ok true ->
        flagname = "expandhkl").
Proof.
  unfold createInfo_cfgvars, canCreateInfo.
  destruct (getDataFileExtension cfg) as [ext|]; [|discriminate]. cbn [mbind result_bind].
  destruct (String.eqb ext "ncmat") eqn:Hext; [|discriminate].
  apply String.eqb_eq in Hext as ->. cbn [nc_assert Z.eqb negb mbind result_bind].
  destruct (infofactopt_validate cfg ["expandhkl"]) as [[]|] eqn:Hval; [|discriminate].
  cbn [mbind result_bind].
  destruct (get_temp cfg); [|discriminate]. cbn [mbind result_bind].
  destruct (get_dcutoff cfg); [|discriminate]. cbn [mbind result_bind].
  destruct (get_dcutoffup cfg); [|discriminate]. cbn [mbind result_bind].
  destruct (get_infofactopt_flag cfg "expandhkl") eqn:Hflag; [|discriminate].
  cbn [mbind result_bind].
  destruct (get_atomdb_parsed cfg); [|discriminate]. cbn [mbind result_bind].
  intros [= <-]. cbn. repeat (split; [reflexivity|]).
  intros flagname Hf. unfold infofactopt_validate, get_infofactopt_flag in Hval, Hf.
  destruct (get_infofactory cfg) as [s|]; [|discriminate]. cbn [mbind result_bind] in *.
  pose proof (validated_flag s _ _ Hval Hf) as Hin.
  apply elem_of_cons in Hin as [->|Hin]; [done|]. by apply elem_of_nil in Hin.
Qed.

Lemma ValAtomDB_set_lines_ok (s : list (list string)) :
  forall (v v' : ValAtomDB),
    atomdb_lines_ok (atomdb_value v) ->
    ValAtomDB_set_lines s (length (atomdb_value v)) v = (Ok tt, v') ->
    atomdb_lines_ok (atomdb_value v').
Proof.
  induction s as [|line rest IH]; intros v v' Hok; cbn [ValAtomDB_set_lines].
  - unfold_M. by intros [= <-].
  - destruct (bool_decide (line = [])) eqn:Hempty; [by apply IH|].
    apply bool_decide_eq_false in Hempty. unfold_M.
    destruct (forR_ line atomdb_check_word) as [[]|]; [|discriminate].
    destruct (validateAtomDBLine line) eqn:Hval; [|discriminate].
    destruct (bool_decide (line = ["nodefaults"]) && (0 <? length (atomdb_value v))%nat)
      eqn:Hnd; [discriminate|].
    intros Hrun. eapply (IH (mkValAtomDB (atomdb_value v ++ [line]) _)).
    2:{ cbn. rewrite length_app. cbn. rewrite Nat.add_1_r. exact Hrun. }
    cbn. destruct Hok as [Hall Hfirst]. split.
    + apply Forall_app. split; [exact Hall|]. by apply Forall_singleton.
    + intros i Hi. apply lookup_app_Some in Hi as [Hi|[Hge Hi]]; [by apply Hfirst|].
      apply list_lookup_singleton_Some in Hi as [Hi ->].
      rewrite bool_decide_eq_true_2 in Hnd by reflexivity. cbn [andb] in Hnd.
      apply Nat.ltb_ge in Hnd. lia.
Qed.

(** X15: when ValAtomDB::set_from_strrep returns, no stored line is
    empty, every stored line passed validateAtomDBLine, the line
    nodefaults is nowhere but first, and the string form is the lines
    joined by @ with their words joined by colons. *)
Theorem atomdb_stored_lines (s : string) (v v' : ValAtomDB) :
  ValAtomDB_set_from_strrep s v = (Ok tt, v') ->
  atomdb_lines_ok (atomdb_value v')
  /\ atomdb_value_as_string v'
     = String.concat "@" (map (fun line => joinstr line ":") (atomdb_value v')).
Proof.
  unfold ValAtomDB_set_from_strrep, ValAtomDB_set. set (lines := map _ _). unfold_M.
  destruct (ValAtomDB_set_lines lines 0 (mkValAtomDB [] (atomdb_value_as_string v)))
    as [[[]|] w] eqn:Hrun; [|discriminate].
  intros [= <-]. cbn. split; [|reflexivity].
  eapply (ValAtomDB_set_lines_ok lines (mkValAtomDB [] _)); [|exact Hrun].
  split; [constructor|]. intros i Hi. cbn in Hi. by destruct i.
Qed.

Lemma unit_switch_unknown (ut : UnitType) (unit : string) :
  isOneOf unit (units_of ut) = false -> unit_switch ut unit = ((-1.0)%float, 0.0%float).
Proof.
  unfold isOneOf. destruct ut; cbn [units_of existsb unit_switch]; intros Hu;
    repeat (apply orb_false_elim in Hu as [? Hu]);
    repeat match goal with Hx : String.eqb unit _ = false |- _ => rewrite Hx; clear Hx end;
    reflexivity.
Qed.

(** X16: a number followed by letters which are not a unit of the unit
    type of the parameter throws BadInput and leaves the value object as
    it is. *)
Theorem invalid_unit (d : ValDbl) (num unit : string) :
  dbl_unittype d <> UnitNone ->
  bare_number num = true ->
  unit_suffix unit = true ->
  isOneOf unit (units_of (dbl_unittype d)) = false ->
  ValDbl_set_from_strrep (num +:+ unit) d = (Throw BadInput "Invalid unit", d).
Proof.
  intros Hut Hnum Hunit Hsw. apply unit_switch_unknown in Hsw.
  apply bare_number_first in Hnum as (Hf & Hl & Hna & Hne).
  apply unit_suffix_facts in Hunit as (Hue & Hua & Hul & Hulw).
  assert (trim (num +:+ unit) = num +:+ unit) as Htrim.
  { apply trim_id; [by rewrite first_chr_append|by rewrite last_chr_append]. }
  unfold ValDbl_set_from_strrep. unfold_M.
  rewrite Htrim.
  rewrite (bool_decide_eq_false_2 _ Hut).
  rewrite last_chr_append by done. rewrite Hul.
  rewrite length_append.
  assert ((1 <? String.length num + String.length unit)%nat = true) as ->.
  { apply Nat.ltb_lt. destruct num, unit; simpl in *; try done; lia. }
  cbn [negb andb].
  rewrite (unit_begin_after_number num unit (String.length unit) Hna Hua (le_n _)).
  rewrite substr_from_app, Hsw. reflexivity.
Qed.


(** *** Consistency validation *)

Ltac step H :=
  match type of H with
  | (?m ≫= _) = Ok _ =>
      let E := fresh "E" in
      destruct m eqn:E; cbn [mbind result_bind] in H; [|discriminate H]
  end.

Lemma throw_if_Ok (c : bool) k w u : throw_if c k w = Ok u -> c = false.
Proof. by destruct c. Qed.

(** X8: when checkConsistency accepts a configuration in which one of
    mos, dir1, dir2, dirtol is set, then mos, dir1 and dir2 are all set
    and packfact compares equal to 1. *)
Theorem single_crystal_needs_all (o : Impl) :
  checkConsistency o = Ok tt -> isSingleCrystal o = true ->
  hasPar o PAR_mos = true /\ hasPar o PAR_dir1 = true /\ hasPar o PAR_dir2 = true
  /\ exists pf, get_packfact o = Ok pf /\ (pf =? 1.0)%float = true.
Proof.
  intros Hc Hsc. unfold checkConsistency in Hc. cbv zeta in Hc.
  unfold isSingleCrystal in Hsc.
  do 6 step Hc. repeat step Hc.
  repeat match goal with
         | E : throw_if _ _ _ = Ok _ |- _ => apply throw_if_Ok in E
         end.
  destruct (hasPar o PAR_mos), (hasPar o PAR_dir1), (hasPar o PAR_dir2),
    (hasPar o PAR_dirtol); cbn in *; try discriminate.
  all: split; [reflexivity|]; split; [reflexivity|]; split; [reflexivity|].
  all: eexists; split; [reflexivity|].
  all: match goal with
       | E : (_ ≫= _) = Ok _ |- _ => step E; step E; step E
       end.
  all: match goal with
       | E : throw_if (negb (_ =? 1.0)%float) _ _ = Ok _ |- _ =>
           apply throw_if_Ok in E; by apply negb_false_iff in E
       end.
Qed.


(** X12: with the keyword ignorefilecfg the constructor does not read the
    lines of the file: it applies the parameters after the keyword to a
    new table marked as ignoring the embedded configuration. *)
Theorem ignorefilecfg_skips_file (cts : string -> option TextInputStream) (dp : string)
    (input : TextInputStream) :
  empty (input_file dp) = false ->
  contains (input_file dp) "=" = false ->
  cts (input_file dp) = Some input ->
  ignorefilecfg_specified dp = true ->
  MatCfg_new cts dp
  = (o ← ctor_applyStrCfg (params_after_keyword dp)
                          (new_table_ignoring (input_file dp) input);
     ext ← getDataFileExtension o;
     throw_if (empty ext) BadInput "Unsupported data file (can not determine extension)" ;;
     Ok o).
Proof.
  unfold params_after_keyword, ignorefilecfg_specified.
  unfold input_file, input_params, MatCfg_new, split.
  intros Hne Heq Hopen Hign. cbv zeta.
  destruct (split_sep_cons ";" (Some 1) (trim dp)) as (p & ps & Hsplit).
  pose proof (split_sep_length ";" (trim dp) 1) as Hlen.
  rewrite Hsplit in *. cbn [map nth length] in *.
  rewrite bool_decide_eq_false_2 by discriminate. cbn [orb].
  rewrite Hne, Heq, Hopen.
  destruct ps as [|user [|? ?]]; cbn [map nth length] in *; [| |lia].
  - vm_compute in Hign. discriminate.
  - cbn [nc_assert Nat.leb Nat.eqb mbind result_bind].
    destruct (split_sep_cons ";" (Some 1) (trim user)) as (p2 & ps2 & Hsplit2).
    pose proof (split_sep_length ";" (trim user) 1) as Hlen2.
    rewrite Hsplit2 in *. cbn [map nth length] in *. unfold ctor_parts2. cbn [map].
    rewrite Hign. cbn [negb length]. unfold new_table_ignoring.
    destruct ps2 as [|extra [|? ?]]; cbn [map nth length Nat.eqb] in *; [| |lia].
    + reflexivity.
    + cbn [negb mbind result_bind]. rewrite ctor_applyStrCfg_guard. reflexivity.
Qed.

End TableFacts.

Section StringFacts.

Lemma isSimpleASCII_app (a b : string) (t n : bool) :
  isSimpleASCII (a +:+ b) t n = isSimpleASCII a t n && isSimpleASCII b t n.
Proof.
  induction a as [|c a IH]; [reflexivity|]. rewrite append_cons. cbn [isSimpleASCII].
  rewrite IH. by rewrite andb_assoc.
Qed.

Lemma contains_any_app (a b needles : string) :
  contains_any (a +:+ b) needles = contains_any a needles || contains_any b needles.
Proof.
  induction a as [|c a IH]; [reflexivity|]. rewrite append_cons. cbn [contains_any].
  rewrite IH. by rewrite orb_assoc.
Qed.

Lemma split_sep_app (sep : ascii) (a b : string) :
  split_sep sep None (a +:+ String sep b)
  = split_sep sep None a ++ split_sep sep None b.
Proof.
  induction a as [|c a IH].
  - rewrite append_nil_l. cbn [split_sep]. by rewrite Ascii.eqb_refl.
  - rewrite append_cons. cbn [split_sep]. cbn [fmap option_fmap option_map].
    destruct (Ascii.eqb c sep); [by rewrite IH|].
    rewrite IH. destruct (split_sep_cons sep None a) as (p & ps & ->). reflexivity.
Qed.

End StringFacts.

Section ComposeFacts.
Context `{Externals} {S : Type} {OW : Owner S}.

(** *** Parameter strings *)

Lemma forM_app {A} (l1 l2 : list A) (body : A -> M S unit) (s : S) :
  forM_ (l1 ++ l2) body s = (forM_ l1 body ;; forM_ l2 body) s.
Proof.
  revert s. induction l1 as [|x l1 IH]; intros s; cbn [app forM_].
  - reflexivity.
  - unfold mbind, M_bind in *. destruct (body x s) as [[[]|k w] s']; [apply IH|reflexivity].
Qed.

(** X6: applying two parameter strings joined by a semicolon is applying
    the first and then the second, when the second has admissible
    characters only. *)
Theorem applyStrCfg_concat (a b : string) (s : S) :
  isSimpleASCII b true true = true ->
  contains_any b NCMATCFG_FORBIDDEN_CHARS = false ->
  applyStrCfg (a +:+ ";" +:+ b) s = (applyStrCfg a ;; applyStrCfg b) s.
Proof.
  intros Hb1 Hb2. unfold applyStrCfg.
  change (a +:+ ";" +:+ b) with (a +:+ String ";" b).
  rewrite isSimpleASCII_app, contains_any_app.
  cbn [isSimpleASCII contains_any]. rewrite Hb1, Hb2.
  replace (isSimpleASCII a true true && _) with (isSimpleASCII a true true)
    by (destruct (isSimpleASCII a true true); reflexivity).
  replace (contains_any a NCMATCFG_FORBIDDEN_CHARS || _)
    with (contains_any a NCMATCFG_FORBIDDEN_CHARS)
    by (destruct (contains_any a NCMATCFG_FORBIDDEN_CHARS); reflexivity).
  destruct (negb (isSimpleASCII a true true)); [reflexivity|].
  destruct (contains_any a NCMATCFG_FORBIDDEN_CHARS); [reflexivity|].
  unfold split. rewrite split_sep_app. cbn [negb]. apply forM_app.
Qed.

End ComposeFacts.

Section ExtractFacts.
Context `{Externals}.

(** *** The configuration embedded in a file *)

Lemma loop_throws_BadInput (lines : list string) :
  forall res k w, extractFileCfgStr_loop lines res = Throw k w -> k = BadInput.
Proof.
  induction lines as [|line lines IH]; intros res k w; cbn [extractFileCfgStr_loop].
  - discriminate.
  - destruct (extractFileCfgStr_line line res) as [r|k' w'] eqn:Hl; cbn.
    + apply IH.
    + intros [= <- <-]. by apply line_throws_BadInput in Hl.
Qed.

(** X11: extractFileCfgStr gives the empty string on a file without
    marker, and whatever it throws is a BadInput on a file with at least
    one marker. *)
Theorem extractFileCfgStr_errors (input : TextInputStream) :
  (marker_count (ts_lines input) = 0 -> extractFileCfgStr input = Ok "")
  /\ (forall k w, extractFileCfgStr input = Throw k w ->
        k = BadInput /\ 1 <= marker_count (ts_lines input)).
Proof.
  unfold extractFileCfgStr. split.
  - intros Hc. by rewrite loop_unmarked.
  - intros k w Hthrow.
    destruct (extractFileCfgStr_loop (ts_lines input) "") as [r|k' w'] eqn:Hl;
      [discriminate|]. cbn in Hthrow. injection Hthrow as <- <-.
    split; [by apply loop_throws_BadInput in Hl|].
    destruct (marker_count (ts_lines input)) eqn:Hc; [|lia].
    rewrite loop_unmarked in Hl by done. discriminate.
Qed.

Lemma prefix_append (a b : string) : String.prefix a (a +:+ b) = true.
Proof.
  induction a as [|c a IH]; [by destruct b|]. rewrite append_cons. cbn.
  by destruct (Ascii.ascii_dec c c).
Qed.

Lemma marker_count_app (l1 l2 : list string) :
  marker_count (l1 ++ l2) = marker_count l1 + marker_count l2.
Proof.
  unfold marker_count. rewrite map_app. induction (map _ l1); cbn; lia.
Qed.

(** X10: a file whose only marked line is the text of toEmbeddableCfg
    gives back, by extractFileCfgStr, the trimmed text of toStrCfg, when
    that text holds no closing bracket and no marker. *)
Theorem embeddable_round_trip (o : Impl) (pre post : list string) (path : string) :
  marker_count pre = 0 -> marker_count post = 0 ->
  contains (toStrCfg o false None) "]" = false ->
  find ("[" +:+ toStrCfg o false None +:+ "]") pattern = None ->
  extractFileCfgStr (mkStream (pre ++ toEmbeddableCfg o :: post) path)
  = Ok (trim (toStrCfg o false None)).
Proof.
  intros Hpre Hpost Hbr Hpat. unfold toEmbeddableCfg.
  generalize dependent (toStrCfg o false None). intros cfg Hbr Hpat.
  set (line := "NCRYSTALMATCFG[" +:+ cfg +:+ "]").
  assert (Hline : line = pattern +:+ ("[" +:+ cfg +:+ "]")) by reflexivity.
  assert (Hf : find line pattern = Some 0).
  { rewrite find_eq, Hline. by rewrite prefix_append. }
  assert (Hrest : substr_from (0 + String.length pattern) line
                  = "[" +:+ cfg +:+ "]").
  { rewrite Hline. apply substr_from_app. }
  apply (extract_one _ line cfg).
  - cbn [ts_lines]. rewrite marker_count_app, marker_count_cons, Hpre, Hpost.
    rewrite (marked_line _ _ Hf), Hrest.
    by rewrite (markers_in_unmarked _ _ Hpat).
  - cbn [ts_lines]. apply elem_of_app. right. apply elem_of_cons. by left.
  - exists 0, "". split; [exact Hf|]. split; [|exact Hbr].
    rewrite Hrest. by rewrite append_empty_r.
Qed.

End ExtractFacts.

Section HeapFacts.
Context `{Externals}.

Ltac unfold_M :=
  unfold mbind, mret, M_bind, M_ret, raise, lift, modify, get, put in *.

(** *** Handles and monitored tables *)

Lemma frozen_ret {A} (a : A) : frozen (mret a).
Proof. by intros o _. Qed.
Lemma frozen_raise {A} k w : frozen (raise (A := A) k w).
Proof. by intros o _. Qed.
Lemma frozen_lift {A} (r : result A) : frozen (lift r).
Proof. by intros o _. Qed.
Lemma frozen_get : frozen get.
Proof. by intros o _. Qed.

Lemma frozen_bind {A B} (m : M Impl A) (f : A -> M Impl B) :
  frozen m -> (forall a, frozen (f a)) -> frozen (m ≫= f).
Proof.
  intros Hm Hf o Ho. specialize (Hm o Ho). unfold mbind, M_bind.
  destruct (m o) as [[a|k w] o']; cbn in Hm; subst o'; [|reflexivity].
  apply Hf, Ho.
Qed.

Lemma frozen_if {A} (b : bool) (m1 m2 : M Impl A) :
  frozen m1 -> frozen m2 -> frozen (if b then m1 else m2).
Proof. by destruct b. Qed.

Lemma frozen_getValTypeForSet {T} `{ValType T} {A} (par : PARAMETERS) (call : M T A) :
  frozen (getValTypeForSet par call).
Proof.
  intros o Ho. unfold getValTypeForSet, ensureNoSpy. unfold_M.
  by rewrite (bool_decide_eq_false_2 _ Ho).
Qed.

Lemma frozen_setValByStr (name value : string) : frozen (setValByStr name value).
Proof.
  unfold setValByStr. cbv zeta.
  assert (Hby : forall T (HT : ValType T) p (c : M T unit), frozen (getValTypeForSet p c))
    by (intros; apply frozen_getValTypeForSet).
  repeat apply frozen_if;
    repeat first
      [ apply frozen_raise | apply frozen_ret | apply frozen_lift
      | apply frozen_getValTypeForSet
      | apply frozen_bind; [|intros ?]
      | match goal with |- frozen (match ?x with _ => _ end) => destruct x end ].
Qed.

Lemma frozen_Impl_setOrientation (sco : SCOrientation) : frozen (Impl_setOrientation sco).
Proof.
  unfold Impl_setOrientation.
  repeat first [ apply frozen_getValTypeForSet | apply frozen_bind; [|intros ?] ].
Qed.

Section Monitored.
Variables (hp : Heap) (h : Handle) (k : nat) (o : Impl).
Hypothesis Hlive : hp !! m_impl h = Some (mkRC k o).
Hypothesis Hspy : m_spies o <> [].

Lemma cow_monitored : hoare (eq (hp, h)) cow (fun _ => eq (hp, h)) (eq (hp, h)).
Proof using Hlive Hspy.
  intros s <-. cbn [cow Owner_heap]. unfold heap_cow. rewrite Hlive. cbn.
  destruct (Nat.eqb k 1); [reflexivity|].
  unfold Impl_copy, ensureNoSpy. unfold_M. by rewrite (bool_decide_eq_false_2 _ Hspy).
Qed.

Lemma via_m_impl_monitored {A} (call : M Impl A) :
  frozen call ->
  hoare (eq (hp, h)) (via_m_impl call) (fun _ => eq (hp, h)) (eq (hp, h)).
Proof using Hlive Hspy.
  intros Hc s <-. cbn [via_m_impl Owner_heap]. unfold heap_via_m_impl. rewrite Hlive. cbn.
  specialize (Hc o Hspy). destruct (call o) as [r o']. cbn in Hc. subst o'.
  rewrite insert_id by exact Hlive. by destruct r.
Qed.

Lemma setter_monitored {A} (call : M Impl A) :
  frozen call ->
  hoare (eq (hp, h)) (cow ;; via_m_impl call) (fun _ => eq (hp, h)) (eq (hp, h)).
Proof using Hlive Hspy.
  intros Hc. eapply hoare_bind; [apply cow_monitored|]. intros [].
  by apply via_m_impl_monitored.
Qed.

Lemma call_setter_monitored (f : Setter) :
  hoare (eq (hp, h)) (call_setter f) (fun _ => eq (hp, h)) (eq (hp, h)).
Proof using Hlive Hspy.
  destruct f; cbn [call_setter];
    try (apply setter_monitored; apply frozen_getValTypeForSet).
  - unfold setOrientation. destruct (negb _); [by apply hoare_raise|].
    eapply hoare_bind; [apply cow_monitored|]. intros [].
    eapply hoare_bind; [apply via_m_impl_monitored, frozen_Impl_setOrientation|].
    intros []. apply via_m_impl_monitored.
    apply frozen_bind; [apply frozen_get|intros ?; apply frozen_lift].
  - unfold applyStrCfg.
    destruct (negb _); [by apply hoare_raise|].
    destruct (contains_any _ _); [by apply hoare_raise|].
    apply hoare_forM. intros part. unfold applyStrCfg_part. cbv zeta.
    repeat match goal with
           | |- hoare _ (if ?b then _ else _) _ _ => destruct b
           end;
      try (by apply hoare_raise); try (by apply hoare_ret).
    apply setter_monitored, frozen_setValByStr.
Qed.

End Monitored.

(** X4: a modifier called through a handle whose table is monitored by
    an access spy leaves the store and the handle exactly as they were,
    whatever it returns or throws. *)
Theorem monitored_table_is_frozen (f : Setter) (hp : Heap) (h : Handle) (k : nat)
    (o : Impl) :
  hp !! m_impl h = Some (mkRC k o) -> m_spies o <> [] ->
  snd (call_setter f (hp, h)) = (hp, h).
Proof.
  intros Hlive Hspy.
  pose proof (call_setter_monitored hp h k o Hlive Hspy f (hp, h) eq_refl) as Hf.
  destruct (call_setter f (hp, h)) as [[[]|kk w] s']; by subst s'.
Qed.

Lemma incr_unsigned_below (k : nat) :
  (N.of_nat k < UINT_MAX)%N -> incr_unsigned k = S k.
Proof.
  intros Hk. unfold incr_unsigned. destruct (N.eqb_spec (N.of_nat k) UINT_MAX); [lia|done].
Qed.

Lemma unref_ref (hp : Heap) (a k : nat) (o : Impl) :
  hp !! a = Some (mkRC k o) -> 0 < k -> (N.of_nat k < UINT_MAX)%N ->
  unref a (ref a hp) = hp.
Proof.
  intros Hlive Hk Hmax. unfold unref, ref. rewrite lookup_alter_eq, Hlive.
  cbn [fmap option_fmap option_map m_refCount rc_obj].
  rewrite incr_unsigned_below by done.
  replace (S k - 1) with k by lia.
  destruct (Nat.eqb_spec k 0) as [?|_]; [lia|].
  apply map_eq. intros i. destruct (decide (i = a)) as [->|Hne].
  - by rewrite lookup_insert_eq.
  - rewrite lookup_insert_ne by done. by rewrite lookup_alter_ne.
Qed.

(** X13: for a table whose count is positive and below the largest
    value of the unsigned counter, copying a handle raises the count by
    one and destroying the copy restores the store; assigning a handle to
    itself changes nothing; destroying the only handle of a table frees
    it. At the largest value the increment of the copy wraps the count
    to 0. *)
Theorem copy_assign_destroy (hp : Heap) (h : Handle) (k : nat) (o : Impl) :
  hp !! m_impl h = Some (mkRC k o) -> 0 < k ->
  if (N.of_nat k <? UINT_MAX)%N
  then
    (let '(hp1, h1) := copy_handle h hp in
     m_impl h1 = m_impl h
     /\ hp1 !! m_impl h = Some (mkRC (S k) o)
     /\ MatCfg_destroy h1 hp1 = hp)
    /\ MatCfg_assign h h hp = (hp, h)
    /\ (k = 1 -> MatCfg_destroy h hp !! m_impl h = None)
  else
    N.of_nat k = UINT_MAX ->
    fst (copy_handle h hp) !! m_impl h = Some (mkRC 0 o).
Proof.
  intros Hlive Hk. unfold copy_handle, MatCfg_destroy, MatCfg_assign. cbn [m_impl fst].
  destruct (N.ltb_spec (N.of_nat k) UINT_MAX) as [Hmax|Hmax].
  - split; [split; [reflexivity|split]|split].
    + unfold ref. rewrite lookup_alter_eq, Hlive. cbn. by rewrite incr_unsigned_below.
    + by apply (unref_ref hp _ k o).
    + rewrite (unref_ref hp _ k o) by done. by destruct h.
    + intros ->. unfold unref. rewrite Hlive. cbn. by rewrite lookup_delete_eq.
  - intros Heq. unfold ref. rewrite lookup_alter_eq, Hlive. cbn.
    unfold incr_unsigned. by rewrite Heq, N.eqb_refl.
Qed.

(** X14: cow on a live handle whose table is not monitored returns with
    the handle on a table of count 1 which holds what the table held, a
    second cow changes nothing, and the tables at other addresses are
    untouched. *)
Theorem cow_makes_exclusive (hp : Heap) (h : Handle) (k : nat) (o : Impl) :
  hp !! m_impl h = Some (mkRC k o) -> 0 < k -> m_spies o = [] ->
  exists hp' h',
    heap_cow (hp, h) = (Ok tt, (hp', h'))
    /\ hp' !! m_impl h' = Some (mkRC 1 o)
    /\ heap_cow (hp', h') = (Ok tt, (hp', h'))
    /\ (forall a, a <> m_impl h -> a <> m_impl h' -> hp' !! a = hp !! a).
Proof.
  intros Hlive Hk Hspy. unfold heap_cow at 1. rewrite Hlive. cbn [m_refCount rc_obj].
  destruct (Nat.eqb_spec k 1) as [->|Hne].
  - exists hp, h. split; [reflexivity|]. split; [exact Hlive|].
    split; [|done]. unfold heap_cow. by rewrite Hlive.
  - unfold Impl_copy, ensureNoSpy. unfold_M. rewrite Hspy. cbn.
    set (new := fresh (dom hp)).
    assert (Hnew : hp !! new = None) by (apply not_elem_of_dom, is_fresh).
    assert (Hne' : new <> m_impl h) by (intros E; rewrite E, Hlive in Hnew; done).
    assert (Ho : mkImpl [] (m_datafile_resolved o) (m_datafile_orig o) (m_datafileext o)
                        (m_ignoredfilecfg o) (m_parlist o) = o)
      by (destruct o; cbn in *; by subst).
    rewrite Ho. eexists _, _. split; [reflexivity|]. cbn [m_impl].
    assert (Hlk : unref (m_impl h) (ref new (<[new := mkRC 0 o]> hp)) !! new
                  = Some (mkRC 1 o)).
    { unfold unref, ref. rewrite alter_insert_eq. cbn [m_refCount rc_obj].
      change (incr_unsigned 0) with 1.
      rewrite lookup_insert_ne by done. rewrite Hlive. cbn.
      destruct (Nat.eqb_spec (k - 1) 0) as [?|_]; [lia|].
      rewrite lookup_insert_ne by done. by rewrite lookup_insert_eq. }
    split; [exact Hlk|]. split.
    + unfold heap_cow. cbn [m_impl]. by rewrite Hlk.
    + intros a Ha1 Ha2. unfold unref, ref. rewrite alter_insert_eq. cbn [m_refCount rc_obj].
      change (incr_unsigned 0) with 1.
      rewrite lookup_insert_ne by done. rewrite Hlive. cbn.
      destruct (Nat.eqb_spec (k - 1) 0) as [?|_]; [lia|].
      rewrite lookup_insert_ne by done. by rewrite lookup_insert_ne.
Qed.

End HeapFacts.

(** ** Further properties of the NCMAT parser *)

Section TokenFacts.
Import NCMAT.

(** *** The parts of a line *)

Lemma append_assoc (a b c : string) : (a +:+ b) +:+ c = a +:+ (b +:+ c).
Proof. induction a as [|x a IH]; [done|]. by rewrite !append_cons, IH. Qed.

Lemma scan_token (tok rest cur : string) (parts : Parts) :
  all_token_chrs tok = true ->
  parseLine_scan (tok +:+ rest) cur parts = parseLine_scan rest (cur +:+ tok) parts.
Proof.
  revert cur. induction tok as [|c tok IH]; intros cur Ht.
  - by rewrite append_nil_l, append_empty_r.
  - cbn [all_token_chrs] in Ht. apply andb_prop in Ht as [Hc Ht].
    rewrite append_cons. cbn [parseLine_scan]. unfold token_chr in Hc. rewrite Hc.
    rewrite IH by done. by rewrite append_assoc.
Qed.

Lemma scan_space (rest cur : string) (parts : Parts) :
  parseLine_scan (String " " rest) cur parts
  = parseLine_scan rest "" (if empty cur then parts else parts ++ [cur]).
Proof. reflexivity. Qed.

Lemma concat_cons2 (sep x y : string) (l : list string) :
  String.concat sep (x :: y :: l) = x +:+ sep +:+ String.concat sep (y :: l).
Proof. reflexivity. Qed.

Lemma scan_join (tokens : list string) :
  forall parts, Forall (fun t => is_token t = true) tokens ->
  parseLine_scan (joinstr tokens " ") "" parts = Ok (parts ++ tokens).
Proof.
  unfold joinstr. induction tokens as [|t tokens IH]; intros parts Hall.
  - cbn. by rewrite app_nil_r.
  - apply Forall_cons in Hall as [Ht Hall]. unfold is_token in Ht.
    apply andb_prop in Ht as [Hne Ht]. apply negb_true_iff in Hne.
    destruct tokens as [|t2 tokens].
    + cbn [String.concat]. rewrite <- (append_empty_r t) at 1.
      rewrite scan_token by done. rewrite append_nil_l. cbn [parseLine_scan]. by rewrite Hne.
    + rewrite concat_cons2. rewrite scan_token by done. rewrite append_nil_l.
      change (" " +:+ String.concat " " (t2 :: tokens))
        with (String " " (String.concat " " (t2 :: tokens))).
      rewrite scan_space, Hne. rewrite IH by done. by rewrite <- app_assoc.
Qed.

(** X19: a line made of parts joined by single spaces, each part not
    empty and of printable characters other than the space and #, is
    split by parseLine into those parts. *)
Theorem parseLine_join (tokens : list string) :
  Forall (fun t => is_token t = true) tokens ->
  parseLine (joinstr tokens " ") = Ok tokens.
Proof. intros Hall. unfold parseLine. by rewrite scan_join. Qed.

Lemma all_token_chrs_snoc (cur : string) (c : ascii) :
  all_token_chrs cur = true -> token_chr c = true ->
  all_token_chrs (cur +:+ String c "") = true.
Proof.
  induction cur as [|d cur IH]; intros Hcur Hc.
  - rewrite append_nil_l. cbn [all_token_chrs]. by rewrite Hc.
  - rewrite append_cons. cbn [all_token_chrs] in *.
    apply andb_prop in Hcur as [Hd Hcur]. rewrite Hd. by apply IH.
Qed.

Lemma scan_tokens (s : string) :
  forall cur parts res,
    all_token_chrs cur = true ->
    Forall (fun t => is_token t = true) parts ->
    parseLine_scan s cur parts = Ok res ->
    Forall (fun t => is_token t = true) res.
Proof.
  assert (Hadd : forall cur parts, all_token_chrs cur = true ->
            Forall (fun t => is_token t = true) parts ->
            Forall (fun t => is_token t = true)
                   (if empty cur then parts else parts ++ [cur])).
  { intros cur parts Hcur Hparts. destruct (empty cur) eqn:He; [done|].
    apply Forall_app. split; [done|]. apply Forall_singleton.
    unfold is_token. by rewrite He, Hcur. }
  induction s as [|c s IH]; intros cur parts res Hcur Hparts; cbn [parseLine_scan].
  - intros [= <-]. by apply Hadd.
  - destruct (_ && _ && negb (Ascii.eqb c "#")) eqn:Hc.
    + apply IH; [|done]. by apply all_token_chrs_snoc.
    + destruct (Ascii.eqb c " " || Ascii.eqb c chr_tab); [apply IH; [done|by apply Hadd]|].
      destruct (Ascii.eqb c chr_lf || Ascii.eqb c chr_cr || Ascii.eqb c "#");
        [|discriminate].
      destruct (Ascii.eqb c chr_cr && negb (empty s)
                && negb (startswith s (String chr_lf EmptyString))); [discriminate|].
      destruct (parseLine_comment (String c s)); [|discriminate].
      cbn [mbind result_bind]. intros [= <-]. by apply Hadd.
Qed.

(** X20: every part which parseLine gives is not empty and made of
    printable ASCII characters other than the space and #. *)
Theorem parseLine_tokens (line : string) (parts : Parts) :
  parseLine line = Ok parts -> Forall (fun t => is_token t = true) parts.
Proof. unfold parseLine. by apply scan_tokens. Qed.

End TokenFacts.

Section PreservesRules.
Context {S : Type} (I : S -> Prop).

Lemma preserves_ret {A} (a : A) : preserves I (mret a).
Proof. by intros s Hs. Qed.
Lemma preserves_raise {A} k w : preserves I (raise (A := A) k w).
Proof. by intros s Hs. Qed.
Lemma preserves_lift {A} (r : result A) : preserves I (lift r).
Proof. intros s Hs. unfold lift. by destruct r. Qed.
Lemma preserves_get : preserves I get.
Proof. by intros s Hs. Qed.
Lemma preserves_modify (f : S -> S) : (forall s, I s -> I (f s)) -> preserves I (modify f).
Proof. intros Hf s Hs. by apply Hf. Qed.
Lemma preserves_bind {A B} (m : M S A) (f : A -> M S B) :
  preserves I m -> (forall a, preserves I (f a)) -> preserves I (m ≫= f).
Proof. intros Hm Hf. eapply hoare_bind; [exact Hm|exact Hf]. Qed.
Lemma preserves_forM {A} (l : list A) (body : A -> M S unit) :
  (forall x, preserves I (body x)) -> preserves I (forM_ l body).
Proof. apply hoare_forM. Qed.

End PreservesRules.

Section VersionFacts.
Import NCMAT.
Context `{Externals} `{NCMATDataOps}.
Variable v : Z.

(** *** The format version *)

Ltac pres :=
  repeat match goal with
    | |- preserves _ (mret _) => apply preserves_ret
    | |- preserves _ (raise _ _) => apply preserves_raise
    | |- preserves _ (lift _) => apply preserves_lift
    | |- preserves _ get => apply preserves_get
    | |- preserves _ (modify _) => apply preserves_modify; intros ? ?; assumption
    | |- preserves _ (_ ≫= _) => apply preserves_bind; [|intros ?]
    | |- preserves _ (forM_ _ _) => apply preserves_forM; intros ?
    | |- preserves _ (if ?b then _ else _) => destruct b; cbv beta iota
    | |- preserves _ (match ?x with _ => _ end) => destruct x; cbv beta iota
    | |- preserves _ (throw_unless _ _) => unfold throw_unless
    | |- preserves _ (validateElementName _) => unfold validateElementName
    | |- preserves _ (modify_active_di _) => unfold modify_active_di
    | |- preserves _ (dyninfo_common_field _ _ _) => unfold dyninfo_common_field; cbv zeta
    | |- preserves _ (dyninfo_vector_entry _ _) => unfold dyninfo_vector_entry; cbv zeta
    end.

Lemma invoke_version (h : Handler) (parts : Parts) :
  preserves (has_version v) (invoke h parts).
Proof.
  destruct h; cbn [invoke];
    unfold handleSectionData_HEAD, handleSectionData_CELL,
      handleSectionData_ATOMPOSITIONS, handleSectionData_SPACEGROUP,
      handleSectionData_DEBYETEMPERATURE, handleSectionData_DYNINFO,
      handleSectionData_DENSITY, handleSectionData_ATOMDB, handleSectionData_CUSTOM,
      throw_unless, validateElementName, dyninfo_common_field, dyninfo_vector_entry,
      modify_active_di;
    cbv zeta; pres.
Qed.


Lemma marker_version (loc : FileLoop) (line : string) (parts : Parts) :
  preserves (has_version v) (parseFile_marker loc line parts).
Proof.
  unfold parseFile_marker. cbv zeta.
  apply preserves_bind; [apply preserves_get|intros p].
  do 3 (match goal with
        | |- preserves _ (if ?b then _ else _) =>
            destruct b; [apply preserves_raise|]
        end).
  apply preserves_bind; [apply invoke_version|intros []].
  apply preserves_bind; [pres|intros seen].
  destruct (section2handler _ !! _); pres.
Qed.

Lemma line_version (loc : FileLoop) (line : string) :
  preserves (has_version v) (parseFile_line loc line).
Proof.
  unfold parseFile_line.
  apply preserves_bind; [apply preserves_get|intros p].
  apply preserves_bind; [apply preserves_lift|intros parts].
  apply preserves_bind; [pres|intros []].
  destruct (bool_decide _); [apply preserves_ret|].
  destruct (first_chr_is _ _); [apply marker_version|].
  apply preserves_bind; [apply invoke_version|intros []]. apply preserves_ret.
Qed.

Lemma lines_version (lines : list string) :
  forall loc, preserves (has_version v) (parseFile_lines loc lines).
Proof.
  induction lines as [|line lines IH]; intros loc; cbn [parseFile_lines].
  - apply preserves_ret.
  - apply preserves_bind; [apply line_version|]. intros loc'. apply IH.
Qed.

End VersionFacts.

Section SectionFacts.
Import NCMAT.
Context `{Externals} `{NCMATDataOps}.

Ltac unfold_M :=
  unfold mbind, mret, M_bind, M_ret, raise, lift, modify, get, put, throw_unless in *.

(** X21: parseFile never changes the format version of the data, whether
    it returns or throws. *)
Theorem parseFile_keeps_version (lines : list string) (p : NCMATParser) :
  version (m_data (snd (parseFile lines p))) = version (m_data p).
Proof.
  assert (Hp : preserves (has_version (version (m_data p))) (parseFile lines)).
  { unfold parseFile. apply preserves_bind; [apply lines_version|].
    intros loc. apply invoke_version. }
  specialize (Hp p eq_refl). by destruct (parseFile lines p) as [[[]|k w] p'].
Qed.

Lemma line_below_gate (p : NCMATParser) (loc : FileLoop) (line : string) (rest : Parts)
    (name : string) (gate : Z) (h : Handler) :
  parseLine line = Ok (String "@" name :: rest) ->
  section_gate name = Some (gate, h) ->
  (version (m_data p) <? gate)%Z = true ->
  throws BadInput (fst (parseFile_line loc line p)).
Proof.
  intros Hline Hg Hv. unfold parseFile_line. unfold_M. rewrite Hline. simpl.
  pose proof (marker_below_gate p loc line rest name gate h Hg Hv) as Hm.
  destruct ((version (m_data p) =? 1)%Z && contains line "#").
  - destruct (sawAnySection loc || true || negb (first_chr_is line "#"));
      [apply throws_intro|].
    exact Hm.
  - exact Hm.
Qed.

(** X22: a file with a line which is the marker of a section whose gate
    is above the version of the file is never parsed to the end,
    whatever the lines before and after it are. *)
Theorem gated_section_refused_in_file (pre post : list string) (line : string)
    (rest : Parts) (name : string) (gate : Z) (h : Handler) (p : NCMATParser) :
  parseLine line = Ok (String "@" name :: rest) ->
  section_gate name = Some (gate, h) ->
  (version (m_data p) <? gate)%Z = true ->
  is_Ok (fst (parseFile (pre ++ line :: post) p)) = false.
Proof.
  intros Hline Hg Hv.
  assert (Hlines : forall loc q, version (m_data q) = version (m_data p) ->
            is_Ok (fst (parseFile_lines loc (pre ++ line :: post) q)) = false).
  { induction pre as [|l pre IH]; intros loc q Hq; cbn [app parseFile_lines];
      unfold mbind, M_bind.
    - destruct (line_below_gate q loc line rest name gate h Hline Hg) as [w Hw];
        [by rewrite Hq|].
      destruct (parseFile_line loc line q) as [r q']. cbn in Hw. by subst r.
    - pose proof (line_version (version (m_data p)) loc l q Hq) as Hl.
      destruct (parseFile_line loc l q) as [[loc'|k w] q']; [|reflexivity].
      by apply IH. }
  unfold parseFile, mbind, M_bind. specialize (Hlines FileLoop_new p eq_refl).
  by destruct (parseFile_lines FileLoop_new (pre ++ line :: post) p) as [[loc|k w] q].
Qed.


(** *** Sections and their lines *)

(** X23: before the first section marker, a line whose first part does
    not begin with @ throws BadInput and leaves the parser as it is. *)
Theorem data_before_first_section (loc : FileLoop) (line : string) (p0 : string)
    (rest : Parts) (p : NCMATParser) :
  itSection loc = H_HEAD ->
  parseLine line = Ok (p0 :: rest) ->
  first_chr_is p0 "@" = false ->
  exists w, parseFile_line loc line p = (Throw BadInput w, p).
Proof.
  intros Hhead Hline Hat. unfold parseFile_line. unfold_M. rewrite Hline. cbn.
  rewrite Hat, Hhead. cbn.
  destruct (_ && _); [destruct (_ || _)|]; by eexists.
Qed.

(** X24: for a section other than DYNINFO and the custom ones, a marker
    of a section already seen throws BadInput, and a marker which is
    accepted records the section as seen and current. *)
Theorem section_given_twice (loc : FileLoop) (line : string) (name : string)
    (rest : Parts) (p : NCMATParser) :
  startswith name "CUSTOM_" = false -> String.eqb name "DYNINFO" = false ->
  (name ∈ sections_seen loc ->
   throws BadInput (fst (parseFile_marker loc line (String "@" name :: rest) p)))
  /\ (forall loc' p',
        parseFile_marker loc line (String "@" name :: rest) p = (Ok loc', p') ->
        name ∈ sections_seen loc' /\ current_section loc' = name
        /\ sawAnySection loc' = true).
Proof.
  intros Hc Hd. unfold parseFile_marker. unfold_M. simpl.
  split.
  - intros Hseen.
    destruct (1 <? S (length rest))%nat; [apply throws_intro|].
    destruct (negb (first_chr_is line "@")); [apply throws_intro|].
    destruct (empty name); [apply throws_intro|].
    destruct (invoke_close (itSection loc) p) as [Hok|[w Hw]].
    2:{ destruct (invoke (itSection loc) [] p) as [r q]. cbn in Hw. subst r.
        apply throws_intro. }
    destruct (invoke (itSection loc) [] p) as [[[]|] q]; [|done].
    rewrite Hc, Hd. simpl.
    rewrite (bool_decide_eq_true_2 _ Hseen). apply throws_intro.
  - intros loc' p'.
    destruct (1 <? S (length rest))%nat; [discriminate|].
    destruct (negb (first_chr_is line "@")); [discriminate|].
    destruct (empty name); [discriminate|].
    destruct (invoke (itSection loc) [] p) as [[[]|] q]; [|discriminate].
    rewrite Hc, Hd. simpl.
    destruct (bool_decide (name ∈ sections_seen loc)); [discriminate|].
    destruct (section2handler _ !! name) as [h|].
    + intros [= <- <-]. cbn. split; [set_solver|done].
    + repeat case_match; discriminate.
Qed.

(** X25: in @DYNINFO a line whose first part is not a keyword, when no
    vector field is active, fails the assertion on parse_target: the
    call throws a LogicError, not a BadInput. *)
Theorem dyninfo_numbers_without_field (p0 : string) (rest : Parts) (p : NCMATParser) :
  first_chr_ge_a p0 && contains_only p0 lowercase_underscore = false ->
  m_dyninfo_active_vector_field p = None ->
  throws LogicError (fst (handleSectionData_DYNINFO (p0 :: rest) p)).
Proof.
  intros Hkw Hfield. unfold handleSectionData_DYNINFO. unfold_M.
  destruct (negb (m_active_dyninfo p)); cbn; rewrite Hkw; cbn; rewrite Hfield;
    apply throws_intro.
Qed.

(** A vector of the cell which is set stays as it is through any call
    of the handler of @CELL, whether the call returns or throws. *)
Lemma cell_vector_kept (kw : string) (v : vec3) (parts : Parts) :
  is_null v = false ->
  preserves (fun p => cell_vector kw p = v) (handleSectionData_CELL parts).
Proof.
  intros Hv p Hp. unfold handleSectionData_CELL. unfold_M.
  destruct parts as [|p0 rest]; [by destruct (validateCell (m_data p))|].
  destruct (negb (isOneOf p0 ["lengths"; "angles"])) eqn:Hkw; [done|].
  destruct (negb (length (p0 :: rest) =? 4)%nat); [done|].
  destruct (negb (is_null _)) eqn:Hnull; [done|].
  apply negb_false_iff in Hnull.
  assert (String.eqb kw "lengths" <> String.eqb p0 "lengths") as Hother.
  { intros Heq. unfold cell_vector in Hp. rewrite Heq in Hp.
    destruct (String.eqb p0 "lengths"); rewrite Hp in Hnull; congruence. }
  assert (forall w, cell_vector kw (set_data (fun d =>
            mkData (version d)
                   (if String.eqb p0 "lengths" then w else cell_lengths d)
                   (if String.eqb p0 "lengths" then cell_angles d else w)
                   (atompos d) (spacegroup d) (debyetemp_global d)
                   (debyetemp_perelement d) (dyninfos d) (density d) (density_unit d)
                   (atomDBLines d) (customSections d)) p) = v) as Hset.
  { intros w. unfold cell_vector in *. cbn.
    destruct (String.eqb kw "lengths"), (String.eqb p0 "lengths"); done. }
  destruct (parse3 _ _ _) as [w|]; [|done]. cbn.
  destruct (is_null w); cbn; apply Hset.
Qed.

(** X26: in @CELL, after a line of a keyword was accepted, a later line
    of the same keyword throws BadInput, whatever lines the handler was
    given in between: the vector which the accepted line stored is still
    there, a line of the other keyword does not touch it. *)
Theorem cell_keyword_twice (kw : string) (r1 r2 : Parts) (between : list Parts)
    (p p' : NCMATParser) :
  handleSectionData_CELL (kw :: r1) p = (Ok tt, p') ->
  cell_vector kw (snd (forM_ between handleSectionData_CELL p')) = cell_vector kw p'
  /\ throws BadInput
       (fst (handleSectionData_CELL (kw :: r2)
               (snd (forM_ between handleSectionData_CELL p')))).
Proof.
  intros Hfirst.
  assert (exists v, is_null v = false /\ cell_vector kw p' = v
                    /\ isOneOf kw ["lengths"; "angles"] = true) as (v & Hv & Hp' & Hkw).
  { revert Hfirst. unfold handleSectionData_CELL. unfold_M. cbn [length].
    destruct (negb (isOneOf kw ["lengths"; "angles"])) eqn:Hkw; [discriminate|].
    apply negb_false_iff in Hkw.
    destruct (negb (S (length r1) =? 4)%nat); [discriminate|].
    destruct (negb (is_null _)); [discriminate|].
    destruct (parse3 _ _ _) as [v|]; [|discriminate]. cbn.
    destruct (is_null v) eqn:Hv; [discriminate|]. intros [= <-].
    exists v. split; [done|]. split; [|done]. unfold cell_vector. cbn.
    by destruct (String.eqb kw "lengths"). }
  pose proof (preserves_forM _ between handleSectionData_CELL
                (fun parts => cell_vector_kept kw v parts Hv) p' Hp') as Hkept.
  assert (cell_vector kw (snd (forM_ between handleSectionData_CELL p')) = v) as Hq.
  { destruct (forM_ between handleSectionData_CELL p') as [[[]|k w] q]; exact Hkept. }
  split; [by rewrite Hq|].
  revert Hq. generalize (snd (forM_ between handleSectionData_CELL p')). intros q Hq.
  unfold handleSectionData_CELL. unfold_M. rewrite Hkw. cbn [negb length].
  destruct (negb (S (length r2) =? 4)%nat); [apply throws_intro|].
  unfold cell_vector in Hq. rewrite Hq, Hv. apply throws_intro.
Qed.

(** X27: when parseNCMATData returns, with or without the final
    validation, the first line begins with NCMAT
    and has exactly two parts, the second being v1, v2 or v3, and a v1
    first line holds no #. *)
Theorem header_is_required (lines : list string) (doFinalValidation : bool)
    (d : NCMATData) :
  parseNCMATData lines doFinalValidation = Ok d ->
  exists line rest parts,
    lines = line :: rest
    /\ startswith line "NCMAT" = true
    /\ parseLine line = Ok parts
    /\ length parts = 2
    /\ nth 1 parts "" ∈ ["v1"; "v2"; "v3"]
    /\ (nth 1 parts "" = "v1" -> contains line "#" = false).
Proof.
  unfold parseNCMATData.
  destruct (NCMATParser_ctor lines NCMATParser_new) as [[[]|k w] parser] eqn:Hctor;
    [|discriminate].
  intros _. revert Hctor. unfold NCMATParser_ctor.
  destruct lines as [|line rest]; [discriminate|].
  destruct (negb (startswith line "NCMAT")) eqn:Hs; [discriminate|].
  apply negb_false_iff in Hs. unfold_M. cbn.
  destruct (parseLine line) as [parts|] eqn:Hparts; [|discriminate].
  intros Hrun. exists line, rest, parts. do 3 (split; [done|]).
  destruct (length parts =? 2)%nat eqn:Hlen; [|discriminate].
  apply Nat.eqb_eq in Hlen. split; [done|].
  destruct (String.eqb_spec (nth 1 parts "") "v1") as [->|_].
  { split; [set_solver|]. intros _. by destruct (contains line "#"). }
  destruct (String.eqb_spec (nth 1 parts "") "v2") as [->|_]; [split; [set_solver|done]|].
  destruct (String.eqb_spec (nth 1 parts "") "v3") as [->|_]; [split; [set_solver|done]|].
  discriminate.
Qed.

End SectionFacts.

(** ** Evaluation on the reference instance *)

(** The properties at concrete inputs, with the functions declared outside
    the two sources taken from [Std]. *)

Section Reference.
#[local] Existing Instance Std.externals.
#[local] Existing Instance Std.ops.

Lemma C3_temp_zero_is_accepted_witness :
  valueInInterval 0.9999e-7%float 0.10000001%float 1e-3%float = true
  /\ exists o : Impl,
       set_temp (OW := Owner_exclusive) 0%float (Impl_new false) = (Ok tt, o)
       /\ get_temp o = Ok 0%float
       /\ checkConsistency o = Ok tt.
Proof.
  split; [reflexivity|]. apply (C3_temp_zero_is_accepted false). reflexivity.
Defined.

(** The table after temp=0.1 was applied. *)
Lemma temp_tenth_table :
  exists d, m_parlist (snd (applyStrCfg (OW := Owner_exclusive) "temp=0.1" (Impl_new false)))
              !! PAR_temp = Some (VDbl d)
            /\ dbl_value d = 0.1%float /\ dbl_origstrrep d = "0.1".
Proof. eexists. split; [vm_compute; reflexivity|]. split; reflexivity. Qed.

Lemma C4_cache_signature_has_16_digits_witness :
  strNameToParIdx "temp" = Ok PAR_temp
  /\ m_parlist (snd (set_temp (OW := Owner_exclusive) 0.1%float (Impl_new false))) !! PAR_temp
     = Some (VDbl (mkValDbl 0.1%float UnitTemp ""))
  /\ getCacheSignature (snd (set_temp (OW := Owner_exclusive) 0.1%float (Impl_new false)))
                       ["temp"]
     = Ok ("temp" +:+ "=" +:+ dbl2str 16 0.1%float).
Proof.
  split; [reflexivity|]. split; [vm_compute; reflexivity|].
  apply (C4_cache_signature_has_16_digits _ "temp" PAR_temp (mkValDbl 0.1%float UnitTemp "")).
  - reflexivity.
  - vm_compute; reflexivity.
Defined.

(** The two renderings of the double nearest to 0.1 differ. *)
Lemma tenth_at_16_and_17_digits :
  dbl2str 16 0.1%float = "0.1" /\ dbl2str 17 0.1%float = "0.10000000000000001".
Proof. split; vm_compute; reflexivity. Qed.

(** The renderings at both ends of the range of the finite doubles. *)
Lemma extreme_doubles_at_17_digits :
  dbl2str 17 0x1.fffffffffffffp+1023%float = "1.7976931348623157e+308"
  /\ dbl2str 17 0x1p-1074%float = "4.9406564584124654e-324".
Proof. split; vm_compute; reflexivity. Qed.

Lemma C5_version_gating_witness :
  NCMAT.parseLine "@DYNINFO" = Ok [String "@" "DYNINFO"]
  /\ section_gate "DYNINFO" = Some (2%Z, NCMAT.H_DYNINFO)
  /\ throws BadInput (fst (NCMAT.parseFile_line NCMAT.FileLoop_new "@DYNINFO" v1_start))
  /\ NCMAT.parseFile_line NCMAT.FileLoop_new "@DYNINFO" dyninfo_start
     = (Ok (NCMAT.mkLoop "DYNINFO" NCMAT.H_DYNINFO ∅ true), dyninfo_start)
  /\ NCMAT.parseLine "@CUSTOM_FOO" = Ok [String "@" "CUSTOM_FOO"]
  /\ section_gate "CUSTOM_FOO" = Some (3%Z, NCMAT.H_CUSTOM)
  /\ throws BadInput (fst (NCMAT.parseFile_line NCMAT.FileLoop_new "@CUSTOM_FOO"
                                                 dyninfo_start))
  /\ NCMAT.parseFile_line NCMAT.FileLoop_new "@CUSTOM_FOO" v3_start
     = (Ok (NCMAT.mkLoop "CUSTOM_FOO" NCMAT.H_CUSTOM ∅ true),
        add_custom "CUSTOM_FOO" v3_start).
Proof.
  split; [reflexivity|]. split; [reflexivity|].
  split; [exact (C5_version_gating v1_start NCMAT.FileLoop_new "@DYNINFO" [] "DYNINFO" 2
                                   NCMAT.H_DYNINFO eq_refl eq_refl)|].
  split.
  { pose proof (C5_version_gating dyninfo_start NCMAT.FileLoop_new "@DYNINFO" [] "DYNINFO" 2
                                  NCMAT.H_DYNINFO eq_refl eq_refl) as Hthm.
    change (NCMAT.version (NCMAT.m_data dyninfo_start) <? 2)%Z with false in Hthm.
    cbv iota in Hthm. destruct Hthm as [_ Hacc].
    exact (Hacc dyninfo_start eq_refl eq_refl eq_refl
                (fun E => False_ind _ (eq_ind true (fun b => if b then True else False) I
                                              false E))
                (fun E => False_ind _ (eq_ind false (fun b => if b then False else True) I
                                              true E))). }
  split; [reflexivity|]. split; [reflexivity|].
  split; [exact (C5_version_gating dyninfo_start NCMAT.FileLoop_new "@CUSTOM_FOO" []
                                   "CUSTOM_FOO" 3 NCMAT.H_CUSTOM eq_refl eq_refl)|].
  pose proof (C5_version_gating v3_start NCMAT.FileLoop_new "@CUSTOM_FOO" [] "CUSTOM_FOO" 3
                                NCMAT.H_CUSTOM eq_refl eq_refl) as Hthm.
  change (NCMAT.version (NCMAT.m_data v3_start) <? 3)%Z with false in Hthm.
  cbv iota in Hthm. destruct Hthm as [_ Hacc].
  refine (Hacc v3_start eq_refl eq_refl eq_refl _ _).
  - intros E. exact (False_ind _ (eq_ind true (fun b => if b then True else False) I
                                         false E)).
  - intros _. cbn. lia.
Defined.

(** Whole files: the sections are refused below their gate and parsed at
    or above it. *)
Lemma gating_on_files :
  throws BadInput (NCMAT.parseNCMATData ["NCMAT v1"; "@DYNINFO"; "element H"] false)
  /\ throws BadInput (NCMAT.parseNCMATData ["NCMAT v1"; "@DENSITY"; "1 g_per_cm3"] false)
  /\ throws BadInput (NCMAT.parseNCMATData ["NCMAT v2"; "@ATOMDB"; "H 1u 2fm 3b 4b"] false)
  /\ throws BadInput (NCMAT.parseNCMATData ["NCMAT v2"; "@CUSTOM_FOO"; "a b"] false)
  /\ is_Ok (NCMAT.parseNCMATData ["NCMAT v2"; "@DENSITY"; "1 g_per_cm3"] false) = true
  /\ is_Ok (NCMAT.parseNCMATData ["NCMAT v3"; "@ATOMDB"; "H 1u 2fm 3b 4b";
                                   "@CUSTOM_FOO"; "a b"] false) = true.
Proof. repeat split; try (eexists; vm_compute; reflexivity); vm_compute; reflexivity. Qed.

(** The parser after the line alphagrid 0 0.1 0.2 of a block. *)
Lemma grid_state :
  exists p, NCMAT.handleSectionData_DYNINFO ["alphagrid"; "0"; "0.1"; "0.2"] dyninfo_start
            = (Ok tt, p)
    /\ NCMAT.dyninfos (NCMAT.m_data p) <> []
    /\ NCMAT.fields (NCMAT.active_di p) !! "alphagrid" = Some [0; 0.1; 0.2]%float
    /\ NCMAT.m_dyninfo_active_vector_field_allownegative p = false.
Proof.
  eexists. split; [vm_compute; reflexivity|]. split; [done|].
  split; [vm_compute; reflexivity|]. reflexivity.
Qed.

Lemma C8_repeat_notation_witness :
  let p := snd (NCMAT.handleSectionData_DYNINFO ["alphagrid"; "0"; "0.1"; "0.2"]
                                                dyninfo_start) in
  contains "0.2" "r" = false
  /\ str2int "5" = Some 5%Z
  /\ str2dbl "0.2" = Some 0.2%float
  /\ (let '(r, p') := NCMAT.dyninfo_vector_entry "alphagrid" "0.2r5" p in
      r = Ok tt
      /\ NCMAT.fields (NCMAT.active_di p') !! "alphagrid"
         = Some [0; 0.1; 0.2; 0.2; 0.2; 0.2; 0.2; 0.2]%float)
  /\ (let '(r, p') :=
        NCMAT.handleSectionData_DYNINFO ["alphagrid"; "0"; "0.1"; "0.2"; "0.2r5"; "0.3"]
                                        dyninfo_start in
      r = Ok tt
      /\ NCMAT.fields (NCMAT.active_di p') !! "alphagrid"
         = Some [0; 0.1; 0.2; 0.2; 0.2; 0.2; 0.2; 0.2; 0.3]%float
      /\ from_option (count_occ_dbl 0.2%float) 0%nat
           (NCMAT.fields (NCMAT.active_di p') !! "alphagrid") = 6%nat).
Proof.
  intros p. split; [reflexivity|]. split; [reflexivity|]. split; [reflexivity|].
  assert (NCMAT.dyninfos (NCMAT.m_data p) <> []) as Hne by done.
  assert (NCMAT.fields (NCMAT.active_di p) !! "alphagrid" = Some [0; 0.1; 0.2]%float)
    as Hold by (vm_compute; reflexivity).
  exact (C8_repeat_notation p "alphagrid" "0.2" "5" 5 0.2%float [0; 0.1; 0.2]%float
           eq_refl eq_refl eq_refl eq_refl eq_refl Hne Hold
           eq_refl eq_refl eq_refl eq_refl eq_refl).
Defined.

(** A repeat count below 2 is refused. *)
Lemma repeat_count_one_is_refused :
  throws BadInput
    (fst (NCMAT.handleSectionData_DYNINFO ["alphagrid"; "0.2r1"] dyninfo_start)).
Proof. eexists. vm_compute. reflexivity. Qed.


(** The same through the parameter string: nodefaults is accepted as the
    first line of atomdb and refused after another line. *)
Lemma atomdb_parameter_nodefaults :
  is_Ok (fst (applyStrCfg (OW := Owner_exclusive) "atomdb=nodefaults@H:is:D"
                          (Impl_new false))) = true
  /\ throws BadInput (fst (applyStrCfg (OW := Owner_exclusive) "atomdb=H:is:D@nodefaults"
                                       (Impl_new false))).
Proof. split; [vm_compute; reflexivity|]. eexists. vm_compute. reflexivity. Qed.

Lemma C7_unit_conversion_witness :
  bare_number "20" = true
  /\ str2dbl "20" = Some 20%float
  /\ (kArcMin <=? 0)%float = false
  /\ str2dbl "60" = Some 60%float
  /\ set_then_get "temp" "20C" get_temp = Ok 293.15%float
  /\ set_then_get "mos" "60arcmin" get_mos = Ok (60 * kPi / 10800)%float
  /\ set_then_get "dirtol" "60arcmin" get_dirtol = Ok (60 * kPi / 10800)%float.
Proof.
  split; [reflexivity|]. split; [reflexivity|]. split; [reflexivity|].
  split; [reflexivity|].
  assert (Hbare : bare_number "20" = true) by reflexivity.
  assert (H20 : str2dbl "20" = Some 20%float) by reflexivity.
  assert (Hpos : (kArcMin <=? 0)%float = false) by reflexivity.
  assert (H60 : str2dbl "60" = Some 60%float) by reflexivity.
  destruct (C7_unit_conversion "20" 20%float Hbare H20 Hpos H20 H60)
    as (_ & _ & _ & Htemp & Hmos & _ & Hdirtol & _).
  split; [exact Htemp|]. split; [rewrite Hmos; reflexivity|].
  rewrite Hdirtol. reflexivity.
Defined.

(** The scenario of the units: 20C, 0.5Aa and 30arcmin. *)
Lemma config_with_units :
  exists o, applyStrCfg (OW := Owner_exclusive) "temp=20C;dcutoff=0.5Aa;mos=30arcmin"
                        (Impl_new false) = (Ok tt, o)
    /\ get_temp o = Ok 293.15%float
    /\ get_dcutoff o = Ok 0.5%float
    /\ get_mos o = Ok (kPi / 10800 * 30)%float
    /\ dbl2str 12 (kPi / 10800 * 30)%float = "0.00872664625997".
Proof. eexists. repeat split; vm_compute; reflexivity. Qed.

(** The unit F on a value: 68F is 293.15 K. *)
Lemma fahrenheit_68 : set_then_get "temp" "68F" get_temp = Ok 293.15%float.
Proof. vm_compute. reflexivity. Qed.

Lemma C10_blank_segments_skipped_counterexample :
  split "nosuchpar=1" 0 ";" = ["nosuchpar=1"]
  /\ blank "nosuchpar=1" = false
  /\ key_value_form "nosuchpar=1" = true
  /\ throws BadInput
       (fst (applyStrCfg (OW := Owner_exclusive) "nosuchpar=1" (Impl_new false))).
Proof.
  split; [reflexivity|]. split; [reflexivity|]. split; [reflexivity|].
  eexists. vm_compute. reflexivity.
Qed.

Lemma C10_blank_segments_skipped_witness :
  let str := "temp=5;; ;dcutoff=1;" in
  isSimpleASCII str true true = true
  /\ contains_any str NCMATCFG_FORBIDDEN_CHARS = false
  /\ applyStrCfg (OW := Owner_exclusive) str (Impl_new false)
     = forM_ ["temp=5"; "dcutoff=1"] (applyStrCfg_part (OW := Owner_exclusive))
             (Impl_new false)
  /\ is_Ok (fst (applyStrCfg (OW := Owner_exclusive) str (Impl_new false))) = true
  /\ contains_any "temp=5;dcutoff={1}" NCMATCFG_FORBIDDEN_CHARS = true
  /\ exists w, applyStrCfg (OW := Owner_exclusive) "temp=5;dcutoff={1}" (Impl_new false)
               = (Throw BadInput w, Impl_new false).
Proof.
  intros str. split; [reflexivity|]. split; [reflexivity|].
  pose proof (C10_blank_segments_skipped (OW := Owner_exclusive) str (Impl_new false))
    as Hthm.
  change (isSimpleASCII str true true && negb (contains_any str NCMATCFG_FORBIDDEN_CHARS))
    with true in Hthm.
  cbv iota in Hthm. destruct Hthm as [Heq _].
  split; [exact Heq|]. split; [vm_compute; reflexivity|]. split; [reflexivity|].
  exact (C10_blank_segments_skipped (OW := Owner_exclusive) "temp=5;dcutoff={1}"
                                    (Impl_new false)).
Defined.

(** The constructor accepts a file name followed by a lone separator. *)
Lemma trailing_separator_after_file_name :
  is_Ok (MatCfg_new createTextInputStream "plain.ncmat;") = true.
Proof. vm_compute. reflexivity. Qed.

Lemma C2_copy_on_write_witness :
  let s' := snd (call_setter (Set_temp 300%float) (shared_heap, mkHandle 0)) in
  shared_heap !! 0%nat = Some (mkRC 2 (Impl_new false))
  /\ 1 < 2
  /\ deref (fst s') (mkHandle 0) = deref shared_heap (mkHandle 0)
  /\ get_temp <$> deref (fst s') (snd s') = Some (Ok 300%float)
  /\ get_temp <$> deref (fst s') (mkHandle 0) = Some (Ok (-1)%float).
Proof.
  intros s'.
  assert (Hlive : shared_heap !! 0%nat = Some (mkRC 2 (Impl_new false)))
    by (vm_compute; reflexivity).
  split; [exact Hlive|]. split; [exact (le_n 2)|]. split.
  - apply (C2_copy_on_write (Set_temp 300%float) shared_heap (mkHandle 0) (mkHandle 0) 2
             (Impl_new false) eq_refl Hlive (le_n 2)
             (fst (call_setter (Set_temp 300%float) (shared_heap, mkHandle 0)))
             (fst s') (snd s')).
    subst s'. destruct (call_setter (Set_temp 300%float) (shared_heap, mkHandle 0)) as [r [hp' h']].
    reflexivity.
  - split; vm_compute; reflexivity.
Defined.

(** The same two handles when the parameter is refused: the clone was
    made before the throw, and holds what the first table holds. *)
Lemma shared_handles_on_throw :
  call_setter (ApplyStrCfg "temp=") (shared_heap, mkHandle 0)
  = (Throw BadInput "Missing parameter value for parameter temp", (<[ 1%nat := mkRC 1 (Impl_new false) ]> (<[ 0%nat := mkRC 1 (Impl_new false) ]> shared_heap), mkHandle 1)).
Proof. vm_compute. reflexivity. Qed.

Lemma C6_embedded_cfg_witness :
  let dp := "foo.ncmat;temp=300K" in
  let input := mkStream foo_lines "" in
  empty (input_file dp) = false
  /\ contains (input_file dp) "=" = false
  /\ createTextInputStream (input_file dp) = Some input
  /\ ignorefilecfg_specified dp = false
  /\ marker_count (ts_lines input) = 1
  /\ bracketed "# NCRYSTALMATCFG[temp=500K]" "temp=500K"
  /\ extractFileCfgStr input = Ok "temp=500K"
  /\ (exists o oU, MatCfg_new createTextInputStream dp = Ok o
        /\ applyStrCfg (OW := Owner_exclusive) (input_params dp)
                       (new_table (input_file dp) input) = (Ok tt, oU)
        /\ m_parlist oU ⊆ m_parlist o
        /\ get_temp oU = Ok 300%float /\ get_temp o = Ok 300%float).
Proof.
  intros dp input.
  assert (Hne : empty (input_file dp) = false) by reflexivity.
  assert (Heq : contains (input_file dp) "=" = false) by reflexivity.
  assert (Hopen : createTextInputStream (input_file dp) = Some input) by reflexivity.
  assert (Hign : ignorefilecfg_specified dp = false) by reflexivity.
  assert (Hone : marker_count (ts_lines input) = 1) by reflexivity.
  assert (Hb : bracketed "# NCRYSTALMATCFG[temp=500K]" "temp=500K").
  { exists 2, "". repeat split; reflexivity. }
  assert (Hin : "# NCRYSTALMATCFG[temp=500K]" ∈ ts_lines input).
  { apply elem_of_cons. right. apply elem_of_cons. left. reflexivity. }
  destruct (C6_embedded_cfg createTextInputStream dp input Hne Heq Hopen Hign)
    as (_ & Hpayload & Hwin & _).
  repeat (split; [assumption|]).
  split; [exact (Hpayload Hone _ _ Hin Hb)|].
  destruct (MatCfg_new createTextInputStream dp) as [o|] eqn:Hnew;
    [|vm_compute in Hnew; discriminate].
  destruct (Hwin o eq_refl) as (oU & HU & Hsub).
  exists o, oU. repeat (split; [done|]).
  vm_compute in Hnew, HU. injection Hnew as <-. injection HU as <-.
  split; vm_compute; reflexivity.
Defined.

(** The file with the marker temp=500K: without parameters, with the
    parameter temp=300K, and with the keyword ignorefilecfg. *)
Lemma embedded_cfg_precedence :
  (get_temp <$> MatCfg_new createTextInputStream "foo.ncmat") = Ok (Ok 500%float)
  /\ (get_temp <$> MatCfg_new createTextInputStream "foo.ncmat;temp=300K")
     = Ok (Ok 300%float)
  /\ (get_temp <$> MatCfg_new createTextInputStream "foo.ncmat;ignorefilecfg")
     = Ok (Ok (-1)%float).
Proof. repeat split; vm_compute; reflexivity. Qed.

(** The file with two markers, with and without the keyword. *)
Lemma two_markers_refused :
  marker_count two_marker_lines = 2
  /\ throws BadInput (MatCfg_new createTextInputStream "two.ncmat;temp=300K")
  /\ is_Ok (MatCfg_new createTextInputStream "two.ncmat;ignorefilecfg;temp=300K") = true.
Proof.
  split; [reflexivity|]. split; [|vm_compute; reflexivity].
  eexists. vm_compute. reflexivity.
Qed.

(** Markers counted on lines: two on one line, one split by a bracket. *)
Lemma marker_count_examples :
  marker_count ["NCRYSTALMATCFG[a=1] NCRYSTALMATCFG[b=2]"] = 2
  /\ marker_count ["NCRYSTALMATCF"; "G[temp=1]"] = 0
  /\ marker_count ["# NCRYSTALMATCFGNCRYSTALMATCFG"] = 2.
Proof. repeat split; reflexivity. Qed.

(** *** The further properties at concrete inputs *)

Lemma set_then_get_dbl_witness :
  partypes PAR_temp = VALTYPE_DBL
  /\ well_formed (Impl_new false)
  /\ ncisnan 300%float = false
  /\ exists o', setVal_Dbl PAR_temp 300%float (Impl_new false) = (Ok tt, o')
       /\ getVal dbl_value o' PAR_temp (-1)%float = Ok 300%float.
Proof.
  assert (Hwf : well_formed (Impl_new false)) by (apply well_formed_new; reflexivity).
  assert (Hnan : ncisnan 300%float = false) by reflexivity.
  split; [reflexivity|]. split; [exact Hwf|]. split; [exact Hnan|].
  destruct (set_then_get_dbl PAR_temp 300%float (-1)%float (Impl_new false)
              eq_refl Hwf Hnan) as (o' & Hset & Hget & _).
  exists o'. split; assumption.
Defined.

Lemma failed_set_leaves_slot_witness :
  m_spies (Impl_new false) = []
  /\ m_parlist (Impl_new false) !! PAR_temp = None
  /\ ncisnan PrimFloat.nan = true
  /\ exists w o', setVal_Dbl PAR_temp PrimFloat.nan (Impl_new false) = (Throw BadInput w, o')
       /\ hasPar o' PAR_temp = true.
Proof.
  assert (Hnan : ncisnan PrimFloat.nan = true) by reflexivity.
  split; [reflexivity|]. split; [reflexivity|]. split; [exact Hnan|].
  destruct (failed_set_leaves_slot PAR_temp PrimFloat.nan (Impl_new false)
              eq_refl eq_refl Hnan) as (w & o' & Hset & Hhas & _).
  exists w, o'. split; assumption.
Defined.

Lemma monitored_table_is_frozen_witness :
  monitored_heap !! 0%nat = Some (mkRC 1 (set_spies (fun _ => [7%nat]) (Impl_new false)))
  /\ m_spies (set_spies (fun _ => [7%nat]) (Impl_new false)) <> []
  /\ snd (call_setter (Set_temp 300%float) (monitored_heap, mkHandle 0))
     = (monitored_heap, mkHandle 0).
Proof.
  assert (Hlive : monitored_heap !! 0%nat
                  = Some (mkRC 1 (set_spies (fun _ => [7%nat]) (Impl_new false))))
    by (vm_compute; reflexivity).
  assert (Hspy : m_spies (set_spies (fun _ => [7%nat]) (Impl_new false)) <> [])
    by discriminate.
  split; [exact Hlive|]. split; [exact Hspy|].
  exact (monitored_table_is_frozen (Set_temp 300%float) monitored_heap (mkHandle 0) 1 _
           Hlive Hspy).
Defined.

Lemma spy_add_remove_witness :
  7%nat <> 0%nat
  /\ hasAccessSpy (Impl_new false) 7 = false
  /\ exists o1, addAccessSpy 7 (Impl_new false) = (Ok tt, o1)
       /\ removeAccessSpy 7 o1 = (Ok tt, Impl_new false).
Proof.
  assert (Hnz : 7%nat <> 0%nat) by discriminate.
  split; [exact Hnz|]. split; [reflexivity|].
  destruct (spy_add_remove 7 (Impl_new false) Hnz eq_refl) as (o1 & Hadd & _ & Hrem & _).
  exists o1. split; assumption.
Defined.

Lemma applyStrCfg_concat_witness :
  isSimpleASCII "dcutoff=1" true true = true
  /\ contains_any "dcutoff=1" NCMATCFG_FORBIDDEN_CHARS = false
  /\ applyStrCfg (OW := Owner_exclusive) ("temp=5" +:+ ";" +:+ "dcutoff=1") (Impl_new false)
     = (applyStrCfg (OW := Owner_exclusive) "temp=5" ;;
        applyStrCfg (OW := Owner_exclusive) "dcutoff=1") (Impl_new false).
Proof.
  split; [reflexivity|]. split; [reflexivity|].
  exact (applyStrCfg_concat (OW := Owner_exclusive) "temp=5" "dcutoff=1" (Impl_new false)
           eq_refl eq_refl).
Defined.

Lemma single_crystal_needs_all_witness :
  checkConsistency single_crystal_cfg = Ok tt
  /\ isSingleCrystal single_crystal_cfg = true
  /\ hasPar single_crystal_cfg PAR_mos = true
  /\ hasPar single_crystal_cfg PAR_dir1 = true
  /\ hasPar single_crystal_cfg PAR_dir2 = true.
Proof.
  assert (Hc : checkConsistency single_crystal_cfg = Ok tt) by (vm_compute; reflexivity).
  assert (Hs : isSingleCrystal single_crystal_cfg = true) by (vm_compute; reflexivity).
  split; [exact Hc|]. split; [exact Hs|].
  destruct (single_crystal_needs_all single_crystal_cfg Hc Hs) as (Hm & H1 & H2 & _).
  repeat split; assumption.
Defined.

Lemma cache_signature_frame_witness :
  (forall name p, name ∈ ["temp"] -> strNameToParIdx name = Ok p ->
     m_parlist cfg_temp !! p = m_parlist cfg_temp_dcutoff !! p)
  /\ getCacheSignature cfg_temp ["temp"] = getCacheSignature cfg_temp_dcutoff ["temp"].
Proof.
  assert (Hsame : forall name p, name ∈ ["temp"] -> strNameToParIdx name = Ok p ->
            m_parlist cfg_temp !! p = m_parlist cfg_temp_dcutoff !! p).
  { intros name p Hin Hp. apply list_elem_of_singleton in Hin. subst name.
    vm_compute in Hp. injection Hp as <-. vm_compute. reflexivity. }
  split; [exact Hsame|].
  exact (cache_signature_frame cfg_temp cfg_temp_dcutoff ["temp"] Hsame).
Defined.

Lemma embeddable_round_trip_witness :
  marker_count ["NCMAT v2"] = 0%nat
  /\ marker_count ["@CELL"] = 0%nat
  /\ contains (toStrCfg cfg_embedded false None) "]" = false
  /\ find ("[" +:+ toStrCfg cfg_embedded false None +:+ "]") pattern = None
  /\ toEmbeddableCfg cfg_embedded = "NCRYSTALMATCFG[dcutoff=0.5;temp=300K]"
  /\ extractFileCfgStr (mkStream (["NCMAT v2"] ++ toEmbeddableCfg cfg_embedded :: ["@CELL"]) "")
     = Ok (trim (toStrCfg cfg_embedded false None)).
Proof.
  assert (H1 : contains (toStrCfg cfg_embedded false None) "]" = false)
    by (vm_compute; reflexivity).
  assert (H2 : find ("[" +:+ toStrCfg cfg_embedded false None +:+ "]") pattern = None)
    by (vm_compute; reflexivity).
  split; [reflexivity|]. split; [reflexivity|]. split; [exact H1|]. split; [exact H2|].
  split; [vm_compute; reflexivity|].
  exact (embeddable_round_trip cfg_embedded ["NCMAT v2"] ["@CELL"] "" eq_refl eq_refl H1 H2).
Defined.

Lemma ignorefilecfg_skips_file_witness :
  let dp := "two.ncmat;ignorefilecfg;temp=300K" in
  let input := mkStream two_marker_lines "" in
  empty (input_file dp) = false
  /\ contains (input_file dp) "=" = false
  /\ createTextInputStream (input_file dp) = Some input
  /\ ignorefilecfg_specified dp = true
  /\ params_after_keyword dp = "temp=300K"
  /\ MatCfg_new createTextInputStream dp
     = (o ← ctor_applyStrCfg (params_after_keyword dp)
                             (new_table_ignoring (input_file dp) input);
        ext ← getDataFileExtension o;
        throw_if (empty ext) BadInput "Unsupported data file (can not determine extension)" ;;
        Ok o).
Proof.
  intros dp input.
  split; [reflexivity|]. split; [reflexivity|]. split; [reflexivity|].
  split; [reflexivity|]. split; [reflexivity|].
  exact (ignorefilecfg_skips_file createTextInputStream dp input
           eq_refl eq_refl eq_refl eq_refl).
Defined.

Lemma copy_assign_destroy_witness :
  single_heap !! 0%nat = Some (mkRC 1 (Impl_new false))
  /\ 0 < 1
  /\ (N.of_nat 1 <? UINT_MAX)%N = true
  /\ fst (copy_handle (mkHandle 0) single_heap) !! 0%nat = Some (mkRC 2 (Impl_new false))
  /\ MatCfg_destroy (snd (copy_handle (mkHandle 0) single_heap))
                    (fst (copy_handle (mkHandle 0) single_heap)) = single_heap
  /\ MatCfg_assign (mkHandle 0) (mkHandle 0) single_heap = (single_heap, mkHandle 0)
  /\ MatCfg_destroy (mkHandle 0) single_heap !! 0%nat = None.
Proof.
  assert (Hlive : single_heap !! 0%nat = Some (mkRC 1 (Impl_new false)))
    by (vm_compute; reflexivity).
  split; [exact Hlive|]. split; [exact (le_n 1)|]. split; [reflexivity|].
  pose proof (copy_assign_destroy single_heap (mkHandle 0) 1 (Impl_new false) Hlive (le_n 1))
    as Hthm.
  change (N.of_nat 1 <? UINT_MAX)%N with true in Hthm. cbv iota in Hthm.
  destruct Hthm as (Hcopy & Hassign & Hfree).
  destruct (copy_handle (mkHandle 0) single_heap) as [hp1 h1].
  destruct Hcopy as (_ & Hcount & Hback).
  split; [exact Hcount|]. split; [exact Hback|].
  split; [exact Hassign|exact (Hfree eq_refl)].
Defined.

Lemma cow_makes_exclusive_witness :
  shared_heap !! 0%nat = Some (mkRC 2 (Impl_new false))
  /\ 0 < 2
  /\ m_spies (Impl_new false) = []
  /\ exists hp' h', heap_cow (shared_heap, mkHandle 0) = (Ok tt, (hp', h'))
       /\ hp' !! m_impl h' = Some (mkRC 1 (Impl_new false)).
Proof.
  assert (Hlive : shared_heap !! 0%nat = Some (mkRC 2 (Impl_new false)))
    by (vm_compute; reflexivity).
  split; [exact Hlive|]. split; [exact (le_S _ _ (le_n 1))|]. split; [reflexivity|].
  destruct (cow_makes_exclusive shared_heap (mkHandle 0) 2 (Impl_new false) Hlive
              (le_S _ _ (le_n 1)) eq_refl) as (hp' & h' & Hcow & Hone & _).
  exists hp', h'. split; assumption.
Defined.

Lemma atomdb_stored_lines_witness :
  let v' := snd (ValAtomDB_set_from_strrep "nodefaults@H:is:D" ValAtomDB_new) in
  ValAtomDB_set_from_strrep "nodefaults@H:is:D" ValAtomDB_new = (Ok tt, v')
  /\ atomdb_value v' = [["nodefaults"]; ["H"; "is"; "D"]]
  /\ atomdb_lines_ok (atomdb_value v')
  /\ atomdb_value_as_string v' = "nodefaults@H:is:D".
Proof.
  intros v'.
  assert (Hset : ValAtomDB_set_from_strrep "nodefaults@H:is:D" ValAtomDB_new = (Ok tt, v'))
    by (vm_compute; reflexivity).
  split; [exact Hset|]. split; [vm_compute; reflexivity|].
  destruct (atomdb_stored_lines "nodefaults@H:is:D" ValAtomDB_new v' Hset) as [Hok Hstr].
  split; [exact Hok|]. vm_compute. reflexivity.
Defined.

Lemma invalid_unit_witness :
  dbl_unittype (mkValDbl 0%float UnitTemp "") <> UnitNone
  /\ bare_number "20" = true
  /\ unit_suffix "Aa" = true
  /\ isOneOf "Aa" (units_of UnitTemp) = false
  /\ ValDbl_set_from_strrep ("20" +:+ "Aa") (mkValDbl 0%float UnitTemp "")
     = (Throw BadInput "Invalid unit", mkValDbl 0%float UnitTemp "").
Proof.
  assert (Hut : dbl_unittype (mkValDbl 0%float UnitTemp "") <> UnitNone) by discriminate.
  split; [exact Hut|]. split; [reflexivity|]. split; [reflexivity|]. split; [reflexivity|].
  exact (invalid_unit (mkValDbl 0%float UnitTemp "") "20" "Aa" Hut eq_refl eq_refl eq_refl).
Defined.

Lemma flag_is_recognised_witness :
  infofactopt_validate cfg_factory ["expandhkl"] = Ok tt
  /\ get_infofactopt_flag cfg_factory "expandhkl" = Ok true
  /\ "expandhkl" ∈ ["expandhkl"].
Proof.
  assert (Hv : infofactopt_validate cfg_factory ["expandhkl"] = Ok tt)
    by (vm_compute; reflexivity).
  assert (Hf : get_infofactopt_flag cfg_factory "expandhkl" = Ok true)
    by (vm_compute; reflexivity).
  split; [exact Hv|]. split; [exact Hf|].
  exact (flag_is_recognised cfg_factory ["expandhkl"] "expandhkl" Hv Hf).
Defined.

Lemma createInfo_accepts_witness :
  exists vars, createInfo_cfgvars cfg_factory = Ok vars
    /\ getDataFileExtension cfg_factory = Ok "ncmat"
    /\ get_infofactopt_flag cfg_factory "expandhkl" = Ok (cv_expandhkl vars)
    /\ cv_expandhkl vars = true.
Proof.
  destruct (createInfo_cfgvars cfg_factory) as [vars|] eqn:Hc;
    [|vm_compute in Hc; discriminate].
  exists vars. split; [reflexivity|].
  destruct (createInfo_accepts cfg_factory vars Hc) as (Hext & _ & _ & _ & _ & Hflag & _).
  split; [exact Hext|]. split; [exact Hflag|].
  vm_compute in Hc. injection Hc as <-. reflexivity.
Defined.

Lemma parseLine_join_witness :
  Forall (fun t => is_token t = true) ["lengths"; "4.05"; "4.05"; "4.05"]
  /\ NCMAT.parseLine "lengths 4.05 4.05 4.05" = Ok ["lengths"; "4.05"; "4.05"; "4.05"].
Proof.
  assert (Hall : Forall (fun t => is_token t = true) ["lengths"; "4.05"; "4.05"; "4.05"])
    by (repeat constructor).
  split; [exact Hall|].
  exact (parseLine_join ["lengths"; "4.05"; "4.05"; "4.05"] Hall).
Defined.

Lemma parseLine_tokens_witness :
  NCMAT.parseLine "  lengths 4.05 # a comment" = Ok ["lengths"; "4.05"]
  /\ Forall (fun t => is_token t = true) ["lengths"; "4.05"].
Proof.
  assert (Hline : NCMAT.parseLine "  lengths 4.05 # a comment" = Ok ["lengths"; "4.05"])
    by reflexivity.
  split; [exact Hline|].
  exact (parseLine_tokens "  lengths 4.05 # a comment" ["lengths"; "4.05"] Hline).
Defined.

Lemma gated_section_refused_in_file_witness :
  NCMAT.parseLine "@DYNINFO" = Ok ["@DYNINFO"]
  /\ section_gate "DYNINFO" = Some (2%Z, NCMAT.H_DYNINFO)
  /\ (NCMAT.version (NCMAT.m_data v1_start) <? 2)%Z = true
  /\ is_Ok (fst (NCMAT.parseFile (["@CELL"; "lengths 4 4 4"] ++ "@DYNINFO" :: ["fraction 1"])
                                 v1_start)) = false.
Proof.
  split; [reflexivity|]. split; [reflexivity|]. split; [reflexivity|].
  exact (gated_section_refused_in_file ["@CELL"; "lengths 4 4 4"] ["fraction 1"] "@DYNINFO"
           [] "DYNINFO" 2 NCMAT.H_DYNINFO v1_start eq_refl eq_refl eq_refl).
Defined.

Lemma data_before_first_section_witness :
  NCMAT.itSection NCMAT.FileLoop_new = NCMAT.H_HEAD
  /\ NCMAT.parseLine "lengths 1 2 3" = Ok ["lengths"; "1"; "2"; "3"]
  /\ NCMAT.first_chr_is "lengths" "@" = false
  /\ exists w, NCMAT.parseFile_line NCMAT.FileLoop_new "lengths 1 2 3" dyninfo_start
               = (Throw BadInput w, dyninfo_start).
Proof.
  split; [reflexivity|]. split; [reflexivity|]. split; [reflexivity|].
  exact (data_before_first_section NCMAT.FileLoop_new "lengths 1 2 3" "lengths"
           ["1"; "2"; "3"] dyninfo_start eq_refl eq_refl eq_refl).
Defined.

Lemma section_given_twice_witness :
  let loc := NCMAT.mkLoop "CELL" NCMAT.H_CELL {["CELL"]} true in
  startswith "CELL" "CUSTOM_" = false
  /\ String.eqb "CELL" "DYNINFO" = false
  /\ "CELL" ∈ NCMAT.sections_seen loc
  /\ throws BadInput (fst (NCMAT.parseFile_marker loc "@CELL" ["@CELL"] dyninfo_start)).
Proof.
  intros loc.
  split; [reflexivity|]. split; [reflexivity|].
  assert (Hseen : "CELL" ∈ NCMAT.sections_seen loc) by (subst loc; cbn; set_solver).
  split; [exact Hseen|].
  destruct (section_given_twice loc "@CELL" "CELL" [] dyninfo_start eq_refl eq_refl)
    as [Htwice _].
  exact (Htwice Hseen).
Defined.

Lemma dyninfo_numbers_without_field_witness :
  NCMAT.first_chr_ge_a "0.1" && contains_only "0.1" NCMAT.lowercase_underscore = false
  /\ NCMAT.m_dyninfo_active_vector_field dyninfo_start = None
  /\ throws LogicError (fst (NCMAT.handleSectionData_DYNINFO ["0.1"; "0.2"] dyninfo_start)).
Proof.
  split; [reflexivity|]. split; [reflexivity|].
  exact (dyninfo_numbers_without_field "0.1" ["0.2"] dyninfo_start eq_refl eq_refl).
Defined.

Lemma cell_keyword_twice_witness :
  let p' := snd (NCMAT.handleSectionData_CELL ["lengths"; "4"; "4"; "4"] dyninfo_start) in
  let between := [["angles"; "90"; "90"; "90"]] in
  NCMAT.handleSectionData_CELL ["lengths"; "4"; "4"; "4"] dyninfo_start = (Ok tt, p')
  /\ is_Ok (fst (forM_ between NCMAT.handleSectionData_CELL p')) = true
  /\ throws BadInput
       (fst (NCMAT.handleSectionData_CELL ["lengths"; "5"; "5"; "5"]
               (snd (forM_ between NCMAT.handleSectionData_CELL p')))).
Proof.
  intros p' between.
  assert (Hfirst : NCMAT.handleSectionData_CELL ["lengths"; "4"; "4"; "4"] dyninfo_start
                   = (Ok tt, p')) by (vm_compute; reflexivity).
  split; [exact Hfirst|]. split; [vm_compute; reflexivity|].
  exact (proj2 (cell_keyword_twice "lengths" ["4"; "4"; "4"] ["5"; "5"; "5"] between
                                   dyninfo_start p' Hfirst)).
Defined.

Lemma header_is_required_witness :
  exists d, NCMAT.parseNCMATData ["NCMAT v2"] false = Ok d
    /\ exists line rest parts,
         ["NCMAT v2"] = line :: rest
         /\ startswith line "NCMAT" = true
         /\ NCMAT.parseLine line = Ok parts
         /\ length parts = 2%nat.
Proof.
  destruct (NCMAT.parseNCMATData ["NCMAT v2"] false) as [d|] eqn:Hp;
    [|vm_compute in Hp; discriminate].
  exists d. split; [reflexivity|].
  destruct (header_is_required ["NCMAT v2"] false d Hp)
    as (line & rest & parts & Hl & Hs & Hparts & Hlen & _).
  exists line, rest, parts. repeat split; assumption.
Defined.

(** A line of numbers right after the marker of @DYNINFO in a file. *)
Lemma dyninfo_numbers_in_file :
  throws LogicError (NCMAT.parseNCMATData ["NCMAT v2"; "@DYNINFO"; "0.1 0.2"] false).
Proof. eexists. vm_compute. reflexivity. Qed.

End Reference.

End Facts.
